(** * Userspace netlink transport of the eCryptfs daemon

    A shallow embedding of [src/libecryptfs/netlink.c]: the frame sender
    [ecryptfs_send_netlink], the two-pass receiver [ecryptfs_recv_netlink],
    the socket set-up [ecryptfs_init_netlink] and the dispatch loop
    [ecryptfs_run_netlink_daemon].

    The C functions are written in a small state-and-failure monad over a
    [world] that holds the C heap (live blocks of bytes), [errno], the
    datagrams waiting on the netlink socket, the datagrams handed to the
    kernel, and the scripted outcomes of the calls that may fail.  Every
    libc call is appended to a trace so that statements about what the code
    does between entry and return can be read off the final world.

    Conventions (LP64 Linux, little-endian host):
    - a byte is a [byte] of the standard library; [int] is 32 bits,
      [size_t] 64 bits; conversions are written out with [to_int],
      [to_u32], [to_u16], [to_size_t];
    - a pointer is an address in [Z], [NULL] is [0]; a fresh block gets the
      next address of a counter and addresses are never handed out twice;
    - a byte of a block is [Some b] once written and [None] while it is
      indeterminate (fresh from [malloc]/[realloc]);
    - undefined behaviour of C (use after free, double free, out-of-bounds
      access, reading an indeterminate value, signed overflow) is the
      outcome [Undefined];
    - [syslog] calls are left out: they change neither control flow nor
      memory. *)

From Stdlib Require Import ZArith List Lia Bool.
From Stdlib.Strings Require Import Byte.
From stdpp Require Import base tactics option list gmap.

Local Open Scope Z_scope.

(** ** Machine integers *)

Definition wrap_unsigned (bits x : Z) : Z := x mod 2 ^ bits.
Definition wrap_signed (bits x : Z) : Z :=
  (x + 2 ^ (bits - 1)) mod 2 ^ bits - 2 ^ (bits - 1).

Definition to_int : Z -> Z := wrap_signed 32.
Definition to_u32 : Z -> Z := wrap_unsigned 32.
Definition to_u16 : Z -> Z := wrap_unsigned 16.
Definition to_size_t : Z -> Z := wrap_unsigned 64.

Definition INT_MAX : Z := 2 ^ 31 - 1.
Definition PTRDIFF_MAX : Z := 2 ^ 63 - 1.
Definition NULL : Z := 0.

(** ** Constants of the system headers *)

(** [<errno.h>] (Linux, asm-generic). *)
Definition EIO : Z := 5.
Definition EBADF : Z := 9.
Definition ENOMEM : Z := 12.
Definition ENOMSG : Z := 42.
Definition EPROTO : Z := 71.

(** The failures a socket call can report; [errno_val] is the value the
    call leaves in [errno]. *)
Inductive errno_code : Type :=
| E_INTR | E_IO | E_BADF | E_AGAIN | E_NOMEM | E_ACCES | E_FAULT | E_INVAL
| E_NFILE | E_MFILE | E_PIPE | E_NOTSOCK | E_MSGSIZE | E_PROTONOSUPPORT
| E_AFNOSUPPORT | E_ADDRINUSE | E_NOBUFS | E_NOTCONN | E_CONNREFUSED.

Definition errno_val (e : errno_code) : Z :=
  match e with
  | E_INTR => 4 | E_IO => 5 | E_BADF => 9 | E_AGAIN => 11 | E_NOMEM => 12
  | E_ACCES => 13 | E_FAULT => 14 | E_INVAL => 22 | E_NFILE => 23
  | E_MFILE => 24 | E_PIPE => 32 | E_NOTSOCK => 88 | E_MSGSIZE => 90
  | E_PROTONOSUPPORT => 93 | E_AFNOSUPPORT => 97 | E_ADDRINUSE => 98
  | E_NOBUFS => 105 | E_NOTCONN => 107 | E_CONNREFUSED => 111
  end.

(** [<sys/socket.h>], [<linux/netlink.h>]. *)
Definition MSG_PEEK : Z := 2.
Definition AF_NETLINK : Z := 16.
Definition PF_NETLINK : Z := 16.
Definition SOCK_RAW : Z := 3.

(** [struct nlmsghdr]: [nlmsg_len] (u32, offset 0), [nlmsg_type] (u16, 4),
    [nlmsg_flags] (u16, 6), [nlmsg_seq] (u32, 8), [nlmsg_pid] (u32, 12). *)
Definition sizeof_nlmsghdr : Z := 16.
Definition off_nlmsg_len : nat := 0.
Definition off_nlmsg_type : nat := 4.
Definition off_nlmsg_flags : nat := 6.
Definition off_nlmsg_seq : nat := 8.
Definition off_nlmsg_pid : nat := 12.

(** [struct sockaddr_nl]; its size is 12 bytes. *)
Record sockaddr_nl : Type := {
  nl_family : Z;
  nl_pid : Z;
  nl_groups : Z
}.
Definition sizeof_sockaddr_nl : Z := 12.

(** The netlink size macros.  [NLMSG_ALIGNTO] is [4U], so [NLMSG_ALIGN]
    computes in [unsigned int]; [NLMSG_HDRLEN] is cast back to [int]. *)
Definition NLMSG_ALIGNTO : Z := 4.
Definition NLMSG_ALIGN (len : Z) : Z :=
  Z.land (to_u32 (len + NLMSG_ALIGNTO - 1)) (to_u32 (Z.lnot (NLMSG_ALIGNTO - 1))).
Definition NLMSG_HDRLEN : Z := to_int (NLMSG_ALIGN sizeof_nlmsghdr).
Definition NLMSG_LENGTH (len : Z) : Z := len + NLMSG_HDRLEN.
Definition NLMSG_SPACE (len : Z) : Z := NLMSG_ALIGN (NLMSG_LENGTH len).
(** [NLMSG_DATA(nlh)] is [(char* )nlh + NLMSG_LENGTH(0)]: a byte offset. *)
Definition NLMSG_DATA : Z := NLMSG_LENGTH 0.
(** [NLMSG_PAYLOAD(nlh, len)] is [nlh->nlmsg_len - NLMSG_SPACE(len)], a
    subtraction of two [unsigned int]. *)
Definition NLMSG_PAYLOAD (nlmsg_len len : Z) : Z :=
  to_u32 (nlmsg_len - NLMSG_SPACE len).

(** ** Bytes and blocks *)

Definition byte_val (b : byte) : Z := Z.of_N (Byte.to_N b).
Definition byte_of (z : Z) : byte :=
  match Byte.of_N (Z.to_N (z mod 256)) with
  | Some b => b
  | None => x00
  end.

(** One byte of a block: [None] while indeterminate. *)
Abbreviation cell := (option byte).

(** Little-endian integers. *)
Fixpoint le_bytes (n : nat) (v : Z) : list byte :=
  match n with
  | O => []
  | S n' => byte_of v :: le_bytes n' (v / 256)
  end.

Fixpoint le_value (bs : list byte) : Z :=
  match bs with
  | [] => 0
  | b :: bs' => byte_val b + 256 * le_value bs'
  end.

(** All the bytes of a range, when every one of them has been written. *)
Fixpoint defined (cs : list cell) : option (list byte) :=
  match cs with
  | [] => Some []
  | Some b :: cs' => match defined cs' with Some bs => Some (b :: bs) | None => None end
  | None :: _ => None
  end.

(** The [n] cells of [b] from offset [off], and [b] with the cells [cs]
    written at offset [off]. *)
Definition range (off n : nat) (b : list cell) : list cell := take n (drop off b).
Definition overwrite (off : nat) (cs : list cell) (b : list cell) : list cell :=
  take off b ++ cs ++ drop (off + length cs) b.

(** The same as accesses to a block: [None] when the range leaves it. *)
Definition slice (off n : nat) (b : list cell) : option (list cell) :=
  if decide (off + n <= length b)%nat then Some (range off n b) else None.

Definition blit (off : nat) (cs : list cell) (b : list cell) : option (list cell) :=
  if decide (off + length cs <= length b)%nat then Some (overwrite off cs b) else None.

(** An [n]-byte little-endian field at offset [off]. *)
Definition field (off n : nat) (b : list cell) : option Z :=
  match slice off n b with
  | Some cs => le_value <$> defined cs
  | None => None
  end.

Definition set_field (off n : nat) (v : Z) (b : list cell) : option (list cell) :=
  blit off (Some <$> le_bytes n v) b.

(** ** The world outside the program *)

(** What [recvfrom] finds at the head of the socket's queue: a datagram
    with the address of its sender and the length of that address, or a
    failure of the transport. *)
Inductive event : Type :=
| Datagram (data : list byte) (src : sockaddr_nl) (src_len : Z)
| RecvErr (e : errno_code).

(** The outcome of a system call that returns [-1] and sets [errno] on
    failure. *)
Inductive sysret : Type :=
| SysOk (v : Z)
| SysFail (e : errno_code).

(** The libc calls of the program, with arguments and result.  [cap] in
    [CRecvfrom] is the size the buffer has when the call is made. *)
Inductive call : Type :=
| CMalloc (size ret : Z)
| CRealloc (ptr size ret : Z)
| CFree (ptr : Z)
| CRecvfrom (buf : Z) (cap : nat) (len flags ret : Z)
| CSendto (buf len ret : Z)
| CSocket (domain type protocol ret : Z)
| CBind (fd : Z) (addr : sockaddr_nl) (ret : Z)
| CClose (fd : Z)
| CRegisterKeyModules (ret : Z)
| CParsePacket (emsg : Z) (ret reply : Z)
| CFreeKeyModList.

Record world : Type := {
  heap : gmap Z (list cell);      (* live blocks *)
  brk : positive;                 (* next address malloc hands out *)
  errno : Z;
  alloc_script : list bool;       (* true: the next allocation fails *)
  inbox : list event;             (* queue of the netlink socket *)
  send_script : list (option errno_code); (* Some e: the next sendto fails *)
  outbox : list (list cell);      (* datagrams transmitted, oldest first *)
  sys_socket : sysret;            (* outcome of socket() *)
  sys_bind : Z -> sysret;         (* outcome of bind() on a descriptor *)
  sys_getpid : Z;
  trace : list call               (* libc calls so far, oldest first *)
}.

Definition with_heap (h : gmap Z (list cell)) (w : world) : world :=
  {| heap := h; brk := brk w; errno := errno w; alloc_script := alloc_script w;
     inbox := inbox w; send_script := send_script w; outbox := outbox w;
     sys_socket := sys_socket w; sys_bind := sys_bind w;
     sys_getpid := sys_getpid w; trace := trace w |}.

Definition with_brk (a : positive) (w : world) : world :=
  {| heap := heap w; brk := a; errno := errno w; alloc_script := alloc_script w;
     inbox := inbox w; send_script := send_script w; outbox := outbox w;
     sys_socket := sys_socket w; sys_bind := sys_bind w;
     sys_getpid := sys_getpid w; trace := trace w |}.

Definition with_errno (e : Z) (w : world) : world :=
  {| heap := heap w; brk := brk w; errno := e; alloc_script := alloc_script w;
     inbox := inbox w; send_script := send_script w; outbox := outbox w;
     sys_socket := sys_socket w; sys_bind := sys_bind w;
     sys_getpid := sys_getpid w; trace := trace w |}.

Definition with_alloc_script (s : list bool) (w : world) : world :=
  {| heap := heap w; brk := brk w; errno := errno w; alloc_script := s;
     inbox := inbox w; send_script := send_script w; outbox := outbox w;
     sys_socket := sys_socket w; sys_bind := sys_bind w;
     sys_getpid := sys_getpid w; trace := trace w |}.

Definition with_inbox (q : list event) (w : world) : world :=
  {| heap := heap w; brk := brk w; errno := errno w; alloc_script := alloc_script w;
     inbox := q; send_script := send_script w; outbox := outbox w;
     sys_socket := sys_socket w; sys_bind := sys_bind w;
     sys_getpid := sys_getpid w; trace := trace w |}.

Definition with_send_script (s : list (option errno_code)) (w : world) : world :=
  {| heap := heap w; brk := brk w; errno := errno w; alloc_script := alloc_script w;
     inbox := inbox w; send_script := s; outbox := outbox w;
     sys_socket := sys_socket w; sys_bind := sys_bind w;
     sys_getpid := sys_getpid w; trace := trace w |}.

Definition with_outbox (o : list (list cell)) (w : world) : world :=
  {| heap := heap w; brk := brk w; errno := errno w; alloc_script := alloc_script w;
     inbox := inbox w; send_script := send_script w; outbox := o;
     sys_socket := sys_socket w; sys_bind := sys_bind w;
     sys_getpid := sys_getpid w; trace := trace w |}.

Definition log_call (c : call) (w : world) : world :=
  {| heap := heap w; brk := brk w; errno := errno w; alloc_script := alloc_script w;
     inbox := inbox w; send_script := send_script w; outbox := outbox w;
     sys_socket := sys_socket w; sys_bind := sys_bind w;
     sys_getpid := sys_getpid w; trace := trace w ++ [c] |}.

(** ** The monad of C computations *)

Inductive outcome (A : Type) : Type :=
| Done (a : A) (w : world)     (* returned [a], leaving the world [w] *)
| Undefined                    (* undefined behaviour *)
| Blocked (w : world).         (* waits in recvfrom on an empty queue *)
Arguments Done {A} a w.
Arguments Undefined {A}.
Arguments Blocked {A} w.

Definition M (A : Type) : Type := world -> outcome A.

Definition ret {A} (a : A) : M A := fun w => Done a w.
Definition bindM {A B} (m : M A) (k : A -> M B) : M B :=
  fun w => match m w with
           | Done a w' => k a w'
           | Undefined => Undefined
           | Blocked w' => Blocked w'
           end.
Definition undefined {A} : M A := fun _ => Undefined.

Notation "'let*' x ':=' m 'in' k" := (bindM m (fun x => k))
  (at level 10, x name, m at level 100, k at level 200).
Notation "'let*' ' pat ':=' m 'in' k" :=
  (bindM m (fun x => match x with pat => k end))
  (at level 10, pat pattern, m at level 100, k at level 200).

Definition get_errno : M Z := fun w => Done (errno w) w.

(** The value of an expression of type [int]; overflow is undefined. *)
Definition signed (x : Z) : M Z :=
  if decide (- 2 ^ 31 <= x <= INT_MAX) then ret x else undefined.

(** Reading a local variable that may still be indeterminate. *)
Definition rvalue {A} (x : option A) : M A :=
  match x with Some a => ret a | None => undefined end.

(** ** The C library *)

(** A request for a fresh block: requests above [PTRDIFF_MAX] fail; any
    other request fails when the script says so; the block is fresh and
    indeterminate.  [entry] is the trace entry for the pointer returned. *)
Definition allocate (size : Z) (entry : Z -> call) : M Z := fun w =>
  if PTRDIFF_MAX <? size then
    Done NULL (log_call (entry NULL) (with_errno ENOMEM w))
  else match alloc_script w with
       | true :: s =>
           Done NULL (log_call (entry NULL)
                        (with_errno ENOMEM (with_alloc_script s w)))
       | s =>
           Done (Z.pos (brk w))
             (log_call (entry (Z.pos (brk w)))
                (with_heap (<[Z.pos (brk w) := replicate (Z.to_nat size) None]> (heap w))
                   (with_brk (brk w + 1)%positive (with_alloc_script (tail s) w))))
       end.

Definition malloc (size : Z) : M Z := allocate size (CMalloc size).

(** [realloc]: [malloc] for a null pointer; of size zero it frees the block
    and returns [NULL] without touching [errno] (glibc); on failure the old
    block stays; on success the block keeps its leading bytes. *)
Definition realloc (ptr size : Z) : M Z := fun w =>
  if ptr =? NULL then allocate size (CRealloc ptr size) w
  else match heap w !! ptr with
       | None => Undefined
       | Some b =>
           if size =? 0 then
             Done NULL (log_call (CRealloc ptr size NULL)
                          (with_heap (delete ptr (heap w)) w))
           else if PTRDIFF_MAX <? size then
             Done NULL (log_call (CRealloc ptr size NULL) (with_errno ENOMEM w))
           else match alloc_script w with
                | true :: s =>
                    Done NULL (log_call (CRealloc ptr size NULL)
                                 (with_errno ENOMEM (with_alloc_script s w)))
                | s =>
                    let n := Z.to_nat size in
                    Done ptr
                      (log_call (CRealloc ptr size ptr)
                         (with_heap
                            (<[ptr := take n b ++ replicate (n - length b) None]> (heap w))
                            (with_alloc_script (tail s) w)))
                end
       end.

(** [free]: nothing for [NULL]; undefined for a pointer that is not live. *)
Definition free (ptr : Z) : M unit := fun w =>
  if ptr =? NULL then Done tt (log_call (CFree ptr) w)
  else match heap w !! ptr with
       | None => Undefined
       | Some _ => Done tt (log_call (CFree ptr) (with_heap (delete ptr (heap w)) w))
       end.

(** Reading and writing through a pointer. *)
Definition load (ptr : Z) (off n : nat) : M Z := fun w =>
  match heap w !! ptr with
  | Some b => match field off n b with Some v => Done v w | None => Undefined end
  | None => Undefined
  end.

Definition store (ptr : Z) (off n : nat) (v : Z) : M unit := fun w =>
  match heap w !! ptr with
  | Some b => match set_field off n v b with
              | Some b' => Done tt (with_heap (<[ptr := b']> (heap w)) w)
              | None => Undefined
              end
  | None => Undefined
  end.

(** [memcpy(dst + doff, src + soff, n)]. *)
Definition memcpy (dst : Z) (doff : nat) (src : Z) (soff : nat) (n : Z) : M unit := fun w =>
  match heap w !! src, heap w !! dst with
  | Some s, Some d =>
      match slice soff (Z.to_nat n) s with
      | Some cs => match blit doff cs d with
                   | Some d' => Done tt (with_heap (<[dst := d']> (heap w)) w)
                   | None => Undefined
                   end
      | None => Undefined
      end
  | _, _ => Undefined
  end.

(** ** The socket calls *)

(** [recvfrom] on the netlink socket.  A transport failure is reported
    once.  A datagram is copied into the buffer up to [len] bytes and, with
    [MSG_PEEK], stays at the head of the queue; the sender's address and
    its length are returned next to the byte count. *)
Definition recvfrom (sk_fd buf len flags : Z) : M (Z * option (sockaddr_nl * Z)) := fun w =>
  match heap w !! buf with
  | None => Undefined
  | Some b =>
      match inbox w with
      | [] => Blocked w
      | RecvErr e :: q =>
          Done (-1, None)
            (log_call (CRecvfrom buf (length b) len flags (-1))
               (with_errno (errno_val e) (with_inbox q w)))
      | Datagram d src src_len :: q =>
          let n := Z.min len (Z.of_nat (length d)) in
          match blit 0 (Some <$> take (Z.to_nat n) d) b with
          | None => Undefined
          | Some b' =>
              Done (n, Some (src, src_len))
                (log_call (CRecvfrom buf (length b) len flags n)
                   (with_heap (<[buf := b']> (heap w))
                      (with_inbox (if Z.land flags MSG_PEEK =? 0 then q else inbox w) w)))
          end
      end
  end.

(** [sendto]: the first [len] bytes of the buffer leave as one datagram,
    unless the script makes the call fail. *)
Definition sendto (sk_fd buf len : Z) (dst : sockaddr_nl) : M Z := fun w =>
  match heap w !! buf with
  | None => Undefined
  | Some b =>
      match slice 0 (Z.to_nat len) b with
      | None => Undefined
      | Some cs =>
          match send_script w with
          | Some e :: s =>
              Done (-1)
                (log_call (CSendto buf len (-1))
                   (with_errno (errno_val e) (with_send_script s w)))
          | s =>
              Done len
                (log_call (CSendto buf len len)
                   (with_outbox (outbox w ++ [cs]) (with_send_script (tail s) w)))
          end
      end
  end.

Definition socket (domain type protocol : Z) : M Z := fun w =>
  match sys_socket w with
  | SysOk fd => Done fd (log_call (CSocket domain type protocol fd) w)
  | SysFail e =>
      Done (-1) (log_call (CSocket domain type protocol (-1)) (with_errno (errno_val e) w))
  end.

Definition bind (fd : Z) (addr : sockaddr_nl) (addrlen : Z) : M Z := fun w =>
  match sys_bind w fd with
  | SysOk _ => Done 0 (log_call (CBind fd addr 0) w)
  | SysFail e => Done (-1) (log_call (CBind fd addr (-1)) (with_errno (errno_val e) w))
  end.

Definition close (fd : Z) : M unit := fun w => Done tt (log_call (CClose fd) w).

Definition getpid : M Z := fun w => Done (sys_getpid w) w.

(** ** What [../include/ecryptfs.h] and the key-module code provide *)

(** The constants of [../include/ecryptfs.h], a header that is not part of
    the sources at hand: they are parameters of the development. *)
Class EcryptfsHeader : Type := {
  ECRYPTFS_NETLINK_ERROR_COUNT_THRESHOLD : Z;
  ECRYPTFS_NLMSG_HELO : Z;
  ECRYPTFS_NLMSG_QUIT : Z;
  ECRYPTFS_NLMSG_REQUEST : Z;
  ECRYPTFS_NLMSG_RESPONSE : Z;
  NETLINK_ECRYPTFS : Z
}.

(** Modelled from the spec: [struct ecryptfs_netlink_message] is declared
    in [../include/ecryptfs.h], which is missing.  The spec gives a Message
    an [index] field and an opaque byte sequence; the code reads [index],
    [data_len] and [sizeof( *emsg)].  The layout taken here is a leading
    [index] (u32, offset 0), then [data_len] (u32, offset 4), then the
    data: 8 bytes before the flexible array. *)
Definition sizeof_emsg : Z := 8.
Definition off_index : nat := 0.
Definition off_data_len : nat := 4.

(** The key-module registry and the request handler, external to this
    file.  [parse_packet] is given the context and the bytes of the request
    ([None] for a null pointer) and answers with its return code, the
    bytes of the reply it allocated ([None] when it leaves [reply] null)
    and the new context. *)
Class KeyModules : Type := {
  ecryptfs_ctx : Type;
  ctx_zero : ecryptfs_ctx;
  ecryptfs_register_key_modules : ecryptfs_ctx -> Z * ecryptfs_ctx;
  parse_packet : ecryptfs_ctx -> option (list cell) -> Z * option (list cell) * ecryptfs_ctx;
  ecryptfs_free_key_mod_list : ecryptfs_ctx -> ecryptfs_ctx
}.

(** ** The program *)

Section Netlink.
Context `{Hdr : EcryptfsHeader} `{KM : KeyModules}.

(** *** [ecryptfs_send_netlink] *)

Definition ecryptfs_send_netlink (sk_fd emsg msg_type msg_flags msg_seq : Z) : M Z :=
  (* payload_len = emsg ? sizeof( *emsg) + emsg->data_len : 0; *)
  let* payload_len :=
    (if emsg =? NULL then ret 0
     else let* data_len := load emsg off_data_len 4 in
          ret (to_int (to_size_t (sizeof_emsg + data_len)))) in
  let* nlmsg_length := signed (NLMSG_LENGTH payload_len) in
  let* nlh := malloc (NLMSG_ALIGN nlmsg_length) in
  let out (rc : Z) : M Z := let* _ := free nlh in ret rc in
  if nlh =? NULL then out (- ENOMEM)
  else
    let dst_addr := {| nl_family := AF_NETLINK; nl_pid := 0; nl_groups := 0 |} in
    let* _ := store nlh off_nlmsg_len 4 (to_u32 nlmsg_length) in
    let* _ := store nlh off_nlmsg_seq 4 (to_u32 msg_seq) in
    let* _ := store nlh off_nlmsg_pid 4 0 in
    let* _ := store nlh off_nlmsg_type 2 (to_u16 msg_type) in
    let* _ := store nlh off_nlmsg_flags 2 (to_u16 msg_flags) in
    let* _ := (if payload_len =? 0 then ret tt
               else memcpy nlh (Z.to_nat NLMSG_DATA) emsg 0 (to_size_t payload_len)) in
    let* nlmsg_len := load nlh off_nlmsg_len 4 in
    let* rc := sendto sk_fd nlh nlmsg_len dst_addr in
    let rc := to_int rc in
    if rc <? 0 then
      let* e := get_errno in
      out (to_int (- e))
    else out rc.

(** *** [ecryptfs_recv_netlink]

    The caller's [*emsg], [*msg_seq] and [*msg_type] are passed in and
    returned next to the return code.  The code from the label [receive]
    runs at most twice: the first pass peeks, clears [MSG_PEEK] and jumps
    back; [pass] counts the passes left. *)

Fixpoint receive (pass : nat) (sk_fd nlh buf_len flags : Z)
    (nladdr : option sockaddr_nl) (nladdr_len : Z)
    (emsg : Z) (msg_seq msg_type : option Z) : M (Z * Z * option Z * option Z) :=
  match pass with
  | O => undefined
  | S pass' =>
      let* nlh := realloc nlh (to_size_t buf_len) in
      if nlh =? NULL then
        let* e := get_errno in
        ret (to_int (- e), emsg, msg_seq, msg_type)            (* goto out *)
      else
        let free_out (rc emsg : Z) (msg_seq msg_type : option Z) :=
          let* _ := free nlh in ret (rc, emsg, msg_seq, msg_type) in
        let* '(rc, from) := recvfrom sk_fd nlh (to_size_t buf_len) flags in
        let rc := to_int rc in
        let nladdr := match from with Some (a, _) => Some a | None => nladdr end in
        let nladdr_len := match from with Some (_, l) => l | None => nladdr_len end in
        if rc <? 0 then
          let* e := get_errno in
          free_out (to_int (- e)) emsg msg_seq msg_type
        else if negb (Z.land flags MSG_PEEK =? 0) then
          let* nlmsg_len := load nlh off_nlmsg_len 4 in
          receive pass' sk_fd nlh (to_int nlmsg_len) (Z.land flags (Z.lnot MSG_PEEK))
            nladdr nladdr_len emsg msg_seq msg_type             (* goto receive *)
        else if negb (nladdr_len =? sizeof_sockaddr_nl) then
          free_out (- EPROTO) emsg msg_seq msg_type
        else
          let* addr := rvalue nladdr in
          if negb (nl_pid addr =? 0) then
            ret (- ENOMSG, emsg, msg_seq, msg_type)             (* goto out *)
          else
            let* nlmsg_len := load nlh off_nlmsg_len 4 in
            let pl_len := to_int (NLMSG_PAYLOAD nlmsg_len 0) in
            let finish (emsg : Z) :=
              let* seq := load nlh off_nlmsg_seq 4 in
              let* type := load nlh off_nlmsg_type 2 in
              free_out rc emsg (Some (to_int seq)) (Some type) in
            if negb (pl_len =? 0) then
              let* p := malloc (to_size_t pl_len) in
              if p =? NULL then
                let* e := get_errno in
                free_out (to_int (- e)) p msg_seq msg_type
              else
                let* _ := memcpy p 0 nlh (Z.to_nat NLMSG_DATA) (to_size_t pl_len) in
                finish p
            else finish emsg
  end.

Definition ecryptfs_recv_netlink (sk_fd emsg : Z) (msg_seq msg_type : option Z)
  : M (Z * Z * option Z * option Z) :=
  (* nlh = NULL; nladdr_len = sizeof(nladdr); flags = MSG_PEEK;
     buf_len = sizeof( *nlh) *)
  receive 2 sk_fd NULL sizeof_nlmsghdr MSG_PEEK None sizeof_sockaddr_nl
    emsg msg_seq msg_type.

(** *** [ecryptfs_init_netlink], [ecryptfs_release_netlink],
    [init_netlink_daemon]

    [ecryptfs_init_netlink] returns its code and the descriptor it stored
    in [*sk_fd]. *)

Definition ecryptfs_init_netlink : M (Z * Z) :=
  let* sk_fd := socket PF_NETLINK SOCK_RAW NETLINK_ECRYPTFS in
  if sk_fd =? 0 then                                  (* if (!( *sk_fd)) *)
    let* e := get_errno in
    ret (to_int (- e), sk_fd)
  else
    let* pid := getpid in
    let src_addr := {| nl_family := AF_NETLINK; nl_pid := pid; nl_groups := 0 |} in
    let* rc := bind sk_fd src_addr sizeof_sockaddr_nl in
    if negb (rc =? 0) then
      let* e := get_errno in
      ret (to_int (- e), sk_fd)
    else ret (rc, sk_fd).

Definition ecryptfs_release_netlink (sk_fd : Z) : M unit := close sk_fd.

Definition init_netlink_daemon : M Z := ret 0.

(** *** [ecryptfs_run_netlink_daemon] *)

(** The local variables that live across iterations. *)
Record locals : Type := {
  emsg : Z;
  ctx : ecryptfs_ctx;
  msg_seq : option Z;
  msg_type : option Z;
  error_count : Z
}.

Definition set_error_count (n : Z) (l : locals) : locals :=
  {| emsg := emsg l; ctx := ctx l; msg_seq := msg_seq l; msg_type := msg_type l;
     error_count := n |}.

(** Where one pass through the loop body ends. *)
Inductive jump : Type :=
| GotoOut (rc : Z) (l : locals)
| GotoReceive (l : locals).

(** The external calls, with their entries in the trace. *)
Definition call_register_key_modules (c : ecryptfs_ctx) : M (Z * ecryptfs_ctx) := fun w =>
  let '(rc, c') := ecryptfs_register_key_modules c in
  Done (rc, c') (log_call (CRegisterKeyModules rc) w).

Definition call_parse_packet (c : ecryptfs_ctx) (emsg : Z) : M (Z * Z * ecryptfs_ctx) := fun w =>
  let request :=
    if emsg =? NULL then Some None
    else match heap w !! emsg with Some b => Some (Some b) | None => None end in
  match request with
  | None => Undefined
  | Some req =>
      let '(rc, rep, c') := parse_packet c req in
      match rep with
      | None => Done (rc, NULL, c') (log_call (CParsePacket emsg rc NULL) w)
      | Some b =>
          Done (rc, Z.pos (brk w), c')
            (log_call (CParsePacket emsg rc (Z.pos (brk w)))
               (with_heap (<[Z.pos (brk w) := b]> (heap w))
                  (with_brk (brk w + 1)%positive w)))
      end
  end.

Definition call_free_key_mod_list (c : ecryptfs_ctx) : M ecryptfs_ctx := fun w =>
  Done (ecryptfs_free_key_mod_list c) (log_call CFreeKeyModList w).

(** One pass from the label [receive] to the next jump. *)
Definition daemon_pass (sk_fd : Z) (l : locals) : M jump :=
  let free_emsg (l : locals) : M jump := let* _ := free (emsg l) in ret (GotoReceive l) in
  let* '(rc, emsg', msg_seq', msg_type') :=
     ecryptfs_recv_netlink sk_fd (emsg l) (msg_seq l) (msg_type l) in
  let l := {| emsg := emsg'; ctx := ctx l; msg_seq := msg_seq';
              msg_type := msg_type'; error_count := error_count l |} in
  if rc <? 0 then
    let* n := signed (error_count l + 1) in
    let l := {| emsg := emsg l; ctx := ctx l; msg_seq := msg_seq l;
                msg_type := msg_type l; error_count := n |} in
    if ECRYPTFS_NETLINK_ERROR_COUNT_THRESHOLD <? error_count l then
      ret (GotoOut (- EIO) l)
    else free_emsg l
  else
    let* type := rvalue (msg_type l) in
    if type =? ECRYPTFS_NLMSG_HELO then
      free_emsg {| emsg := emsg l; ctx := ctx l; msg_seq := msg_seq l;
                   msg_type := msg_type l; error_count := 0 |}
    else if type =? ECRYPTFS_NLMSG_QUIT then
      let* _ := free (emsg l) in
      ret (GotoOut 0 l)
    else if type =? ECRYPTFS_NLMSG_REQUEST then
      let* '(rc, reply, c') := call_parse_packet (ctx l) (emsg l) in
      let l := {| emsg := emsg l; ctx := c'; msg_seq := msg_seq l;
                  msg_type := msg_type l; error_count := error_count l |} in
      if negb (rc =? 0) then
        let* _ := free reply in
        free_emsg l
      else
        (* reply->index = emsg->index; *)
        let* _ := (if (reply =? NULL) || (emsg l =? NULL) then undefined else ret tt) in
        let* index := load (emsg l) off_index 4 in
        let* _ := store reply off_index 4 index in
        let* seq := rvalue (msg_seq l) in
        let* rc := ecryptfs_send_netlink sk_fd reply ECRYPTFS_NLMSG_RESPONSE 0 seq in
        let* _ := free reply in
        free_emsg {| emsg := emsg l; ctx := ctx l; msg_seq := msg_seq l;
                     msg_type := msg_type l; error_count := 0 |}
    else free_emsg l.

(** The loop, for at most [fuel] passes; out of fuel it stands at the
    label [receive]. *)
Fixpoint daemon_loop (fuel : nat) (sk_fd : Z) (l : locals) : M jump :=
  match fuel with
  | O => ret (GotoReceive l)
  | S fuel' =>
      let* j := daemon_pass sk_fd l in
      match j with
      | GotoOut rc l' => ret (GotoOut rc l')
      | GotoReceive l' => daemon_loop fuel' sk_fd l'
      end
  end.

(** What a run of the daemon has come to: it returned [rc], or it is still
    in its loop with the given locals. *)
Inductive daemon_result : Type :=
| Returned (rc : Z)
| Running (l : locals).

Definition ecryptfs_run_netlink_daemon (fuel : nat) (sk_fd : Z) : M daemon_result :=
  let out (rc : Z) (c : ecryptfs_ctx) : M daemon_result :=
    let* _ := call_free_key_mod_list c in ret (Returned rc) in
  let* '(rc, c) := call_register_key_modules ctx_zero in
  if negb (rc =? 0) then out rc c
  else
    let* j := daemon_loop fuel sk_fd
                {| emsg := NULL; ctx := c; msg_seq := None; msg_type := None;
                   error_count := 0 |} in
    match j with
    | GotoOut rc l => out rc (ctx l)
    | GotoReceive l => ret (Running l)
    end.

End Netlink.

(** ** A header, a handler and worlds for the examples *)

(** Values for the constants of the missing header. *)
Definition example_header : EcryptfsHeader := {|
  ECRYPTFS_NETLINK_ERROR_COUNT_THRESHOLD := 8;
  ECRYPTFS_NLMSG_HELO := 100;
  ECRYPTFS_NLMSG_QUIT := 101;
  ECRYPTFS_NLMSG_REQUEST := 102;
  ECRYPTFS_NLMSG_RESPONSE := 103;
  NETLINK_ECRYPTFS := 19
|}.

(** A message as it lies in memory: [index], [data_len], data. *)
Definition message (index : Z) (data : list byte) : list byte :=
  le_bytes 4 index ++ le_bytes 4 (Z.of_nat (length data)) ++ data.

(** A handler that answers every request with the three bytes "KEY" and
    leaves [0xdeadbeef] in the index of its reply. *)
Definition example_key_modules : KeyModules := {|
  ecryptfs_ctx := unit;
  ctx_zero := tt;
  ecryptfs_register_key_modules := fun c => (0, c);
  parse_packet := fun c req =>
    match req with
    | Some _ => (0, Some (Some <$> message 3735928559 (byte_of <$> [75; 69; 89])), c)
    | None => (-22, None, c)
    end;
  ecryptfs_free_key_mod_list := fun c => c
|}.

Definition kernel : sockaddr_nl :=
  {| nl_family := AF_NETLINK; nl_pid := 0; nl_groups := 0 |}.
Definition intruder : sockaddr_nl :=
  {| nl_family := AF_NETLINK; nl_pid := 4711; nl_groups := 0 |}.

(** A netlink frame whose declared length is its length. *)
Definition frame (type seq : Z) (payload : list byte) : list byte :=
  le_bytes 4 (sizeof_nlmsghdr + Z.of_nat (length payload))
  ++ le_bytes 2 type ++ le_bytes 2 0 ++ le_bytes 4 seq ++ le_bytes 4 0 ++ payload.

(** A frame that declares [len] bytes, whatever follows its header. *)
Definition frame_declaring (len type seq : Z) (payload : list byte) : list byte :=
  le_bytes 4 len ++ le_bytes 2 type ++ le_bytes 2 0 ++ le_bytes 4 seq
  ++ le_bytes 4 0 ++ payload.

(** A world with an empty heap in which no allocation and no [sendto]
    fails, [socket] gives descriptor 3 and [bind] succeeds; [q] waits on
    the socket. *)
Definition quiet (q : list event) : world :=
  {| heap := ∅; brk := 1%positive; errno := 0; alloc_script := []; inbox := q;
     send_script := []; outbox := [];
     sys_socket := SysOk 3; sys_bind := fun _ => SysOk 0; sys_getpid := 4242;
     trace := [] |}.

(** A world in which [socket] fails for want of descriptors and [bind]
    rejects a descriptor that is not open. *)
Definition no_descriptors : world :=
  {| heap := ∅; brk := 1%positive; errno := 0; alloc_script := []; inbox := [];
     send_script := []; outbox := [];
     sys_socket := SysFail E_MFILE;
     sys_bind := fun fd => if fd <? 0 then SysFail E_BADF else SysOk 0;
     sys_getpid := 4242; trace := [] |}.

(** A world in which [socket] returns descriptor 0 (standard input was
    closed) and [errno] is still clear. *)
Definition descriptor_zero : world :=
  {| heap := ∅; brk := 1%positive; errno := 0; alloc_script := []; inbox := [];
     send_script := []; outbox := [];
     sys_socket := SysOk 0; sys_bind := fun _ => SysOk 0;
     sys_getpid := 4242; trace := [] |}.

(** The locals of the daemon when it first reaches [receive]. *)
Definition start : @locals example_key_modules :=
  {| emsg := NULL; ctx := @ctx_zero example_key_modules; msg_seq := None;
     msg_type := None; error_count := 0 |}.

(** The program with the example header and handler. *)
Definition example_pass : Z -> @locals example_key_modules -> M (@jump example_key_modules) :=
  @daemon_pass example_header example_key_modules.
Definition example_loop : nat -> Z -> @locals example_key_modules -> M (@jump example_key_modules) :=
  @daemon_loop example_header example_key_modules.
Definition example_daemon : nat -> Z -> M (@daemon_result example_key_modules) :=
  @ecryptfs_run_netlink_daemon example_header example_key_modules.
Definition example_init : M (Z * Z) := @ecryptfs_init_netlink example_header.

(** What is left of an outcome when the world is dropped. *)
Definition result {A} (o : outcome A) : option A :=
  match o with
  | Done a _ => Some a
  | _ => None
  end.

Definition final_world {A} (o : outcome A) : option world :=
  match o with
  | Done _ w => Some w
  | Blocked w => Some w
  | Undefined => None
  end.

(** Two example frames: a request with index 7 and sequence number 77,
    and a handshake without payload. *)
Definition example_request : list byte :=
  frame 102 77 (message 7 (byte_of <$> [71; 69; 84])).
Definition example_helo : list byte := frame 100 78 [].

(** A termination frame and a frame of a type the daemon does not know. *)
Definition example_quit : list byte := frame 101 79 [].
Definition example_unknown : list byte := frame 999 80 [].

(** The world [w] with the bytes [bs] in a live block at address [a]. *)
Definition holding (a : Z) (bs : list byte) (w : world) : world :=
  with_heap (<[a := Some <$> bs]> (heap w)) w.

(** What a write through [ptr] leaves alone. *)
Definition same_but (ptr : Z) (w w1 : world) : Prop :=
  (forall a, a <> ptr -> heap w1 !! a = heap w !! a)
  /\ inbox w1 = inbox w /\ outbox w1 = outbox w.

(** A handler that turns every request down and leaves behind a reply it
    has allocated. *)
Definition refusing_key_modules : KeyModules := {|
  ecryptfs_ctx := unit;
  ctx_zero := tt;
  ecryptfs_register_key_modules := fun c => (0, c);
  parse_packet := fun c _ => (-22, Some (Some <$> message 0 []), c);
  ecryptfs_free_key_mod_list := fun c => c
|}.

(** A second request, with index 9 and sequence number 78. *)
Definition example_request2 : list byte :=
  frame 102 78 (message 9 (byte_of <$> [80; 85; 84])).

(** The daemon after it has answered [example_request]: its [emsg] still
    holds the address of the request, which it has freed; four addresses
    have been handed out and no block is live. *)
Definition stale : @locals example_key_modules :=
  {| emsg := 2; ctx := @ctx_zero example_key_modules; msg_seq := Some 77;
     msg_type := Some 102; error_count := 0 |}.
Definition after_request (q : list event) : world := with_brk 5 (quiet q).

(** * Facts *)

(** ** Machine integers *)

Lemma to_int_small x : - 2 ^ 31 <= x < 2 ^ 31 -> to_int x = x.
Proof.
  intros Hx. unfold to_int, wrap_signed.
  change (2 ^ (32 - 1)) with 2147483648. change (2 ^ 32) with 4294967296.
  change (2 ^ 31) with 2147483648 in Hx.
  rewrite Z.mod_small by lia. lia.
Qed.

Lemma to_int_range x : - 2 ^ 31 <= to_int x < 2 ^ 31.
Proof.
  unfold to_int, wrap_signed.
  change (2 ^ (32 - 1)) with 2147483648. change (2 ^ 32) with 4294967296.
  change (2 ^ 31) with 2147483648.
  pose proof (Z.mod_pos_bound (x + 2147483648) 4294967296). lia.
Qed.

Lemma to_int_high x : 2 ^ 31 <= x < 2 ^ 32 -> to_int x = x - 2 ^ 32.
Proof.
  intros Hx. unfold to_int, wrap_signed.
  change (2 ^ (32 - 1)) with 2147483648. change (2 ^ 32) with 4294967296 in *.
  change (2 ^ 31) with 2147483648 in Hx.
  rewrite <- (Z.mod_add _ (-1)) by lia. rewrite Z.mod_small by lia. lia.
Qed.

Lemma to_u32_small x : 0 <= x < 2 ^ 32 -> to_u32 x = x.
Proof. intros Hx. unfold to_u32, wrap_unsigned. apply Z.mod_small. exact Hx. Qed.

Lemma to_u32_neg x : - 2 ^ 32 <= x < 0 -> to_u32 x = x + 2 ^ 32.
Proof.
  intros Hx. unfold to_u32, wrap_unsigned.
  rewrite <- (Z.mod_add x 1) by lia. rewrite Z.mod_small by lia. lia.
Qed.

Lemma to_u16_small x : 0 <= x < 2 ^ 16 -> to_u16 x = x.
Proof. intros Hx. unfold to_u16, wrap_unsigned. apply Z.mod_small. exact Hx. Qed.

Lemma to_size_t_small x : 0 <= x < 2 ^ 64 -> to_size_t x = x.
Proof. intros Hx. unfold to_size_t, wrap_unsigned. apply Z.mod_small. exact Hx. Qed.

Lemma to_size_t_neg x : - 2 ^ 64 <= x < 0 -> to_size_t x = x + 2 ^ 64.
Proof.
  intros Hx. unfold to_size_t, wrap_unsigned.
  rewrite <- (Z.mod_add x 1) by lia. rewrite Z.mod_small by lia. lia.
Qed.

(** An [unsigned int] survives the trip through [int] and back. *)
Lemma to_u32_to_int x : 0 <= x < 2 ^ 32 -> to_u32 (to_int x) = x.
Proof.
  intros Hx. destruct (Z_lt_dec x (2 ^ 31)) as [Hlt|Hge].
  - rewrite to_int_small by lia. apply to_u32_small. exact Hx.
  - rewrite to_int_high by lia. rewrite to_u32_neg by lia. lia.
Qed.

(** A size that an allocation can satisfy, when it comes from an [int], is
    that [int] and is not negative. *)
Lemma size_from_int x :
  to_size_t (to_int x) <= PTRDIFF_MAX ->
  0 <= to_int x /\ to_size_t (to_int x) = to_int x.
Proof.
  intros H. pose proof (to_int_range x) as R.
  destruct (Z_lt_dec (to_int x) 0) as [Hn|Hn].
  - rewrite to_size_t_neg in H by lia. unfold PTRDIFF_MAX in H. lia.
  - split; [lia|]. apply to_size_t_small. lia.
Qed.

Lemma errno_val_range e : 0 < errno_val e < 2 ^ 31.
Proof. destruct e; cbn; lia. Qed.

Lemma neg_errno_int e : to_int (- errno_val e) = - errno_val e.
Proof. pose proof (errno_val_range e). apply to_int_small. lia. Qed.

(** ** The netlink macros *)

Lemma NLMSG_HDRLEN_16 : NLMSG_HDRLEN = 16.
Proof. reflexivity. Qed.

Lemma NLMSG_SPACE_0 : NLMSG_SPACE 0 = 16.
Proof. reflexivity. Qed.

Lemma NLMSG_ALIGN_spec x :
  0 <= x <= 2 ^ 32 - 4 -> NLMSG_ALIGN x = 4 * ((x + 3) / 4).
Proof.
  intros Hx. unfold NLMSG_ALIGN, NLMSG_ALIGNTO.
  rewrite (to_u32_small (x + 4 - 1)) by lia.
  unfold to_u32 at 1, wrap_unsigned.
  rewrite <- Z.land_ones by lia.
  rewrite Z.land_assoc, <- Z.ldiff_land.
  change (4 - 1) with (Z.ones 2).
  rewrite Z.ldiff_ones_r by lia.
  rewrite Z.shiftl_mul_pow2, Z.shiftr_div_pow2 by lia.
  rewrite Z.land_ones by lia.
  change (2 ^ 2) with 4. replace (x + 4 - 1) with (x + 3) by lia.
  rewrite Z.mod_small; [lia|].
  pose proof (Z.mul_div_le (x + 3) 4). pose proof (Z.div_pos (x + 3) 4). lia.
Qed.

Lemma NLMSG_ALIGN_bounds x :
  0 <= x <= 2 ^ 32 - 4 -> x <= NLMSG_ALIGN x <= x + 3.
Proof.
  intros Hx. rewrite NLMSG_ALIGN_spec by exact Hx.
  pose proof (Z.div_mod (x + 3) 4). pose proof (Z.mod_pos_bound (x + 3) 4). lia.
Qed.

(** ** Bytes *)

Lemma byte_val_range b : 0 <= byte_val b < 256.
Proof.
  unfold byte_val. pose proof (Byte.to_N_bounded b). lia.
Qed.

Lemma byte_val_of z : byte_val (byte_of z) = z mod 256.
Proof.
  unfold byte_val, byte_of.
  pose proof (Z.mod_pos_bound z 256) as Hm.
  destruct (Byte.of_N (Z.to_N (z mod 256))) as [b|] eqn:E.
  - apply Byte.to_of_N in E. rewrite E. lia.
  - apply Byte.of_N_None_iff in E. lia.
Qed.

Lemma le_value_range bs : 0 <= le_value bs < 256 ^ Z.of_nat (length bs).
Proof.
  induction bs as [|b bs IH]; cbn [le_value length].
  - cbn. lia.
  - pose proof (byte_val_range b). rewrite Nat2Z.inj_succ, Z.pow_succ_r by lia. lia.
Qed.

Lemma le_value_bytes n v : le_value (le_bytes n v) = v mod 256 ^ Z.of_nat n.
Proof.
  revert v. induction n as [|n IH]; intros v; cbn [le_bytes le_value].
  - cbn. rewrite Z.mod_1_r. reflexivity.
  - rewrite IH, byte_val_of, Nat2Z.inj_succ, Z.pow_succ_r by lia.
    rewrite Z.rem_mul_r by lia. reflexivity.
Qed.

Lemma length_le_bytes n v : length (le_bytes n v) = n.
Proof. revert v. induction n as [|n IH]; intros v; cbn; [reflexivity|]. rewrite IH. reflexivity. Qed.

Lemma defined_fmap_Some (bs : list byte) : defined (Some <$> bs) = Some bs.
Proof. induction bs as [|b bs IH]; cbn; [reflexivity|]. rewrite IH. reflexivity. Qed.

(** ** Blocks: reading over writing *)

Section Blocks.
Implicit Types (b cs : list cell) (off n : nat).

Lemma length_range off n b : (off + n <= length b)%nat -> length (range off n b) = n.
Proof. intros H. unfold range. rewrite length_take, length_drop. lia. Qed.

Lemma length_overwrite off cs b :
  (off + length cs <= length b)%nat -> length (overwrite off cs b) = length b.
Proof.
  intros H. unfold overwrite. rewrite !length_app, length_take, length_drop. lia.
Qed.

Lemma lookup_range off n b i :
  range off n b !! i = if decide (i < n)%nat then b !! (off + i)%nat else None.
Proof. unfold range. rewrite lookup_take, lookup_drop. reflexivity. Qed.

Lemma lookup_overwrite off cs b i :
  (off + length cs <= length b)%nat ->
  overwrite off cs b !! i =
    if decide (i < off)%nat then b !! i
    else if decide (i < off + length cs)%nat then cs !! (i - off)%nat
    else b !! i.
Proof.
  intros H. unfold overwrite. repeat case_decide.
  - rewrite lookup_app_l by (rewrite length_take; lia). apply lookup_take_lt. lia.
  - rewrite lookup_app_r by (rewrite length_take; lia).
    rewrite length_take, Nat.min_l by lia. apply lookup_app_l. lia.
  - rewrite lookup_app_r by (rewrite length_take; lia).
    rewrite length_take, Nat.min_l by lia.
    rewrite lookup_app_r by lia. rewrite lookup_drop. f_equal. lia.
Qed.

Ltac by_lookup :=
  apply list_eq; intros ?i;
  rewrite ?lookup_range; repeat (rewrite lookup_overwrite by lia);
  rewrite ?lookup_range, ?lookup_take;
  repeat case_decide; try lia; try reflexivity; try (f_equal; lia);
  try (symmetry; apply lookup_ge_None_2; lia).

Lemma range_overwrite_same off cs b :
  (off + length cs <= length b)%nat -> range off (length cs) (overwrite off cs b) = cs.
Proof.
  intros H. by_lookup.
Qed.

Lemma range_overwrite_before off n off' cs b :
  (off + n <= off')%nat -> (off' + length cs <= length b)%nat ->
  range off n (overwrite off' cs b) = range off n b.
Proof. intros H1 H2. by_lookup. Qed.

Lemma range_overwrite_after off n off' cs b :
  (off' + length cs <= off)%nat -> (off' + length cs <= length b)%nat ->
  range off n (overwrite off' cs b) = range off n b.
Proof. intros H1 H2. by_lookup. Qed.

Lemma range_overwrite_inside off n off' cs b :
  (off' <= off)%nat -> (off + n <= off' + length cs)%nat ->
  (off' + length cs <= length b)%nat ->
  range off n (overwrite off' cs b) = range (off - off') n cs.
Proof. intros H1 H2 H3. by_lookup. Qed.

Lemma range_take off n m b :
  (off + n <= m)%nat -> range off n (take m b) = range off n b.
Proof. intros H. by_lookup. Qed.

Lemma range_app_l off n b b' :
  (off + n <= length b)%nat -> range off n (b ++ b') = range off n b.
Proof.
  intros H. apply list_eq; intros i. rewrite !lookup_range.
  case_decide; [|reflexivity]. apply lookup_app_l. lia.
Qed.

Lemma range_range off n off' m b :
  (off + n <= m)%nat -> range off n (range off' m b) = range (off' + off) n b.
Proof. intros H. by_lookup. Qed.

Lemma range_all b : range 0 (length b) b = b.
Proof. unfold range. rewrite drop_0. apply take_ge. lia. Qed.

Lemma range_Some off n (bs : list byte) :
  range off n (Some <$> bs) = Some <$> take n (drop off bs).
Proof. unfold range. rewrite <- fmap_drop, <- fmap_take. reflexivity. Qed.

(** Fields. *)

Lemma field_eq off n b :
  (off + n <= length b)%nat -> field off n b = le_value <$> defined (range off n b).
Proof. intros H. unfold field, slice. rewrite decide_True by exact H. reflexivity. Qed.

Lemma field_Some_length off n b v : field off n b = Some v -> (off + n <= length b)%nat.
Proof. unfold field, slice. case_decide; [done|discriminate]. Qed.

Lemma field_range_of off n b v :
  field off n b = Some v -> 0 <= v < 256 ^ Z.of_nat n.
Proof.
  intros H. apply field_Some_length in H as Hl. rewrite field_eq in H by exact Hl.
  destruct (defined (range off n b)) as [bs|] eqn:E; [|discriminate].
  injection H as <-.
  assert (length bs = n) as <-; [|apply le_value_range].
  rewrite <- (length_range off n b Hl). clear -E.
  revert bs E. induction (range off n b) as [|[c|] cs IH]; intros bs E; cbn in E.
  - injection E as <-. reflexivity.
  - destruct (defined cs) as [bs'|]; [|discriminate]. injection E as <-.
    cbn. f_equal. apply IH. reflexivity.
  - discriminate.
Qed.

Lemma field_bytes off n (bs : list byte) :
  (off + n <= length bs)%nat ->
  field off n (Some <$> bs) = Some (le_value (take n (drop off bs))).
Proof.
  intros H. rewrite field_eq by (rewrite length_fmap; exact H).
  rewrite range_Some, defined_fmap_Some. reflexivity.
Qed.

Lemma field_set_field off n v b :
  (off + n <= length b)%nat ->
  field off n (overwrite off (Some <$> le_bytes n v) b) = Some (v mod 256 ^ Z.of_nat n).
Proof.
  intros H.
  assert (Hl : length (Some <$> le_bytes n v) = n) by (rewrite length_fmap; apply length_le_bytes).
  rewrite field_eq by (rewrite length_overwrite; lia).
  rewrite <- Hl at 1. rewrite range_overwrite_same by lia.
  rewrite defined_fmap_Some. cbn. rewrite le_value_bytes. reflexivity.
Qed.

Lemma field_overwrite_before off n off' cs b :
  (off + n <= off')%nat -> (off' + length cs <= length b)%nat ->
  field off n (overwrite off' cs b) = field off n b.
Proof.
  intros H1 H2. rewrite !field_eq by (rewrite ?length_overwrite; lia).
  rewrite range_overwrite_before by lia. reflexivity.
Qed.

Lemma field_overwrite_after off n off' cs b :
  (off' + length cs <= off)%nat -> (off' + length cs <= length b)%nat ->
  field off n (overwrite off' cs b) = field off n b.
Proof.
  intros H1 H2. unfold field, slice. rewrite length_overwrite by lia.
  case_decide; [|reflexivity]. rewrite range_overwrite_after by lia. reflexivity.
Qed.

Lemma field_overwrite_inside off n off' cs b :
  (off' <= off)%nat -> (off + n <= off' + length cs)%nat ->
  (off' + length cs <= length b)%nat ->
  field off n (overwrite off' cs b) = field (off - off') n cs.
Proof.
  intros H1 H2 H3. rewrite !field_eq by (rewrite ?length_overwrite; lia).
  rewrite range_overwrite_inside by lia. reflexivity.
Qed.

Lemma field_range off n off' m b :
  (off + n <= m)%nat -> (off' + m <= length b)%nat ->
  field off n (range off' m b) = field (off' + off) n b.
Proof.
  intros H1 H2. rewrite !field_eq by (rewrite ?length_range; lia).
  rewrite range_range by lia. reflexivity.
Qed.

Lemma field_take off n m b :
  (off + n <= m)%nat -> (m <= length b)%nat ->
  field off n (take m b) = field off n b.
Proof.
  intros H1 H2. rewrite !field_eq by (rewrite ?length_take; lia).
  rewrite range_take by lia. reflexivity.
Qed.

Lemma field_app_l off n b b' :
  (off + n <= length b)%nat -> field off n (b ++ b') = field off n b.
Proof.
  intros H. rewrite !field_eq by (rewrite ?length_app; lia).
  rewrite range_app_l by lia. reflexivity.
Qed.

Lemma blit_eq off cs b :
  (off + length cs <= length b)%nat -> blit off cs b = Some (overwrite off cs b).
Proof. intros H. unfold blit. rewrite decide_True by exact H. reflexivity. Qed.

Lemma slice_eq off n b :
  (off + n <= length b)%nat -> slice off n b = Some (range off n b).
Proof. intros H. unfold slice. rewrite decide_True by exact H. reflexivity. Qed.

End Blocks.

(** ** Running the primitives *)

Lemma run_bind {A B} (m : M A) (k : A -> M B) w a w1 :
  m w = Done a w1 -> bindM m k w = k a w1.
Proof. intros E. unfold bindM. rewrite E. reflexivity. Qed.

Lemma bindM_inv {A B} (m : M A) (k : A -> M B) w b w' :
  bindM m k w = Done b w' -> exists a w1, m w = Done a w1 /\ k a w1 = Done b w'.
Proof.
  unfold bindM. destruct (m w) as [a w1| |w1]; intros E; try discriminate E.
  exists a, w1. split; [reflexivity | exact E].
Qed.

Lemma ret_inv {A} (a b : A) w w' : ret a w = Done b w' -> a = b /\ w = w'.
Proof. unfold ret. intros E. inversion E. split; reflexivity. Qed.

Lemma allocate_ok size entry w :
  0 <= size <= PTRDIFF_MAX -> alloc_script w = [] ->
  allocate size entry w =
    Done (Z.pos (brk w))
      (log_call (entry (Z.pos (brk w)))
         (with_heap (<[Z.pos (brk w) := replicate (Z.to_nat size) None]> (heap w))
            (with_brk (brk w + 1)%positive (with_alloc_script [] w)))).
Proof.
  intros Hs Ha. unfold allocate.
  rewrite (proj2 (Z.ltb_ge _ _)) by lia. rewrite Ha. reflexivity.
Qed.

Lemma allocate_huge size entry w :
  PTRDIFF_MAX < size ->
  allocate size entry w = Done NULL (log_call (entry NULL) (with_errno ENOMEM w)).
Proof. intros Hs. unfold allocate. rewrite (proj2 (Z.ltb_lt _ _)) by lia. reflexivity. Qed.

Lemma realloc_null size w : realloc NULL size w = allocate size (CRealloc NULL size) w.
Proof. reflexivity. Qed.

Lemma realloc_ok ptr size w b :
  heap w !! ptr = Some b -> ptr <> NULL -> 0 < size <= PTRDIFF_MAX ->
  alloc_script w = [] ->
  realloc ptr size w =
    Done ptr
      (log_call (CRealloc ptr size ptr)
         (with_heap
            (<[ptr := take (Z.to_nat size) b
                      ++ replicate (Z.to_nat size - length b) None]> (heap w))
            (with_alloc_script [] w))).
Proof.
  intros Hb Hp Hs Ha. unfold realloc.
  rewrite (proj2 (Z.eqb_neq _ _)) by exact Hp. rewrite Hb.
  rewrite (proj2 (Z.eqb_neq _ _)) by lia.
  rewrite (proj2 (Z.ltb_ge _ _)) by lia. rewrite Ha. reflexivity.
Qed.

Lemma free_null w : free NULL w = Done tt (log_call (CFree NULL) w).
Proof. reflexivity. Qed.

Lemma free_ok ptr w b :
  heap w !! ptr = Some b -> ptr <> NULL ->
  free ptr w = Done tt (log_call (CFree ptr) (with_heap (delete ptr (heap w)) w)).
Proof.
  intros Hb Hp. unfold free. rewrite (proj2 (Z.eqb_neq _ _)) by exact Hp.
  rewrite Hb. reflexivity.
Qed.

Lemma load_ok ptr off n w b v :
  heap w !! ptr = Some b -> field off n b = Some v -> load ptr off n w = Done v w.
Proof. intros Hb Hv. unfold load. rewrite Hb, Hv. reflexivity. Qed.

Lemma store_ok ptr off n v w b :
  heap w !! ptr = Some b -> (off + n <= length b)%nat ->
  store ptr off n v w =
    Done tt (with_heap (<[ptr := overwrite off (Some <$> le_bytes n v) b]> (heap w)) w).
Proof.
  intros Hb Hn. unfold store, set_field. rewrite Hb.
  rewrite blit_eq by (rewrite length_fmap, length_le_bytes; exact Hn). reflexivity.
Qed.

Lemma memcpy_ok dst doff src soff n w s d :
  heap w !! src = Some s -> heap w !! dst = Some d ->
  (soff + Z.to_nat n <= length s)%nat -> (doff + Z.to_nat n <= length d)%nat ->
  memcpy dst doff src soff n w =
    Done tt (with_heap (<[dst := overwrite doff (range soff (Z.to_nat n) s) d]> (heap w)) w).
Proof.
  intros Hs Hd Hsn Hdn. unfold memcpy. rewrite Hs, Hd.
  rewrite slice_eq by exact Hsn.
  rewrite blit_eq by (rewrite length_range by exact Hsn; exact Hdn). reflexivity.
Qed.

Lemma recvfrom_err sk buf len flags w b e q :
  heap w !! buf = Some b -> inbox w = RecvErr e :: q ->
  recvfrom sk buf len flags w =
    Done (-1, None)
      (log_call (CRecvfrom buf (length b) len flags (-1))
         (with_errno (errno_val e) (with_inbox q w))).
Proof. intros Hb Hq. unfold recvfrom. rewrite Hb, Hq. reflexivity. Qed.

Lemma recvfrom_data sk buf len flags w b d src src_len q :
  heap w !! buf = Some b -> inbox w = Datagram d src src_len :: q ->
  0 <= len <= Z.of_nat (length b) ->
  let n := Z.min len (Z.of_nat (length d)) in
  recvfrom sk buf len flags w =
    Done (n, Some (src, src_len))
      (log_call (CRecvfrom buf (length b) len flags n)
         (with_heap (<[buf := overwrite 0 (Some <$> take (Z.to_nat n) d) b]> (heap w))
            (with_inbox (if Z.land flags MSG_PEEK =? 0 then q else inbox w) w))).
Proof.
  intros Hb Hq Hl n. unfold recvfrom. rewrite Hb, Hq. fold n.
  rewrite blit_eq; [reflexivity|].
  rewrite length_fmap, length_take. lia.
Qed.

Lemma sendto_ok sk buf len dst w b :
  heap w !! buf = Some b -> 0 <= len <= Z.of_nat (length b) -> send_script w = [] ->
  sendto sk buf len dst w =
    Done len
      (log_call (CSendto buf len len)
         (with_outbox (outbox w ++ [range 0 (Z.to_nat len) b]) (with_send_script [] w))).
Proof.
  intros Hb Hl Hs. unfold sendto. rewrite Hb.
  rewrite slice_eq by lia. rewrite Hs. reflexivity.
Qed.

(** The first lines of [receive]: one more pass is one more turn of the
    body. *)
Lemma receive_S pass sk nlh buf_len flags nladdr nladdr_len emsg msg_seq msg_type :
  receive (S pass) sk nlh buf_len flags nladdr nladdr_len emsg msg_seq msg_type =
  (let* nlh := realloc nlh (to_size_t buf_len) in
   if nlh =? NULL then
     let* e := get_errno in ret (to_int (- e), emsg, msg_seq, msg_type)
   else
     let free_out (rc emsg : Z) (msg_seq msg_type : option Z) :=
       let* _ := free nlh in ret (rc, emsg, msg_seq, msg_type) in
     let* '(rc, from) := recvfrom sk nlh (to_size_t buf_len) flags in
     let rc := to_int rc in
     let nladdr := match from with Some (a, _) => Some a | None => nladdr end in
     let nladdr_len := match from with Some (_, l) => l | None => nladdr_len end in
     if rc <? 0 then
       let* e := get_errno in free_out (to_int (- e)) emsg msg_seq msg_type
     else if negb (Z.land flags MSG_PEEK =? 0) then
       let* nlmsg_len := load nlh off_nlmsg_len 4 in
       receive pass sk nlh (to_int nlmsg_len) (Z.land flags (Z.lnot MSG_PEEK))
         nladdr nladdr_len emsg msg_seq msg_type
     else if negb (nladdr_len =? sizeof_sockaddr_nl) then
       free_out (- EPROTO) emsg msg_seq msg_type
     else
       let* addr := rvalue nladdr in
       if negb (nl_pid addr =? 0) then ret (- ENOMSG, emsg, msg_seq, msg_type)
       else
         let* nlmsg_len := load nlh off_nlmsg_len 4 in
         let pl_len := to_int (NLMSG_PAYLOAD nlmsg_len 0) in
         let finish (emsg : Z) :=
           let* seq := load nlh off_nlmsg_seq 4 in
           let* type := load nlh off_nlmsg_type 2 in
           free_out rc emsg (Some (to_int seq)) (Some type) in
         if negb (pl_len =? 0) then
           let* p := malloc (to_size_t pl_len) in
           if p =? NULL then
             let* e := get_errno in free_out (to_int (- e)) p msg_seq msg_type
           else
             let* _ := memcpy p 0 nlh (Z.to_nat NLMSG_DATA) (to_size_t pl_len) in
             finish p
         else finish emsg).
Proof. reflexivity. Qed.

(** Taking apart a computation that is known to have returned. *)
Ltac minv H :=
  lazymatch type of H with
  | bindM _ _ _ = Done _ _ =>
      let a := fresh "a" in let w1 := fresh "w" in let H1 := fresh "Hm" in
      apply bindM_inv in H as (a & w1 & H1 & H);
      try (unfold get_errno in H1; injection H1 as <- <-);
      minv H
  | ret _ _ = Done _ _ =>
      let E1 := fresh "Er" in let E2 := fresh "Ew" in
      apply ret_inv in H as [E1 E2]
  | undefined _ = Done _ _ => discriminate H
  | (if ?b then _ else _) _ = Done _ _ =>
      let Hb := fresh "Hb" in destruct b eqn:Hb; minv H
  | (let (_, _) := ?x in _) _ = Done _ _ => destruct x; minv H
  | (match ?x with _ => _ end) _ = Done _ _ => destruct x eqn:?; minv H
  | rvalue ?x _ = Done _ _ =>
      destruct x; [apply ret_inv in H as [? ?] | discriminate H]
  | _ => idtac
  end.

Ltac world_simpl :=
  cbn [heap brk errno alloc_script inbox send_script outbox sys_socket sys_bind
       sys_getpid trace with_heap with_brk with_errno with_alloc_script with_inbox
       with_send_script with_outbox log_call].

Tactic Notation "world_simpl" "in" hyp(H) :=
  cbn [heap brk errno alloc_script inbox send_script outbox sys_socket sys_bind
       sys_getpid trace with_heap with_brk with_errno with_alloc_script with_inbox
       with_send_script with_outbox log_call] in H.

Ltac distinct :=
  solve [ clear; lia | assumption | apply not_eq_sym; assumption | congruence ].

Ltac heap_lookup :=
  world_simpl;
  repeat first
    [ rewrite lookup_insert_eq
    | rewrite lookup_insert_ne by distinct
    | rewrite lookup_delete_ne by distinct ];
  try reflexivity; try eassumption.

(** A transport failure under the first [recvfrom]. *)
Lemma recv_transport_failure sk em s t w e q :
  inbox w = RecvErr e :: q -> alloc_script w = [] ->
  exists w',
    ecryptfs_recv_netlink sk em s t w = Done (- errno_val e, em, s, t) w'
    /\ inbox w' = q /\ alloc_script w' = [] /\ send_script w' = send_script w
    /\ outbox w' = outbox w
    /\ forall p, p <> Z.pos (brk w) -> heap w' !! p = heap w !! p.
Proof.
  intros Hq Ha. eexists. split.
  - unfold ecryptfs_recv_netlink. rewrite receive_S.
    change (to_size_t sizeof_nlmsghdr) with 16.
    erewrite run_bind by (rewrite realloc_null; apply allocate_ok; [unfold PTRDIFF_MAX; lia | exact Ha]).
    cbv beta. change (Z.pos (brk w) =? NULL) with false. cbv iota.
    erewrite run_bind by (eapply recvfrom_err; [heap_lookup | world_simpl; exact Hq]).
    cbv beta iota zeta. change (to_int (-1) <? 0) with true. cbv iota.
    unfold get_errno at 1. unfold bindM at 1. world_simpl.
    erewrite run_bind by (eapply free_ok; [heap_lookup | discriminate]).
    rewrite neg_errno_int. unfold ret. reflexivity.
  - world_simpl. repeat split; try reflexivity.
    intros p Hp. rewrite lookup_delete_ne, lookup_insert_ne by congruence. reflexivity.
Qed.

(** ** The two passes of the receiver *)

(** The block that holds the first [n] bytes of the datagram [d] over the
    old contents [b]. *)
Lemma field_received off k n (d : list byte) b :
  (off + k <= n)%nat -> (n <= length d)%nat -> (n <= length b)%nat ->
  field off k (overwrite 0 (Some <$> take n d) b) = Some (le_value (take k (drop off d))).
Proof.
  intros H1 H2 H3.
  assert (Hl : length (Some <$> take n d) = n) by (rewrite length_fmap, length_take; lia).
  rewrite field_overwrite_inside by lia.
  rewrite Nat.sub_0_r, field_bytes by (rewrite length_take; lia).
  do 2 f_equal. rewrite <- (take_drop n d) at 2.
  rewrite drop_app_le by (rewrite length_take; lia).
  rewrite take_app_le by (rewrite length_drop, length_take; lia). reflexivity.
Qed.

(** First pass on a datagram: the header is peeked into a fresh 16-byte
    block and the second pass starts with the declared length. *)
Lemma receive_peek sk em s t w d src slen q :
  inbox w = Datagram d src slen :: q -> alloc_script w = [] ->
  (4 <= length d)%nat ->
  let p := Z.pos (brk w) in
  let n := Z.min 16 (Z.of_nat (length d)) in
  ecryptfs_recv_netlink sk em s t w =
  receive 1 sk p (to_int (le_value (take 4 d))) 0 (Some src) slen em s t
    {| heap := <[p := overwrite 0 (Some <$> take (Z.to_nat n) d) (replicate 16 None)]> (heap w);
       brk := (brk w + 1)%positive; errno := errno w; alloc_script := [];
       inbox := inbox w; send_script := send_script w; outbox := outbox w;
       sys_socket := sys_socket w; sys_bind := sys_bind w; sys_getpid := sys_getpid w;
       trace := (trace w ++ [CRealloc NULL 16 p]) ++ [CRecvfrom p 16 16 MSG_PEEK n] |}.
Proof.
  intros Hq Ha Hd p n. unfold ecryptfs_recv_netlink. rewrite receive_S.
  change (to_size_t sizeof_nlmsghdr) with 16.
  erewrite run_bind
    by (rewrite realloc_null; apply allocate_ok; [unfold PTRDIFF_MAX; lia | exact Ha]).
  cbv beta. change (Z.pos (brk w) =? NULL) with false. cbv iota.
  erewrite run_bind
    by (eapply recvfrom_data;
        [heap_lookup | world_simpl; exact Hq | rewrite length_replicate; lia]).
  cbv beta iota zeta. fold p n. world_simpl.
  rewrite to_int_small by lia.
  rewrite (proj2 (Z.ltb_ge _ _)) by lia.
  change (negb (Z.land MSG_PEEK MSG_PEEK =? 0)) with true. cbv iota.
  erewrite run_bind.
  2:{ eapply load_ok; [heap_lookup|].
      apply field_received with (off := 0%nat); [lia | lia | rewrite length_replicate; lia]. }
  change (Z.land MSG_PEEK (Z.lnot MSG_PEEK)) with 0. unfold p.
  rewrite insert_insert_eq. rewrite Hq. reflexivity.
Qed.

(** The start of the second pass: the block is resized to [len] bytes and
    the datagram is read into it and taken off the queue. *)
Ltac second_pass len Hb Hp Hq Ha HL :=
  rewrite receive_S;
  rewrite to_size_t_small by (unfold INT_MAX in HL; lia);
  erewrite run_bind
    by (eapply realloc_ok; [exact Hb | exact Hp | unfold PTRDIFF_MAX, INT_MAX in *; lia | exact Ha]);
  cbv beta; rewrite (proj2 (Z.eqb_neq _ _) Hp); cbv iota;
  erewrite run_bind
    by (eapply recvfrom_data;
        [heap_lookup | world_simpl; exact Hq
        | rewrite length_app, length_take, length_replicate; lia]);
  cbv beta iota zeta; world_simpl;
  rewrite to_int_small by (unfold INT_MAX in HL; lia);
  rewrite (proj2 (Z.ltb_ge _ _)) by lia;
  change (negb (Z.land 0 MSG_PEEK =? 0)) with false; cbv iota;
  rewrite insert_insert_eq;
  rewrite length_app, length_take, length_replicate;
  match goal with
  | |- context [CRecvfrom _ ?c _ _ _] =>
      replace c with (Z.to_nat len) by lia
  end.

Lemma receive_spoofed sk p len nladdr nladdr_len em s t w b d src q :
  heap w !! p = Some b -> p <> NULL ->
  inbox w = Datagram d src sizeof_sockaddr_nl :: q -> alloc_script w = [] ->
  0 < len <= INT_MAX -> nl_pid src <> 0 ->
  let n := Z.min len (Z.of_nat (length d)) in
  let b' := take (Z.to_nat len) b ++ replicate (Z.to_nat len - length b) None in
  receive 1 sk p len 0 nladdr nladdr_len em s t w =
  Done (- ENOMSG, em, s, t)
    {| heap := <[p := overwrite 0 (Some <$> take (Z.to_nat n) d) b']> (heap w);
       brk := brk w; errno := errno w; alloc_script := [];
       inbox := q; send_script := send_script w; outbox := outbox w;
       sys_socket := sys_socket w; sys_bind := sys_bind w; sys_getpid := sys_getpid w;
       trace := (trace w ++ [CRealloc p len p])
                ++ [CRecvfrom p (Z.to_nat len) len 0 n] |}.
Proof.
  intros Hb Hp Hq Ha HL Hpid n b'.
  second_pass len Hb Hp Hq Ha HL.
  change (negb (sizeof_sockaddr_nl =? sizeof_sockaddr_nl)) with false. cbv iota.
  unfold rvalue, ret at 1, bindM at 1.
  rewrite (proj2 (Z.eqb_neq _ _) Hpid). cbn [negb].
  reflexivity.
Qed.

(** A datagram from a sender other than the kernel: both passes run, the
    call returns [-ENOMSG] and the frame buffer is still allocated. *)
Lemma recv_spoofed sk em s t w d src q :
  inbox w = Datagram d src sizeof_sockaddr_nl :: q -> alloc_script w = [] ->
  nl_pid src <> 0 -> (4 <= length d)%nat -> 0 < le_value (take 4 d) <= INT_MAX ->
  exists w',
    ecryptfs_recv_netlink sk em s t w = Done (- ENOMSG, em, s, t) w'
    /\ inbox w' = q /\ alloc_script w' = []
    /\ is_Some (heap w' !! Z.pos (brk w))
    /\ (forall p, p <> Z.pos (brk w) -> heap w' !! p = heap w !! p).
Proof.
  intros Hq Ha Hpid Hd HL.
  rewrite (receive_peek sk em s t w d src _ q Hq Ha Hd).
  rewrite to_int_small by (unfold INT_MAX in HL; lia).
  erewrite receive_spoofed;
    [ | heap_lookup | discriminate | world_simpl; exact Hq | reflexivity
      | exact HL | exact Hpid ].
  eexists. split; [reflexivity|]. world_simpl.
  split; [reflexivity|]. split; [reflexivity|]. split.
  - rewrite lookup_insert_eq. eexists. reflexivity.
  - intros p' Hp'. rewrite !lookup_insert_ne by congruence. reflexivity.
Qed.

Lemma overwrite_all cs b : length cs = length b -> overwrite 0 cs b = cs.
Proof.
  intros H. unfold overwrite. rewrite take_0, drop_ge by (cbn; lia).
  cbn. apply app_nil_r.
Qed.

Lemma NLMSG_PAYLOAD_int len :
  16 <= len <= INT_MAX -> to_int (NLMSG_PAYLOAD len 0) = len - 16.
Proof.
  intros H. unfold NLMSG_PAYLOAD, INT_MAX in *. rewrite NLMSG_SPACE_0.
  rewrite to_u32_small by lia. apply to_int_small. lia.
Qed.

(** The second pass on a frame from the kernel that declares a payload:
    the payload is copied into a fresh block of [len - 16] bytes and the
    frame buffer is freed. *)
Lemma receive_payload sk p nladdr nladdr_len em s t w b d src q :
  let len := le_value (take 4 d) in
  heap w !! p = Some b -> p <> NULL -> p <> Z.pos (brk w) ->
  inbox w = Datagram d src sizeof_sockaddr_nl :: q -> alloc_script w = [] ->
  nl_pid src = 0 -> 16 < len <= INT_MAX -> (16 <= length d)%nat ->
  let n := Z.min len (Z.of_nat (length d)) in
  let b' := take (Z.to_nat len) b ++ replicate (Z.to_nat len - length b) None in
  let frame := overwrite 0 (Some <$> take (Z.to_nat n) d) b' in
  let m := Z.pos (brk w) in
  receive 1 sk p len 0 nladdr nladdr_len em s t w =
  Done (n, m, Some (to_int (le_value (take 4 (drop 8 d)))),
        Some (le_value (take 2 (drop 4 d))))
    {| heap := delete p (<[m := range 16 (Z.to_nat (len - 16)) frame]>
                           (<[p := frame]> (heap w)));
       brk := (brk w + 1)%positive; errno := errno w; alloc_script := [];
       inbox := q; send_script := send_script w; outbox := outbox w;
       sys_socket := sys_socket w; sys_bind := sys_bind w; sys_getpid := sys_getpid w;
       trace := (((trace w ++ [CRealloc p len p])
                  ++ [CRecvfrom p (Z.to_nat len) len 0 n])
                 ++ [CMalloc (len - 16) m]) ++ [CFree p] |}.
Proof.
  intros len Hb Hp Hfresh Hq Ha Hpid HL Hd n b' frame m.
  assert (Elen : le_value (take 4 d) = len) by reflexivity. clearbody len.
  assert (Hlen' : length b' = Z.to_nat len)
    by (unfold b'; rewrite length_app, length_take, length_replicate; lia).
  assert (Hn : (16 <= Z.to_nat n <= length d)%nat /\ (Z.to_nat n <= Z.to_nat len)%nat)
    by (unfold n; lia).
  assert (Hcs : length (Some <$> take (Z.to_nat n) d) = Z.to_nat n)
    by (rewrite length_fmap, length_take; lia).
  assert (Hframe : length frame = Z.to_nat len)
    by (unfold frame; rewrite length_overwrite; lia).
  second_pass len Hb Hp Hq Ha HL.
  change (negb (sizeof_sockaddr_nl =? sizeof_sockaddr_nl)) with false. cbv iota.
  unfold rvalue, ret at 1, bindM at 1.
  rewrite Hpid. change (negb (0 =? 0)) with false. cbv iota.
  fold n b' frame.
  erewrite run_bind.
  2:{ eapply load_ok; [heap_lookup|].
      unfold frame. apply field_received with (off := 0%nat); lia. }
  cbv beta zeta. change (drop 0 d) with d. rewrite Elen.
  rewrite NLMSG_PAYLOAD_int by lia.
  rewrite (proj2 (Z.eqb_neq _ _)) by lia. cbn [negb].
  rewrite to_size_t_small by (unfold INT_MAX in HL; lia).
  erewrite run_bind
    by (apply allocate_ok; [unfold PTRDIFF_MAX, INT_MAX in *; lia | reflexivity]).
  cbv beta. world_simpl. fold m. change (m =? NULL) with false. cbv iota.
  erewrite run_bind.
  2:{ eapply memcpy_ok; [heap_lookup | heap_lookup | |].
      - change (Z.to_nat NLMSG_DATA) with 16%nat. lia.
      - rewrite length_replicate. lia. }
  cbv beta. world_simpl. rewrite insert_insert_eq.
  change (Z.to_nat NLMSG_DATA) with 16%nat.
  rewrite overwrite_all
    by (rewrite length_range, length_replicate by lia; reflexivity).
  erewrite run_bind.
  2:{ eapply load_ok; [heap_lookup|].
      unfold frame. apply field_received with (off := off_nlmsg_seq); unfold off_nlmsg_seq; lia. }
  erewrite run_bind.
  2:{ eapply load_ok; [heap_lookup|].
      unfold frame. apply field_received with (off := off_nlmsg_type); unfold off_nlmsg_type; lia. }
  cbv beta.
  erewrite run_bind by (eapply free_ok; [heap_lookup | exact Hp]).
  reflexivity.
Qed.

(** ** The sender *)

Ltac len :=
  repeat first
    [ rewrite length_replicate | rewrite length_fmap | rewrite length_le_bytes
    | rewrite length_range by len | rewrite length_overwrite by len
    | rewrite length_take | rewrite length_app ];
  try lia.

(** The frame built for a message whose [data_len] is [dl]: the header
    fields are the arguments, the payload is the message. *)
Lemma send_message sk reply mtype mflags mseq w rb dl :
  heap w !! reply = Some rb -> reply <> NULL -> reply <> Z.pos (brk w) ->
  field off_data_len 4 rb = Some dl ->
  sizeof_emsg + dl <= Z.of_nat (length rb) -> dl + 27 <= INT_MAX ->
  alloc_script w = [] -> send_script w = [] ->
  exists f B,
    ecryptfs_send_netlink sk reply mtype mflags mseq w =
      Done (24 + dl)
        {| heap := delete (Z.pos (brk w)) (<[Z.pos (brk w) := B]> (heap w));
           brk := (brk w + 1)%positive; errno := errno w; alloc_script := [];
           inbox := inbox w; send_script := []; outbox := outbox w ++ [f];
           sys_socket := sys_socket w; sys_bind := sys_bind w;
           sys_getpid := sys_getpid w;
           trace := ((trace w ++ [CMalloc (NLMSG_ALIGN (24 + dl)) (Z.pos (brk w))])
                     ++ [CSendto (Z.pos (brk w)) (24 + dl) (24 + dl)])
                    ++ [CFree (Z.pos (brk w))] |}
    /\ Z.of_nat (length f) = 24 + dl
    /\ field off_nlmsg_len 4 f = Some (24 + dl)
    /\ field off_nlmsg_seq 4 f = Some (to_u32 mseq)
    /\ field off_nlmsg_type 2 f = Some (to_u16 mtype)
    /\ range 16 (Z.to_nat (sizeof_emsg + dl)) f = range 0 (Z.to_nat (sizeof_emsg + dl)) rb.
Proof.
  intros Hb Hp Hfresh Hdl Hrb Hmax Ha Hs.
  unfold sizeof_emsg, INT_MAX in *.
  pose proof (field_range_of _ _ _ _ Hdl) as Hdl0.
  pose proof (NLMSG_ALIGN_bounds (24 + dl) ltac:(lia)) as HN.
  set (N := NLMSG_ALIGN (24 + dl)) in *.
  set (nlh := Z.pos (brk w)).
  set (B0 := overwrite off_nlmsg_len (Some <$> le_bytes 4 (to_u32 (24 + dl)))
               (replicate (Z.to_nat N) None)).
  set (B1 := overwrite off_nlmsg_seq (Some <$> le_bytes 4 (to_u32 mseq)) B0).
  set (B2 := overwrite off_nlmsg_pid (Some <$> le_bytes 4 0) B1).
  set (B3 := overwrite off_nlmsg_type (Some <$> le_bytes 2 (to_u16 mtype)) B2).
  set (B4 := overwrite off_nlmsg_flags (Some <$> le_bytes 2 (to_u16 mflags)) B3).
  set (B := overwrite 16 (range 0 (Z.to_nat (8 + dl)) rb) B4).
  unfold off_nlmsg_len, off_nlmsg_seq, off_nlmsg_pid, off_nlmsg_type,
    off_nlmsg_flags in *.
  assert (L0 : length B0 = Z.to_nat N) by (unfold B0; len).
  assert (L1 : length B1 = Z.to_nat N) by (unfold B1; len).
  assert (L2 : length B2 = Z.to_nat N) by (unfold B2; len).
  assert (L3 : length B3 = Z.to_nat N) by (unfold B3; len).
  assert (L4 : length B4 = Z.to_nat N) by (unfold B4; len).
  assert (L5 : length B = Z.to_nat N) by (unfold B; len).
  assert (F0 : field 0 4 B = Some (24 + dl)).
  { unfold B. rewrite field_overwrite_before by len.
    unfold B4. rewrite field_overwrite_before by len.
    unfold B3. rewrite field_overwrite_before by len.
    unfold B2. rewrite field_overwrite_before by len.
    unfold B1. rewrite field_overwrite_before by len.
    unfold B0. rewrite field_set_field by len.
    change (256 ^ Z.of_nat 4) with (2 ^ 32).
    rewrite to_u32_small by lia. rewrite Z.mod_small by lia. reflexivity. }
  assert (F8 : field 8 4 B = Some (to_u32 mseq)).
  { unfold B. rewrite field_overwrite_before by len.
    unfold B4. rewrite field_overwrite_after by len.
    unfold B3. rewrite field_overwrite_after by len.
    unfold B2. rewrite field_overwrite_before by len.
    unfold B1. rewrite field_set_field by len.
    change (256 ^ Z.of_nat 4) with (2 ^ 32). f_equal.
    unfold to_u32, wrap_unsigned. apply Z.mod_mod. lia. }
  assert (F4 : field 4 2 B = Some (to_u16 mtype)).
  { unfold B. rewrite field_overwrite_before by len.
    unfold B4. rewrite field_overwrite_before by len.
    unfold B3. rewrite field_set_field by len.
    change (256 ^ Z.of_nat 2) with (2 ^ 16). f_equal.
    unfold to_u16, wrap_unsigned. apply Z.mod_mod. lia. }
  exists (range 0 (Z.to_nat (24 + dl)) B), B. split.
  - unfold ecryptfs_send_netlink.
    unfold off_nlmsg_len, off_nlmsg_seq, off_nlmsg_pid, off_nlmsg_type,
      off_nlmsg_flags.
    rewrite (proj2 (Z.eqb_neq _ _) Hp).
    erewrite run_bind.
    2:{ erewrite run_bind by (eapply load_ok; [exact Hb | exact Hdl]).
        unfold sizeof_emsg. rewrite to_size_t_small by lia.
        rewrite to_int_small by lia. reflexivity. }
    cbv beta. unfold signed, NLMSG_LENGTH. rewrite NLMSG_HDRLEN_16.
    rewrite decide_True by (unfold INT_MAX; lia).
    unfold ret at 1, bindM at 1.
    replace (8 + dl + 16) with (24 + dl) by lia. fold N.
    erewrite run_bind
      by (apply allocate_ok; [unfold PTRDIFF_MAX; lia | exact Ha]).
    cbv beta zeta. fold nlh. change (nlh =? NULL) with false. cbv iota.
    erewrite run_bind by (eapply store_ok; [heap_lookup | len]).
    cbv beta. world_simpl. rewrite insert_insert_eq. fold B0.
    erewrite run_bind by (eapply store_ok; [heap_lookup | len]).
    cbv beta. world_simpl. rewrite insert_insert_eq. fold B1.
    erewrite run_bind by (eapply store_ok; [heap_lookup | len]).
    cbv beta. world_simpl. rewrite insert_insert_eq. fold B2.
    erewrite run_bind by (eapply store_ok; [heap_lookup | len]).
    cbv beta. world_simpl. rewrite insert_insert_eq. fold B3.
    erewrite run_bind by (eapply store_ok; [heap_lookup | len]).
    cbv beta. world_simpl. rewrite insert_insert_eq. fold B4.
    rewrite (proj2 (Z.eqb_neq _ _)) by lia.
    rewrite to_size_t_small by lia.
    change (Z.to_nat NLMSG_DATA) with 16%nat.
    erewrite run_bind by (eapply memcpy_ok; [heap_lookup | heap_lookup | len | len]).
    cbv beta. world_simpl. rewrite insert_insert_eq. fold B.
    erewrite run_bind by (eapply load_ok; [heap_lookup | exact F0]).
    erewrite run_bind by (eapply sendto_ok; [heap_lookup | len | exact Hs]).
    cbv beta zeta. world_simpl.
    rewrite to_int_small by lia.
    rewrite (proj2 (Z.ltb_ge _ _)) by lia.
    erewrite run_bind by (eapply free_ok; [heap_lookup | discriminate]).
    reflexivity.
  - split; [len|].
    split; [rewrite field_range by len; exact F0|].
    split; [rewrite field_range by len; exact F8|].
    split; [rewrite field_range by len; exact F4|].
    rewrite range_range by lia. cbn [Nat.add]. unfold B.
    replace (Z.to_nat (8 + dl)) with (length (range 0 (Z.to_nat (8 + dl)) rb)) at 1 by len.
    apply range_overwrite_same. len.
Qed.

(** ** A request that is answered *)

Section Request.
Context `{Hdr : EcryptfsHeader} `{KM : KeyModules}.

Lemma call_parse_packet_reply c em w b rc rb c' :
  heap w !! em = Some b -> em <> NULL ->
  parse_packet c (Some b) = (rc, Some rb, c') ->
  call_parse_packet c em w =
    Done (rc, Z.pos (brk w), c')
      (log_call (CParsePacket em rc (Z.pos (brk w)))
         (with_heap (<[Z.pos (brk w) := rb]> (heap w))
            (with_brk (brk w + 1)%positive w))).
Proof.
  intros Hb Hp Hpp. unfold call_parse_packet.
  rewrite (proj2 (Z.eqb_neq _ _) Hp), Hb, Hpp. reflexivity.
Qed.

(** One pass of the loop over a well-formed request from the kernel that
    the handler answers: exactly one frame leaves, and it carries the
    sequence number and the index of the request. *)
Lemma request_pass sk l w d src q rb c' dl :
  inbox w = Datagram d src sizeof_sockaddr_nl :: q -> nl_pid src = 0 ->
  alloc_script w = [] -> send_script w = [] ->
  Z.of_nat (length d) = le_value (take 4 d) ->
  16 + sizeof_emsg <= Z.of_nat (length d) <= INT_MAX ->
  le_value (take 2 (drop 4 d)) = ECRYPTFS_NLMSG_REQUEST ->
  ECRYPTFS_NLMSG_REQUEST <> ECRYPTFS_NLMSG_HELO ->
  ECRYPTFS_NLMSG_REQUEST <> ECRYPTFS_NLMSG_QUIT ->
  parse_packet (ctx l) (Some (Some <$> drop 16 d)) = (0, Some rb, c') ->
  field off_data_len 4 rb = Some dl ->
  sizeof_emsg + dl <= Z.of_nat (length rb) -> dl + 27 <= INT_MAX ->
  exists f l' w',
    daemon_pass sk l w = Done (GotoReceive l') w'
    /\ outbox w' = outbox w ++ [f]
    /\ inbox w' = q
    /\ error_count l' = 0
    /\ field off_nlmsg_type 2 f = Some (to_u16 ECRYPTFS_NLMSG_RESPONSE)
    /\ field off_nlmsg_seq 4 f = Some (le_value (take 4 (drop 8 d)))
    /\ field (16 + off_index) 4 f = Some (le_value (take 4 (drop 16 d))).
Proof.
  intros Hq Hpid Ha Hs Hlen HL Hty Hne1 Hne2 Hpp Hdl Hrb Hmax.
  unfold sizeof_emsg, INT_MAX, off_index, off_data_len in *.
  set (p := Z.pos (brk w)).
  set (m := Z.pos (brk w + 1)).
  set (r := Z.pos (brk w + 1 + 1)).
  set (idx := le_value (take 4 (drop 16 d))).
  set (sq := le_value (take 4 (drop 8 d))).
  assert (Hidx : 0 <= idx < 2 ^ 32).
  { pose proof (le_value_range (take 4 (drop 16 d))) as R.
    rewrite length_take, length_drop in R.
    replace (Z.of_nat (4 `min` (length d - 16))) with 4 in R by lia. exact R. }
  assert (Hsq : 0 <= sq < 2 ^ 32).
  { pose proof (le_value_range (take 4 (drop 8 d))) as R.
    rewrite length_take, length_drop in R.
    replace (Z.of_nat (4 `min` (length d - 8))) with 4 in R by lia. exact R. }
  (* the receive *)
  assert (Hrecv : exists h1 tr1,
    ecryptfs_recv_netlink sk (emsg l) (msg_seq l) (msg_type l) w =
      Done (Z.of_nat (length d), m, Some (to_int sq), Some ECRYPTFS_NLMSG_REQUEST)
        {| heap := h1; brk := (brk w + 1 + 1)%positive; errno := errno w;
           alloc_script := []; inbox := q; send_script := []; outbox := outbox w;
           sys_socket := sys_socket w; sys_bind := sys_bind w;
           sys_getpid := sys_getpid w; trace := tr1 |}
    /\ h1 !! m = Some (Some <$> drop 16 d)).
  { rewrite (receive_peek sk _ _ _ w d src _ q Hq Ha) by lia.
    rewrite to_int_small by lia. cbv zeta.
    erewrite receive_payload;
      [ | heap_lookup | discriminate | world_simpl; lia | world_simpl; exact Hq
        | reflexivity | exact Hpid | unfold INT_MAX; lia | lia ].
    cbv zeta. world_simpl. rewrite <- Hlen, Z.min_id, Nat2Z.id, Hty, Hs.
    do 2 eexists. split; [reflexivity|].
    rewrite lookup_delete_ne by lia. rewrite lookup_insert_eq. f_equal.
    rewrite take_ge by lia.
    rewrite overwrite_all by len.
    rewrite range_Some. f_equal. apply take_ge. rewrite length_drop. lia. }
  destruct Hrecv as (h1 & tr1 & Hrecv & Hm).
  (* the reply, with the index of the request *)
  pose proof (field_range_of _ _ _ _ Hdl) as Hdl0.
  set (rb' := overwrite 0 (Some <$> le_bytes 4 idx) rb).
  assert (Lrb : length rb' = length rb) by (unfold rb'; len).
  assert (Hdl' : field 4 4 rb' = Some dl)
    by (unfold rb'; rewrite field_overwrite_after by len; exact Hdl).
  assert (Hix : field 0 4 rb' = Some idx).
  { unfold rb'. rewrite field_set_field by lia.
    change (256 ^ Z.of_nat 4) with (2 ^ 32). rewrite Z.mod_small by lia. reflexivity. }
  set (w2 := {| heap := <[r := rb']> (<[r := rb]> h1);
                brk := (brk w + 1 + 1 + 1)%positive; errno := errno w;
                alloc_script := []; inbox := q; send_script := [];
                outbox := outbox w; sys_socket := sys_socket w;
                sys_bind := sys_bind w; sys_getpid := sys_getpid w;
                trace := tr1 ++ [CParsePacket m 0 r] |}).
  destruct (send_message sk r ECRYPTFS_NLMSG_RESPONSE 0 (to_int sq) w2 rb' dl)
    as (f & B & Hsend & Lf & _ & Fseq & Ftype & Fpay);
    [ unfold w2; heap_lookup | discriminate | unfold w2, r; world_simpl; lia
    | exact Hdl' | unfold sizeof_emsg; lia | unfold INT_MAX; lia
    | reflexivity | reflexivity | ].
  unfold sizeof_emsg in Fpay. subst w2. world_simpl in Hsend.
  exists f. do 2 eexists. split.
  - unfold daemon_pass. erewrite run_bind by exact Hrecv. cbv beta iota zeta.
    rewrite (proj2 (Z.ltb_ge _ _)) by lia.
    cbn [emsg ctx msg_seq msg_type error_count].
    unfold rvalue at 1, ret at 1, bindM at 1.
    rewrite (proj2 (Z.eqb_neq _ _) Hne1), (proj2 (Z.eqb_neq _ _) Hne2), Z.eqb_refl.
    erewrite run_bind
      by (eapply call_parse_packet_reply; [heap_lookup; exact Hm | discriminate | exact Hpp]).
    cbv beta iota zeta. cbn [emsg ctx msg_seq msg_type error_count].
    change (negb (0 =? 0)) with false. cbv iota.
    world_simpl. fold r.
    change ((r =? NULL) || (m =? NULL)) with false. cbv iota.
    unfold ret at 1, bindM at 1.
    erewrite run_bind.
    2:{ eapply load_ok; [heap_lookup; rewrite lookup_insert_ne by (unfold r, m; lia); exact Hm|].
        unfold off_index. rewrite field_bytes by (rewrite length_drop; lia).
        change (drop 0 (drop 16 d)) with (drop 16 d). reflexivity. }
    fold idx.
    erewrite run_bind by (eapply store_ok; [heap_lookup | unfold off_index; lia]).
    unfold off_index. fold rb'. world_simpl.
    unfold rvalue at 1, ret at 1, bindM at 1.
    erewrite run_bind by exact Hsend. cbv beta.
    erewrite run_bind by (eapply free_ok; [heap_lookup | discriminate]).
    cbv beta. world_simpl.
    erewrite run_bind.
    2:{ eapply free_ok; [heap_lookup | discriminate]. }
    reflexivity.
  - world_simpl. cbn [error_count].
    split; [reflexivity|]. split; [reflexivity|]. split; [reflexivity|].
    split; [exact Ftype|]. split.
    + rewrite Fseq. f_equal. apply to_u32_to_int. exact Hsq.
    + change (16 + 0)%nat with (16 + 0)%nat.
      rewrite <- (field_range 0 4 16 (Z.to_nat (8 + dl)) f) by lia.
      rewrite Fpay. rewrite field_range by lia. exact Hix.
Qed.

(** The same pass, with what the frame takes from the reply of the
    handler: its length, and every byte after the index. *)
Lemma request_pass_reply sk l w d src q rb c' dl :
  inbox w = Datagram d src sizeof_sockaddr_nl :: q -> nl_pid src = 0 ->
  alloc_script w = [] -> send_script w = [] ->
  Z.of_nat (length d) = le_value (take 4 d) ->
  16 + sizeof_emsg <= Z.of_nat (length d) <= INT_MAX ->
  le_value (take 2 (drop 4 d)) = ECRYPTFS_NLMSG_REQUEST ->
  ECRYPTFS_NLMSG_REQUEST <> ECRYPTFS_NLMSG_HELO ->
  ECRYPTFS_NLMSG_REQUEST <> ECRYPTFS_NLMSG_QUIT ->
  parse_packet (ctx l) (Some (Some <$> drop 16 d)) = (0, Some rb, c') ->
  field off_data_len 4 rb = Some dl ->
  sizeof_emsg + dl <= Z.of_nat (length rb) -> dl + 27 <= INT_MAX ->
  exists f l' w',
    daemon_pass sk l w = Done (GotoReceive l') w'
    /\ outbox w' = outbox w ++ [f]
    /\ inbox w' = q
    /\ error_count l' = 0
    /\ ctx l' = c'
    /\ field off_nlmsg_type 2 f = Some (to_u16 ECRYPTFS_NLMSG_RESPONSE)
    /\ field off_nlmsg_seq 4 f = Some (le_value (take 4 (drop 8 d)))
    /\ field (16 + off_index) 4 f = Some (le_value (take 4 (drop 16 d)))
    /\ Z.of_nat (length f) = 24 + dl
    /\ range (16 + 4) (Z.to_nat (4 + dl)) f = range 4 (Z.to_nat (4 + dl)) rb.
Proof.
  intros Hq Hpid Ha Hs Hlen HL Hty Hne1 Hne2 Hpp Hdl Hrb Hmax.
  unfold sizeof_emsg, INT_MAX, off_index, off_data_len in *.
  set (p := Z.pos (brk w)).
  set (m := Z.pos (brk w + 1)).
  set (r := Z.pos (brk w + 1 + 1)).
  set (idx := le_value (take 4 (drop 16 d))).
  set (sq := le_value (take 4 (drop 8 d))).
  assert (Hidx : 0 <= idx < 2 ^ 32).
  { pose proof (le_value_range (take 4 (drop 16 d))) as R.
    rewrite length_take, length_drop in R.
    replace (Z.of_nat (4 `min` (length d - 16))) with 4 in R by lia. exact R. }
  assert (Hsq : 0 <= sq < 2 ^ 32).
  { pose proof (le_value_range (take 4 (drop 8 d))) as R.
    rewrite length_take, length_drop in R.
    replace (Z.of_nat (4 `min` (length d - 8))) with 4 in R by lia. exact R. }
  (* the receive *)
  assert (Hrecv : exists h1 tr1,
    ecryptfs_recv_netlink sk (emsg l) (msg_seq l) (msg_type l) w =
      Done (Z.of_nat (length d), m, Some (to_int sq), Some ECRYPTFS_NLMSG_REQUEST)
        {| heap := h1; brk := (brk w + 1 + 1)%positive; errno := errno w;
           alloc_script := []; inbox := q; send_script := []; outbox := outbox w;
           sys_socket := sys_socket w; sys_bind := sys_bind w;
           sys_getpid := sys_getpid w; trace := tr1 |}
    /\ h1 !! m = Some (Some <$> drop 16 d)).
  { rewrite (receive_peek sk _ _ _ w d src _ q Hq Ha) by lia.
    rewrite to_int_small by lia. cbv zeta.
    erewrite receive_payload;
      [ | heap_lookup | discriminate | world_simpl; lia | world_simpl; exact Hq
        | reflexivity | exact Hpid | unfold INT_MAX; lia | lia ].
    cbv zeta. world_simpl. rewrite <- Hlen, Z.min_id, Nat2Z.id, Hty, Hs.
    do 2 eexists. split; [reflexivity|].
    rewrite lookup_delete_ne by lia. rewrite lookup_insert_eq. f_equal.
    rewrite take_ge by lia.
    rewrite overwrite_all by len.
    rewrite range_Some. f_equal. apply take_ge. rewrite length_drop. lia. }
  destruct Hrecv as (h1 & tr1 & Hrecv & Hm).
  (* the reply, with the index of the request *)
  pose proof (field_range_of _ _ _ _ Hdl) as Hdl0.
  set (rb' := overwrite 0 (Some <$> le_bytes 4 idx) rb).
  assert (Lrb : length rb' = length rb) by (unfold rb'; len).
  assert (Hdl' : field 4 4 rb' = Some dl)
    by (unfold rb'; rewrite field_overwrite_after by len; exact Hdl).
  assert (Hix : field 0 4 rb' = Some idx).
  { unfold rb'. rewrite field_set_field by lia.
    change (256 ^ Z.of_nat 4) with (2 ^ 32). rewrite Z.mod_small by lia. reflexivity. }
  set (w2 := {| heap := <[r := rb']> (<[r := rb]> h1);
                brk := (brk w + 1 + 1 + 1)%positive; errno := errno w;
                alloc_script := []; inbox := q; send_script := [];
                outbox := outbox w; sys_socket := sys_socket w;
                sys_bind := sys_bind w; sys_getpid := sys_getpid w;
                trace := tr1 ++ [CParsePacket m 0 r] |}).
  destruct (send_message sk r ECRYPTFS_NLMSG_RESPONSE 0 (to_int sq) w2 rb' dl)
    as (f & B & Hsend & Lf & _ & Fseq & Ftype & Fpay);
    [ unfold w2; heap_lookup | discriminate | unfold w2, r; world_simpl; lia
    | exact Hdl' | unfold sizeof_emsg; lia | unfold INT_MAX; lia
    | reflexivity | reflexivity | ].
  unfold sizeof_emsg in Fpay. subst w2. world_simpl in Hsend.
  exists f. do 2 eexists. split.
  - unfold daemon_pass. erewrite run_bind by exact Hrecv. cbv beta iota zeta.
    rewrite (proj2 (Z.ltb_ge _ _)) by lia.
    cbn [emsg ctx msg_seq msg_type error_count].
    unfold rvalue at 1, ret at 1, bindM at 1.
    rewrite (proj2 (Z.eqb_neq _ _) Hne1), (proj2 (Z.eqb_neq _ _) Hne2), Z.eqb_refl.
    erewrite run_bind
      by (eapply call_parse_packet_reply; [heap_lookup; exact Hm | discriminate | exact Hpp]).
    cbv beta iota zeta. cbn [emsg ctx msg_seq msg_type error_count].
    change (negb (0 =? 0)) with false. cbv iota.
    world_simpl. fold r.
    change ((r =? NULL) || (m =? NULL)) with false. cbv iota.
    unfold ret at 1, bindM at 1.
    erewrite run_bind.
    2:{ eapply load_ok; [heap_lookup; rewrite lookup_insert_ne by (unfold r, m; lia); exact Hm|].
        unfold off_index. rewrite field_bytes by (rewrite length_drop; lia).
        change (drop 0 (drop 16 d)) with (drop 16 d). reflexivity. }
    fold idx.
    erewrite run_bind by (eapply store_ok; [heap_lookup | unfold off_index; lia]).
    unfold off_index. fold rb'. world_simpl.
    unfold rvalue at 1, ret at 1, bindM at 1.
    erewrite run_bind by exact Hsend. cbv beta.
    erewrite run_bind by (eapply free_ok; [heap_lookup | discriminate]).
    cbv beta. world_simpl.
    erewrite run_bind.
    2:{ eapply free_ok; [heap_lookup | discriminate]. }
    reflexivity.
  - world_simpl. cbn [error_count ctx].
    split; [reflexivity|]. split; [reflexivity|]. split; [reflexivity|].
    split; [reflexivity|].
    split; [exact Ftype|]. split.
    { rewrite Fseq. f_equal. apply to_u32_to_int. exact Hsq. }
    split.
    { rewrite <- (field_range 0 4 16 (Z.to_nat (8 + dl)) f) by lia.
      rewrite Fpay. rewrite field_range by lia. exact Hix. }
    split; [exact Lf|].
    rewrite <- (range_range 4 (Z.to_nat (4 + dl)) 16 (Z.to_nat (8 + dl)) f) by lia.
    rewrite Fpay. rewrite range_range by lia. cbn [Nat.add]. unfold rb'.
    apply range_overwrite_after; len.
Qed.

End Request.

(** ** What a primitive that returned has done *)

Ltac crunch H :=
  repeat
    match type of H with
    | Undefined = Done _ _ => discriminate H
    | Blocked _ = Done _ _ => discriminate H
    | Done _ _ = Done _ _ => injection H as ? ?
    | context [match ?x with _ => _ end] => destruct x eqn:?
    end.

Lemma allocate_inv size entry w p w1 :
  allocate size entry w = Done p w1 ->
  (p = NULL /\ exists w0, w1 = log_call (entry NULL) (with_errno ENOMEM w0)
                          /\ heap w0 = heap w /\ inbox w0 = inbox w
                          /\ brk w0 = brk w /\ trace w0 = trace w /\ outbox w0 = outbox w)
  \/ (p = Z.pos (brk w) /\ size <= PTRDIFF_MAX
      /\ exists s, w1 = log_call (entry p)
                     (with_heap (<[p := replicate (Z.to_nat size) None]> (heap w))
                        (with_brk (brk w + 1)%positive (with_alloc_script s w)))).
Proof.
  unfold allocate. intros H. crunch H; subst.
  - left. split; [reflexivity|]. exists w. repeat split; reflexivity.
  - right. split; [reflexivity|]. split; [lia|]. eexists. reflexivity.
  - left. split; [reflexivity|]. eexists. split; [reflexivity|]. repeat split; reflexivity.
  - right. split; [reflexivity|]. split; [lia|]. eexists. reflexivity.
Qed.

Lemma realloc_inv ptr size w p w1 :
  ptr <> NULL -> realloc ptr size w = Done p w1 ->
  exists b, heap w !! ptr = Some b /\
  ((p = NULL /\ exists w0, w1 = log_call (CRealloc ptr size NULL) w0
                           /\ inbox w0 = inbox w /\ brk w0 = brk w
                           /\ trace w0 = trace w /\ outbox w0 = outbox w
                           /\ forall a, a <> ptr -> heap w0 !! a = heap w !! a)
   \/ (p = ptr /\ size <> 0 /\ size <= PTRDIFF_MAX
       /\ exists s, w1 = log_call (CRealloc ptr size ptr)
                      (with_heap
                         (<[ptr := take (Z.to_nat size) b
                                   ++ replicate (Z.to_nat size - length b) None]> (heap w))
                         (with_alloc_script s w)))).
Proof.
  intros Hp. unfold realloc. rewrite (proj2 (Z.eqb_neq _ _) Hp).
  intros H. crunch H; subst; eexists; (split; [reflexivity|]).
  - left. split; [reflexivity|]. eexists. split; [reflexivity|].
    split; [reflexivity|]. split; [reflexivity|]. split; [reflexivity|].
    split; [reflexivity|]. intros a Ha. cbn. apply lookup_delete_ne. congruence.
  - left. split; [reflexivity|]. eexists. split; [reflexivity|].
    split; [reflexivity|]. split; [reflexivity|]. split; [reflexivity|].
    split; [reflexivity|]. reflexivity.
  - right. split; [reflexivity|]. split; [lia|]. split; [lia|]. eexists. reflexivity.
  - left. split; [reflexivity|]. eexists. split; [reflexivity|].
    split; [reflexivity|]. split; [reflexivity|]. split; [reflexivity|].
    split; [reflexivity|]. reflexivity.
  - right. split; [reflexivity|]. split; [lia|]. split; [lia|]. eexists. reflexivity.
Qed.

Lemma recvfrom_inv sk buf len flags w n from w1 d src slen q :
  inbox w = Datagram d src slen :: q ->
  recvfrom sk buf len flags w = Done (n, from) w1 ->
  exists b, heap w !! buf = Some b
    /\ n = Z.min len (Z.of_nat (length d)) /\ from = Some (src, slen)
    /\ (Z.to_nat n <= length b)%nat
    /\ w1 = log_call (CRecvfrom buf (length b) len flags n)
              (with_heap (<[buf := overwrite 0 (Some <$> take (Z.to_nat n) d) b]> (heap w))
                 (with_inbox (if Z.land flags MSG_PEEK =? 0 then q else inbox w) w)).
Proof.
  intros Hq. unfold recvfrom. rewrite Hq. intros H.
  destruct (heap w !! buf) as [b|]; [|discriminate].
  unfold blit in H. case_decide as Hl; [|discriminate].
  injection H as <- <- <-. exists b. split; [reflexivity|].
  split; [reflexivity|]. split; [reflexivity|]. split; [|reflexivity].
  rewrite length_fmap, length_take in Hl.
  destruct (decide (len <= Z.of_nat (length d))); lia.
Qed.

Lemma load_inv ptr off n w v w1 :
  load ptr off n w = Done v w1 ->
  w1 = w /\ exists b, heap w !! ptr = Some b /\ field off n b = Some v.
Proof.
  unfold load. intros H. crunch H; subst. split; [reflexivity|].
  eexists. split; [reflexivity | assumption].
Qed.

Lemma memcpy_inv dst doff src soff n w u w1 :
  memcpy dst doff src soff n w = Done u w1 ->
  exists s d,
    heap w !! src = Some s /\ heap w !! dst = Some d
    /\ (soff + Z.to_nat n <= length s)%nat /\ (doff + Z.to_nat n <= length d)%nat
    /\ w1 = with_heap (<[dst := overwrite doff (range soff (Z.to_nat n) s) d]> (heap w)) w.
Proof.
  unfold memcpy. intros H.
  destruct (heap w !! src) as [s|]; [|discriminate].
  destruct (heap w !! dst) as [d|]; [|discriminate].
  unfold slice in H. case_decide as Hs; [|discriminate].
  unfold blit in H. case_decide as Hd; [|discriminate].
  injection H as _ <-. rewrite length_range in Hd by exact Hs.
  exists s, d. repeat split; try reflexivity; assumption.
Qed.

Lemma free_inv ptr w u w1 :
  ptr <> NULL -> free ptr w = Done u w1 ->
  w1 = log_call (CFree ptr) (with_heap (delete ptr (heap w)) w).
Proof.
  intros Hp. unfold free. rewrite (proj2 (Z.eqb_neq _ _) Hp).
  intros H. crunch H; subst. reflexivity.
Qed.

(** ** Buffer sizes of the receiver *)

Lemma defined_lookup cs bs i :
  defined cs = Some bs -> cs !! i = Some None -> False.
Proof.
  revert bs i. induction cs as [|[c|] cs IH]; intros bs i E Hi.
  - destruct i; discriminate.
  - cbn in E. destruct (defined cs) as [bs'|] eqn:E'; [|discriminate].
    destruct i as [|i]; [discriminate|]. cbn in Hi. eapply IH; [reflexivity | exact Hi].
  - discriminate.
Qed.

(** The length read after the peek is the one the datagram declares. *)
Lemma field_peeked n (d : list byte) v :
  field off_nlmsg_len 4 (overwrite 0 (Some <$> take n d) (replicate 16 None)) = Some v ->
  (n <= 16)%nat -> v = le_value (take 4 d) /\ (4 <= n)%nat /\ (4 <= length d)%nat.
Proof.
  unfold off_nlmsg_len. intros H Hn.
  assert (Hl : length (Some <$> take n d) = (n `min` length d)%nat)
    by (rewrite length_fmap, length_take; reflexivity).
  destruct (decide (4 <= n `min` length d)%nat) as [Hk|Hk].
  - rewrite field_overwrite_inside in H by (rewrite ?length_replicate; lia).
    rewrite field_bytes in H by (rewrite length_take; lia).
    injection H as <-. split; [|lia].
    cbn [Nat.sub]. rewrite drop_0, take_take. f_equal. f_equal. lia.
  - exfalso. rewrite field_eq in H by (rewrite length_overwrite; rewrite ?length_replicate; lia).
    destruct (defined _) as [bs|] eqn:E; [|discriminate].
    apply (defined_lookup _ _ (n `min` length d)%nat E).
    rewrite lookup_range, decide_True by lia.
    rewrite lookup_overwrite by (rewrite length_replicate; lia).
    rewrite decide_False by lia. rewrite decide_False by lia.
    apply lookup_replicate_2. lia.
Qed.

Lemma field_reread n (d : list byte) b v :
  field off_nlmsg_len 4 (overwrite 0 (Some <$> take n d) b) = Some v ->
  (4 <= length d)%nat -> (n <= length b)%nat -> (n = length b \/ n = length d)%nat ->
  v = le_value (take 4 d).
Proof.
  unfold off_nlmsg_len. intros H Hd Hn Hmin.
  assert (Hl : length (Some <$> take n d) = (n `min` length d)%nat)
    by (rewrite length_fmap, length_take; reflexivity).
  apply field_Some_length in H as Hlen.
  rewrite length_overwrite in Hlen by lia.
  rewrite field_overwrite_inside in H by lia.
  rewrite field_bytes in H by (rewrite length_take; lia).
  injection H as <-. cbn [Nat.sub]. rewrite drop_0, take_take. f_equal. f_equal. lia.
Qed.

Ltac subst_worlds :=
  repeat match goal with
    | E : ?x = _ |- _ => is_var x; match type of x with world => subst x end
    | E : _ = ?x |- _ => is_var x; match type of x with world => subst x end
    end.

(** From the equation that defines a world to its heap, trace and
    allocation counter. *)
Ltac abstract_world E :=
  match type of E with
  | ?x = ?e =>
      let Hh := fresh "Hheap" in
      let Ht := fresh "Htrace" in
      let Hk := fresh "Hbrk" in
      assert (Hh : heap x = heap e) by (rewrite E; reflexivity);
      assert (Ht : trace x = trace e) by (rewrite E; reflexivity);
      assert (Hk : brk x = brk e) by (rewrite E; reflexivity);
      world_simpl in Hh; world_simpl in Ht; world_simpl in Hk; clear E
  end.

(** Every way [ecryptfs_recv_netlink] can return when a datagram is at the
    head of the queue, as the libc calls it has made. *)
Lemma recv_calls sk em s t w d src slen q r w' :
  inbox w = Datagram d src slen :: q ->
  ecryptfs_recv_netlink sk em s t w = Done r w' ->
  let len := le_value (take 4 d) in
  let p := Z.pos (brk w) in
  let m := Z.pos (brk w + 1) in
  exists calls, trace w' = trace w ++ calls /\
    (calls = [CRealloc NULL 16 NULL]
     \/ (exists n1,
           calls = [CRealloc NULL 16 p; CRecvfrom p 16 16 MSG_PEEK n1;
                    CRealloc p (to_size_t (to_int len)) NULL])
     \/ (exists n1 n2 rest,
           0 < len <= INT_MAX
           /\ calls = [CRealloc NULL 16 p; CRecvfrom p 16 16 MSG_PEEK n1;
                       CRealloc p len p; CRecvfrom p (Z.to_nat len) len 0 n2] ++ rest
           /\ (rest = [] \/ rest = [CFree p]
               \/ (exists size, rest = [CMalloc size NULL; CFree p])
               \/ (16 < len /\ rest = [CMalloc (len - 16) m; CFree p]
                   /\ exists b, heap w' !! m = Some b
                                /\ length b = Z.to_nat (len - 16))))).
Proof.
  intros Hq H len p m.
  unfold ecryptfs_recv_netlink in H. rewrite receive_S in H.
  change (to_size_t sizeof_nlmsghdr) with 16 in H.
  apply bindM_inv in H as (nlh & w0 & Hr1 & H).
  rewrite realloc_null in Hr1.
  apply allocate_inv in Hr1 as [(-> & w00 & -> & _ & _ & _ & Ht & _) | (-> & _ & s0 & ->)].
  { (* no memory for the header *)
    change (NULL =? NULL) with true in H. cbv iota in H. minv H. subst w'.
    exists [CRealloc NULL 16 NULL]. split; [|left; reflexivity].
    world_simpl. rewrite Ht. reflexivity. }
  fold p in H |- *.
  change (p =? NULL) with false in H. cbv iota in H.
  apply bindM_inv in H as ([z o] & w1 & Hrf & H).
  eapply recvfrom_inv in Hrf as (b & Hb & Ez & Eo & Hn1 & Ew); [|world_simpl; exact Hq].
  subst z o w1.
  world_simpl in Hb. rewrite lookup_insert_eq in Hb.
  change (Z.to_nat 16) with 16%nat in Hb.
  assert (b = replicate 16 None) as -> by congruence. clear Hb.
  rewrite length_replicate in Hn1.
  set (n1 := Z.min 16 (Z.of_nat (length d))) in *.
  cbv beta iota zeta in H. rewrite to_int_small in H by lia.
  rewrite (proj2 (Z.ltb_ge _ _)) in H by lia.
  change (negb (Z.land MSG_PEEK MSG_PEEK =? 0)) with true in H. cbv iota in H.
  apply bindM_inv in H as (len0 & w2 & Hld & H).
  apply load_inv in Hld as (-> & b1 & Hb1 & Hf1).
  world_simpl in Hb1. rewrite lookup_insert_eq in Hb1.
  assert (b1 = overwrite 0 (Some <$> take (Z.to_nat n1) d) (replicate 16 None)) as ->
    by congruence. clear Hb1.
  apply field_peeked in Hf1 as (-> & Hn4 & Hd4); [|lia]. fold len in H.
  rewrite receive_S in H.
  apply bindM_inv in H as (nlh & w3 & Hr2 & H).
  apply realloc_inv in Hr2 as (b2 & Hb2 & Hcase); [|discriminate].
  world_simpl in Hb2. rewrite lookup_insert_eq in Hb2.
  assert (b2 = overwrite 0 (Some <$> take (Z.to_nat n1) d) (replicate 16 None)) as ->
    by congruence. clear Hb2.
  destruct Hcase as [(-> & w30 & -> & _ & _ & Ht & _) | (-> & Hsz0 & Hsz & s1 & ->)].
  { (* the buffer cannot be resized *)
    change (NULL =? NULL) with true in H. cbv iota in H. minv H. subst w'.
    eexists. split; [|right; left; exists n1; reflexivity].
    world_simpl. rewrite Ht. world_simpl. rewrite <- !app_assoc. reflexivity. }
  apply size_from_int in Hsz as Hint. destruct Hint as [Hnn Hsize].
  assert (Hlen_range : 0 <= len < 2 ^ 32).
  { pose proof (le_value_range (take 4 d)) as R. rewrite length_take in R.
    replace (Z.of_nat (4 `min` length d)) with 4 in R by lia. exact R. }
  assert (Hint : to_int len = len).
  { destruct (Z_lt_dec len (2 ^ 31)); [apply to_int_small; lia|].
    rewrite to_int_high in Hnn by lia. lia. }
  rewrite Hint in *. rewrite Hsize in *.
  assert (HL : 0 < len <= INT_MAX) by (unfold INT_MAX; pose proof (to_int_range len); lia).
  change (p =? NULL) with false in H. cbv iota in H.
  apply bindM_inv in H as ([z o] & w4 & Hrf & H).
  eapply recvfrom_inv in Hrf as (b3 & Hb3 & Ez & Eo & Hn2 & Ew); [|world_simpl; exact Hq].
  subst z o w4.
  set (b' := take (Z.to_nat len) (overwrite 0 (Some <$> take (Z.to_nat n1) d) (replicate 16 None))
             ++ replicate (Z.to_nat len - length (overwrite 0 (Some <$> take (Z.to_nat n1) d) (replicate 16 None))) None) in *.
  assert (Lb' : length b' = Z.to_nat len).
  { unfold b'. rewrite length_app, length_take, length_replicate. lia. }
  world_simpl in Hb3. rewrite lookup_insert_eq in Hb3.
  assert (b3 = b') as -> by congruence. clear Hb3.
  set (n2 := Z.min len (Z.of_nat (length d))) in *.
  set (frame := overwrite 0 (Some <$> take (Z.to_nat n2) d) b') in *.
  assert (Lframe : length frame = Z.to_nat len).
  { unfold frame. rewrite length_overwrite; [exact Lb'|].
    rewrite length_fmap, length_take. lia. }
  cbv beta iota zeta in H.
  change (Z.land MSG_PEEK (Z.lnot MSG_PEEK)) with 0 in H.
  rewrite to_int_small in H by (unfold INT_MAX in HL; lia).
  rewrite (proj2 (Z.ltb_ge _ _)) in H by lia.
  change (negb (Z.land 0 MSG_PEEK =? 0)) with false in H. cbv iota in H.
  match type of H with ?K ?W = _ => remember W as W1 eqn:EW end.
  assert (HW : heap W1 = <[p := frame]> (heap w) /\ brk W1 = (brk w + 1)%positive
               /\ trace W1 = trace w ++ [CRealloc NULL 16 p; CRecvfrom p 16 16 MSG_PEEK n1;
                                         CRealloc p len p; CRecvfrom p (Z.to_nat len) len 0 n2]).
  { subst W1. world_simpl. rewrite !insert_insert_eq.
    change (Z.to_nat 16) with 16%nat. rewrite length_replicate, Lb'.
    rewrite <- !app_assoc. repeat split; reflexivity. }
  clear EW. destruct HW as (HWh & HWb & HWt).
  assert (Hrest : forall rest,
    trace w' = trace W1 ++ rest ->
    (rest = [] \/ rest = [CFree p]
     \/ (exists size, rest = [CMalloc size NULL; CFree p])
     \/ (16 < len /\ rest = [CMalloc (len - 16) m; CFree p]
         /\ exists b, heap w' !! m = Some b /\ length b = Z.to_nat (len - 16))) ->
    exists calls, trace w' = trace w ++ calls /\
      (calls = [CRealloc NULL 16 NULL]
       \/ (exists n1,
             calls = [CRealloc NULL 16 p; CRecvfrom p 16 16 MSG_PEEK n1;
                      CRealloc p len NULL])
       \/ (exists n1 n2 rest,
             0 < len <= INT_MAX
             /\ calls = [CRealloc NULL 16 p; CRecvfrom p 16 16 MSG_PEEK n1;
                         CRealloc p len p; CRecvfrom p (Z.to_nat len) len 0 n2] ++ rest
             /\ (rest = [] \/ rest = [CFree p]
                 \/ (exists size, rest = [CMalloc size NULL; CFree p])
                 \/ (16 < len /\ rest = [CMalloc (len - 16) m; CFree p]
                     /\ exists b, heap w' !! m = Some b
                                  /\ length b = Z.to_nat (len - 16)))))).
  { intros rest Ht Hcases. eexists. split.
    - rewrite Ht, HWt, <- app_assoc. reflexivity.
    - right. right. exists n1, n2, rest. split; [exact HL|]. split; [reflexivity | exact Hcases]. }
  minv H.
  - (* the sender's address has the wrong size *)
    apply free_inv in Hm as E; [|discriminate]. abstract_world E. subst_worlds.
    eapply Hrest; [rewrite Htrace; reflexivity | right; left; reflexivity].
  - (* the sender is not the kernel *)
    subst_worlds. apply (Hrest []); [symmetry; apply app_nil_r | left; reflexivity].
  - (* no memory for the payload *)
    apply load_inv in Hm as (-> & _).
    apply Z.eqb_eq in Hb2. subst a0.
    unfold malloc in Hm0.
    apply allocate_inv in Hm0 as [(_ & w00 & -> & _ & _ & _ & Ht0 & _) | (Hp0 & _)];
      [|discriminate Hp0].
    apply free_inv in Hm1; [|discriminate]. subst_worlds.
    eapply Hrest; [|right; right; left; eexists; reflexivity].
    world_simpl. rewrite Ht0, <- app_assoc. reflexivity.
  - (* the payload is copied *)
    apply load_inv in Hm as (-> & bf & Hbf & Hf).
    rewrite HWh, lookup_insert_eq in Hbf. assert (bf = frame) as -> by congruence.
    apply field_reread in Hf; [|exact Hd4|exact Hn2|rewrite Lb'; unfold n2; lia].
    fold len in Hf. subst a.
    unfold malloc in Hm0.
    apply allocate_inv in Hm0 as [(-> & _) | (-> & Hsz1 & s2 & E1)];
      [discriminate Hb2|].
    rewrite HWb in E1, Hm1. fold m in E1, Hm1, Er. abstract_world E1.
    apply memcpy_inv in Hm1 as (sb & db & Hsb & Hdb & Hsl & _ & E2).
    rewrite Hheap in Hsb, Hdb.
    rewrite lookup_insert_eq in Hdb.
    rewrite lookup_insert_ne in Hsb by (unfold p, m; lia).
    rewrite HWh, lookup_insert_eq in Hsb.
    assert (sb = frame) as -> by congruence.
    assert (db = replicate (Z.to_nat (to_size_t (to_int (NLMSG_PAYLOAD len 0)))) None)
      as -> by congruence.
    abstract_world E2.
    apply load_inv in Hm2 as (-> & _). apply load_inv in Hm3 as (-> & _).
    apply free_inv in Hm4 as E3; [|discriminate]. abstract_world E3.
    subst w'.
    assert (Hpay : 16 <= len /\ to_size_t (to_int (NLMSG_PAYLOAD len 0)) = len - 16).
    { unfold NLMSG_PAYLOAD in *. rewrite NLMSG_SPACE_0 in *.
      destruct (Z_lt_dec len 16) as [Hlt|Hge].
      - exfalso. rewrite to_u32_neg in Hsz1 by lia.
        rewrite to_int_high in Hsz1 by lia.
        rewrite to_size_t_neg in Hsz1 by lia. unfold PTRDIFF_MAX in Hsz1. lia.
      - split; [lia|]. unfold INT_MAX in HL. rewrite to_u32_small by lia.
        rewrite to_int_small by lia. apply to_size_t_small. lia. }
    destruct Hpay as [H16 Hpay]. rewrite Hpay in *.
    assert (Hne : len <> 16).
    { intros E. rewrite E in Hb1. unfold NLMSG_PAYLOAD in Hb1.
      rewrite NLMSG_SPACE_0 in Hb1. discriminate Hb1. }
    eapply Hrest.
    + rewrite Htrace1, Htrace0, Htrace, <- app_assoc. reflexivity.
    + right; right; right. split; [lia|]. split; [reflexivity|].
      rewrite Hheap1, lookup_delete_ne by (unfold p, m; clear; lia).
      rewrite Hheap0, lookup_insert_eq. eexists. split; [reflexivity|].
      rewrite length_overwrite. 
      * rewrite length_replicate. reflexivity.
      * rewrite length_replicate. rewrite length_range by exact Hsl. apply Nat.le_refl.
  - (* a frame without payload *)
    apply load_inv in Hm as (-> & _). apply load_inv in Hm0 as (-> & _).
    apply load_inv in Hm1 as (-> & _).
    apply free_inv in Hm2 as E; [|discriminate]. abstract_world E. subst_worlds.
    eapply Hrest; [rewrite Htrace; reflexivity | right; left; reflexivity].
   
Qed.

(** ** The dispatch loop and the error counter *)

Section Daemon.
Context `{Hdr : EcryptfsHeader} `{KM : KeyModules}.

(** A pass whose receive meets a transport failure counts it, frees nothing
    ([emsg] is null) and either goes back to [receive] or, the threshold
    exceeded, leaves with [-EIO]. *)
Lemma pass_transport_failure sk l w e q :
  inbox w = RecvErr e :: q -> alloc_script w = [] -> emsg l = NULL ->
  0 <= error_count l < INT_MAX ->
  exists w',
    daemon_pass sk l w =
      Done (if ECRYPTFS_NETLINK_ERROR_COUNT_THRESHOLD <? error_count l + 1
            then GotoOut (- EIO) (set_error_count (error_count l + 1) l)
            else GotoReceive (set_error_count (error_count l + 1) l)) w'
    /\ inbox w' = q /\ alloc_script w' = [].
Proof.
  intros Hq Ha He Hn.
  destruct (recv_transport_failure sk (emsg l) (msg_seq l) (msg_type l) w e q Hq Ha)
    as (w1 & Hrecv & Hq1 & Ha1 & _).
  unfold daemon_pass. erewrite run_bind by exact Hrecv. cbv beta iota zeta.
  pose proof (errno_val_range e) as Hpos.
  rewrite (proj2 (Z.ltb_lt _ _)) by lia.
  cbn [error_count emsg ctx msg_seq msg_type].
  unfold signed. rewrite decide_True by (unfold INT_MAX in *; lia).
  unfold ret at 1. unfold bindM at 1.
  unfold set_error_count.
  destruct (ECRYPTFS_NETLINK_ERROR_COUNT_THRESHOLD <? error_count l + 1).
  - eexists. split; [reflexivity|]. split; assumption.
  - rewrite He. eexists. split; [reflexivity|]. split; assumption.
Qed.

(** What one pass can do to the counter, whatever it receives. *)
Lemma pass_counter sk l w j w' :
  daemon_pass sk l w = Done j w' -> 0 <= error_count l ->
  match j with
  | GotoOut rc l' =>
      rc = - EIO -> ECRYPTFS_NETLINK_ERROR_COUNT_THRESHOLD < error_count l + 1
  | GotoReceive l' => 0 <= error_count l' <= error_count l + 1
  end.
Proof.
  intros H Hn. unfold daemon_pass in H.
  cbn [error_count emsg ctx msg_seq msg_type] in H.
  minv H.
  all: cbn [error_count emsg ctx msg_seq msg_type] in *.
  all: repeat match goal with
         | E : signed _ _ = Done _ _ |- _ =>
             unfold signed in E; case_decide; [apply ret_inv in E as [? ?] | discriminate E]
         | E : GotoOut _ _ = _ |- _ => rewrite <- E; clear E
         | E : GotoReceive _ = _ |- _ => rewrite <- E; clear E
         end.
  all: cbn [error_count emsg ctx msg_seq msg_type] in *.
  all: try (intros; lia).
  all: try (intros Hrc; discriminate Hrc).
Qed.

Lemma daemon_loop_app n m sk l w l1 w1 :
  daemon_loop n sk l w = Done (GotoReceive l1) w1 ->
  daemon_loop (n + m) sk l w = daemon_loop m sk l1 w1.
Proof.
  revert l w. induction n as [|n IH]; intros l w H; cbn [daemon_loop Nat.add] in *.
  - apply ret_inv in H as [E ->]. injection E as ->. reflexivity.
  - apply bindM_inv in H as (j & w0 & Hp & H).
    erewrite run_bind by exact Hp.
    destruct j as [rc l0|l0]; [apply ret_inv in H as [E _]; discriminate E|].
    apply IH. exact H.
Qed.

(** Transport failures that stay within the threshold are counted and the
    loop goes on. *)
Lemma failures_continue sk errs : forall l w q,
  inbox w = (RecvErr <$> errs) ++ q -> alloc_script w = [] -> emsg l = NULL ->
  0 <= error_count l ->
  error_count l + Z.of_nat (length errs) <= ECRYPTFS_NETLINK_ERROR_COUNT_THRESHOLD ->
  ECRYPTFS_NETLINK_ERROR_COUNT_THRESHOLD < INT_MAX ->
  exists w',
    daemon_loop (length errs) sk l w =
      Done (GotoReceive (set_error_count (error_count l + Z.of_nat (length errs)) l)) w'
    /\ inbox w' = q /\ alloc_script w' = [].
Proof.
  induction errs as [|e errs IH]; intros l w q Hq Ha He H0 HT Hmax.
  - exists w. cbn [daemon_loop length]. split; [|split; assumption].
    unfold ret, set_error_count. destruct l; cbn. do 3 f_equal. lia.
  - cbn [fmap list_fmap app] in Hq. change (list_fmap _ _ RecvErr errs) with (RecvErr <$> errs) in Hq.
    cbn [length] in HT. rewrite Nat2Z.inj_succ in HT.
    destruct (pass_transport_failure sk l w e _ Hq Ha He ltac:(lia))
      as (w1 & Hpass & Hq1 & Ha1).
    rewrite (proj2 (Z.ltb_ge _ _)) in Hpass by lia.
    destruct (IH (set_error_count (error_count l + 1) l) w1 q Hq1 Ha1 He)
      as (w' & Hloop & Hq' & Ha'); cbn [set_error_count error_count]; try lia.
    exists w'. split; [|split; assumption].
    cbn [daemon_loop length]. erewrite run_bind by exact Hpass.
    cbv beta iota. rewrite Hloop. unfold set_error_count. cbn. do 3 f_equal.
    rewrite Nat2Z.inj_succ. lia.
Qed.

(** No run of at most [threshold - count] passes ends with [-EIO]. *)
Lemma no_fatal_exit_early sk n : forall l w j w',
  0 <= error_count l ->
  error_count l + Z.of_nat n <= ECRYPTFS_NETLINK_ERROR_COUNT_THRESHOLD ->
  daemon_loop n sk l w = Done j w' ->
  match j with
  | GotoOut rc _ => rc <> - EIO
  | GotoReceive l' => 0 <= error_count l' <= error_count l + Z.of_nat n
  end.
Proof.
  induction n as [|n IH]; intros l w j w' H0 HT H; cbn [daemon_loop] in H.
  - apply ret_inv in H as [<- _]. lia.
  - apply bindM_inv in H as (j1 & w1 & Hp & H).
    pose proof (pass_counter sk l w j1 w1 Hp H0) as Hc.
    rewrite Nat2Z.inj_succ in *.
    destruct j1 as [rc l1|l1].
    + apply ret_inv in H as [<- _]. intros E. specialize (Hc E). lia.
    + specialize (IH l1 w1 j w' ltac:(lia) ltac:(lia) H).
      destruct j; [exact IH | lia].
Qed.

End Daemon.

Lemma NLMSG_PAYLOAD_underflow len :
  0 <= len < 16 ->
  NLMSG_PAYLOAD len 0 = len - 16 + 2 ^ 32
  /\ to_int (NLMSG_PAYLOAD len 0) = len - 16
  /\ to_size_t (to_int (NLMSG_PAYLOAD len 0)) = len - 16 + 2 ^ 64.
Proof.
  intros H. unfold NLMSG_PAYLOAD. rewrite NLMSG_SPACE_0.
  rewrite to_u32_neg by lia. split; [reflexivity|].
  rewrite to_int_high by lia. split; [lia|].
  replace (len - 16 + 2 ^ 32 - 2 ^ 32) with (len - 16) by lia.
  apply to_size_t_neg. lia.
Qed.

(** The second pass on a frame from the kernel whose declared length is
    below the header size: the payload length is negative, the allocation
    is asked for almost [2 ^ 64] bytes and fails. *)
Lemma receive_short sk p nladdr nladdr_len em s t w b d src q :
  let len := le_value (take 4 d) in
  heap w !! p = Some b -> p <> NULL ->
  inbox w = Datagram d src sizeof_sockaddr_nl :: q -> alloc_script w = [] ->
  nl_pid src = 0 -> 4 <= len < 16 -> (4 <= length d)%nat ->
  let n := Z.min len (Z.of_nat (length d)) in
  let b' := take (Z.to_nat len) b ++ replicate (Z.to_nat len - length b) None in
  let frame := overwrite 0 (Some <$> take (Z.to_nat n) d) b' in
  receive 1 sk p len 0 nladdr nladdr_len em s t w =
  Done (- ENOMEM, NULL, s, t)
    {| heap := delete p (<[p := frame]> (heap w));
       brk := brk w; errno := ENOMEM; alloc_script := [];
       inbox := q; send_script := send_script w; outbox := outbox w;
       sys_socket := sys_socket w; sys_bind := sys_bind w; sys_getpid := sys_getpid w;
       trace := (((trace w ++ [CRealloc p len p])
                  ++ [CRecvfrom p (Z.to_nat len) len 0 n])
                 ++ [CMalloc (len - 16 + 2 ^ 64) NULL]) ++ [CFree p] |}.
Proof.
  intros len Hb Hp Hq Ha Hpid HL Hd n b' frame.
  assert (Elen : le_value (take 4 d) = len) by reflexivity. clearbody len.
  assert (HL' : 0 < len <= INT_MAX) by (unfold INT_MAX; lia).
  assert (Hlen' : length b' = Z.to_nat len)
    by (unfold b'; rewrite length_app, length_take, length_replicate; lia).
  assert (Hn : (4 <= Z.to_nat n <= length d)%nat /\ (Z.to_nat n <= Z.to_nat len)%nat)
    by (unfold n; lia).
  destruct (NLMSG_PAYLOAD_underflow len ltac:(lia)) as (_ & Hpl & Hsz).
  second_pass len Hb Hp Hq Ha HL'.
  change (negb (sizeof_sockaddr_nl =? sizeof_sockaddr_nl)) with false. cbv iota.
  unfold rvalue, ret at 1, bindM at 1.
  rewrite Hpid. change (negb (0 =? 0)) with false. cbv iota.
  fold n b' frame.
  erewrite run_bind.
  2:{ eapply load_ok; [heap_lookup|].
      unfold frame. apply field_received with (off := 0%nat); lia. }
  cbv beta zeta. change (drop 0 d) with d. rewrite Elen.
  rewrite Hsz, Hpl.
  rewrite (proj2 (Z.eqb_neq _ _)) by lia. cbn [negb].
  erewrite run_bind by (apply allocate_huge; unfold PTRDIFF_MAX; lia).
  cbv beta. change (NULL =? NULL) with true. cbv iota.
  unfold get_errno at 1, bindM at 1. world_simpl.
  erewrite run_bind by (eapply free_ok; [heap_lookup | exact Hp]).
  reflexivity.
Qed.

(** * Properties of the netlink channel *)

(** ** The receiver *)

(** C10. On every error return of [ecryptfs_recv_netlink], that is with a
    negative return code, the caller's [*msg_seq] and [*msg_type] are what
    they were on entry: the only path that writes them is the one that
    returns the byte count of the read. *)
Theorem recv_error_keeps_seq_and_type sk em s t w rc em' s' t' w' :
  ecryptfs_recv_netlink sk em s t w = Done (rc, em', s', t') w' ->
  rc < 0 ->
  s' = s /\ t' = t.
Proof.
  unfold ecryptfs_recv_netlink, receive. intros H Hrc.
  minv H.
  all: try (injection Er as <- <- <- <-; split; reflexivity).
  all: try discriminate.
  all: injection Er as <- _ _ _; lia.
Qed.

Lemma recv_error_keeps_seq_and_type_witness :
  exists w',
    ecryptfs_recv_netlink 3 NULL (Some 77) (Some 102)
      (quiet [Datagram example_helo intruder 12])
    = Done (- ENOMSG, NULL, Some 77, Some 102) w'
    /\ - ENOMSG < 0
    /\ (Some 77 = Some 77 /\ Some 102 = Some 102).
Proof.
  eexists.
  assert (H : ecryptfs_recv_netlink 3 NULL (Some 77) (Some 102)
                (quiet [Datagram example_helo intruder 12])
              = Done (- ENOMSG, NULL, Some 77, Some 102) _)
    by (vm_compute; reflexivity).
  split; [exact H|]. split; [unfold ENOMSG; lia|].
  apply (recv_error_keeps_seq_and_type _ _ _ _ _ _ _ _ _ _ H). unfold ENOMSG. lia.
Defined.

(** C9. The declared length of the peeked frame becomes the size of the
    receive buffer as it stands: nothing bounds it from above, and nothing
    checks it against the header size.  A frame from the kernel that
    declares 4 to 15 bytes has its buffer resized to that length and read;
    the payload length [NLMSG_PAYLOAD] then wraps around to the negative
    [len - 16], and [malloc] is asked for [(size_t)(len - 16)] bytes.  A
    frame that declares any length up to [INT_MAX] has its buffer resized
    to that length. *)
Theorem declared_length_is_trusted sk em s t w d src q :
  inbox w = Datagram d src sizeof_sockaddr_nl :: q ->
  alloc_script w = [] -> nl_pid src = 0 -> (4 <= length d)%nat ->
  let len := le_value (take 4 d) in
  let p := Z.pos (brk w) in
  (4 <= len < sizeof_nlmsghdr ->
   to_int (NLMSG_PAYLOAD len 0) = len - sizeof_nlmsghdr
   /\ exists w' n1 n2,
        ecryptfs_recv_netlink sk em s t w = Done (- ENOMEM, NULL, s, t) w'
        /\ trace w' = trace w ++
             [CRealloc NULL 16 p; CRecvfrom p 16 16 MSG_PEEK n1;
              CRealloc p len p; CRecvfrom p (Z.to_nat len) len 0 n2;
              CMalloc (len - sizeof_nlmsghdr + 2 ^ 64) NULL; CFree p])
  /\ (sizeof_nlmsghdr < len <= INT_MAX -> (16 <= length d)%nat ->
      exists r w' n1 n2 m,
        ecryptfs_recv_netlink sk em s t w = Done r w'
        /\ trace w' = trace w ++
             [CRealloc NULL 16 p; CRecvfrom p 16 16 MSG_PEEK n1;
              CRealloc p len p; CRecvfrom p (Z.to_nat len) len 0 n2;
              CMalloc (len - sizeof_nlmsghdr) m; CFree p]).
Proof.
  intros Hq Ha Hpid Hd len p. unfold sizeof_nlmsghdr.
  pose proof (receive_peek sk em s t w d src _ q Hq Ha Hd) as Hpeek.
  cbv zeta in Hpeek. fold len p in Hpeek.
  split.
  - intros HL.
    destruct (NLMSG_PAYLOAD_underflow len ltac:(lia)) as (_ & Hpl & _).
    split; [exact Hpl|].
    rewrite Hpeek. rewrite to_int_small by lia.
    unfold len. erewrite receive_short;
      [ | heap_lookup | discriminate | world_simpl; exact Hq | reflexivity
        | exact Hpid | exact HL | exact Hd ].
    do 3 eexists. split; [reflexivity|]. world_simpl. fold len p.
    rewrite <- !app_assoc. reflexivity.
  - intros HL Hd16.
    rewrite Hpeek. rewrite to_int_small by (unfold INT_MAX in HL; lia).
    unfold len. erewrite receive_payload;
      [ | heap_lookup | discriminate | world_simpl; lia | world_simpl; exact Hq
        | reflexivity | exact Hpid | exact HL | exact Hd16 ].
    do 5 eexists. split; [reflexivity|]. world_simpl. fold len p.
    rewrite <- !app_assoc. reflexivity.
Qed.

Lemma declared_length_is_trusted_witness :
  let w := quiet [Datagram (frame_declaring 4 100 1 []) kernel 12] in
  inbox w = Datagram (frame_declaring 4 100 1 []) kernel sizeof_sockaddr_nl :: []
  /\ alloc_script w = [] /\ nl_pid kernel = 0
  /\ (4 <= length (frame_declaring 4 100 1 []))%nat
  /\ 4 <= le_value (take 4 (frame_declaring 4 100 1 [])) < sizeof_nlmsghdr
  /\ to_int (NLMSG_PAYLOAD (le_value (take 4 (frame_declaring 4 100 1 []))) 0) = -12
  /\ exists w' n1 n2,
       ecryptfs_recv_netlink 3 NULL None None w = Done (- ENOMEM, NULL, None, None) w'
       /\ trace w' =
            [CRealloc NULL 16 1; CRecvfrom 1 16 16 MSG_PEEK n1;
             CRealloc 1 4 1; CRecvfrom 1 4 4 0 n2;
             CMalloc (2 ^ 64 - 12) NULL; CFree 1].
Proof.
  intros w.
  assert (Hq : inbox w = Datagram (frame_declaring 4 100 1 []) kernel sizeof_sockaddr_nl :: [])
    by reflexivity.
  assert (Ha : alloc_script w = []) by reflexivity.
  assert (Hpid : nl_pid kernel = 0) by reflexivity.
  assert (Hd : (4 <= length (frame_declaring 4 100 1 []))%nat) by (vm_compute; lia).
  assert (HL : 4 <= le_value (take 4 (frame_declaring 4 100 1 [])) < sizeof_nlmsghdr)
    by (vm_compute; split; [discriminate | reflexivity]).
  split; [exact Hq|]. split; [exact Ha|]. split; [exact Hpid|].
  split; [exact Hd|]. split; [exact HL|].
  exact (proj1 (declared_length_is_trusted 3 NULL None None w _ kernel [] Hq Ha Hpid Hd) HL).
Defined.

(** C4, evaluated on a spoofed frame.  [ecryptfs_recv_netlink] returns
    [-ENOMSG] through [goto out]: its last libc call is the destructive
    [recvfrom], there is no [free], and the frame buffer (address 1) is
    still a live block that no pointer of the caller designates. *)
Theorem spoofed_frame_leaks_buffer :
  exists w' b,
    ecryptfs_recv_netlink 3 NULL None None (quiet [Datagram example_helo intruder 12])
    = Done (- ENOMSG, NULL, None, None) w'
    /\ heap w' !! 1 = Some b
    /\ length b = 16%nat
    /\ trace w' = [CRealloc NULL 16 1; CRecvfrom 1 16 16 MSG_PEEK 16;
                   CRealloc 1 16 1; CRecvfrom 1 16 16 0 16].
Proof.
  do 2 eexists. split; [vm_compute; reflexivity|].
  split; [vm_compute; reflexivity|]. split; reflexivity.
Qed.

(** C3, evaluated on a request followed by a handshake without payload.
    After the first pass the daemon's [emsg] is the address of the freed
    request (address 2).  The receive of the handshake succeeds and hands
    back that same address, not [NULL]; the daemon then frees it a second
    time, which is undefined. *)
Theorem stale_message_after_empty_frame :
  let w := quiet [Datagram example_request kernel 12; Datagram example_helo kernel 12] in
  exists l1 w1,
    example_loop 1 3 start w = Done (GotoReceive l1) w1
    /\ emsg l1 = 2
    /\ heap w1 !! 2 = None
    /\ result (ecryptfs_recv_netlink 3 (emsg l1) (msg_seq l1) (msg_type l1) w1)
       = Some (16, 2, Some 78, Some 100)
    /\ example_loop 2 3 start w = Undefined.
Proof.
  intros w. do 2 eexists. split; [vm_compute; reflexivity|].
  split; [reflexivity|]. split; [vm_compute; reflexivity|].
  split; vm_compute; reflexivity.
Qed.

(** ** The channel *)

(** C5, evaluated where [socket] fails.  With [socket] returning [-1] the
    test [!( *sk_fd)] is false: the function goes on to [bind] the
    descriptor [-1] and returns the error of [bind], [-EBADF], not the one
    of [socket], [-EMFILE].  With [socket] returning the descriptor 0 the
    same test takes the failure branch: the socket is never bound and the
    function returns [-errno], here 0. *)
Theorem socket_failure_goes_unnoticed :
  result (example_init no_descriptors) = Some (- EBADF, -1)
  /\ option_map trace (final_world (example_init no_descriptors))
     = Some [CSocket PF_NETLINK SOCK_RAW 19 (-1);
             CBind (-1) {| nl_family := AF_NETLINK; nl_pid := 4242; nl_groups := 0 |} (-1)]
  /\ result (example_init descriptor_zero) = Some (0, 0)
  /\ option_map trace (final_world (example_init descriptor_zero))
     = Some [CSocket PF_NETLINK SOCK_RAW 19 0].
Proof. repeat split; vm_compute; reflexivity. Qed.

(** ** The dispatch loop *)

Section Claims.
Context `{Hdr : EcryptfsHeader} `{KM : KeyModules}.

(** C1, as the code has it.  A frame whose sender is not the kernel makes
    [ecryptfs_recv_netlink] return [-ENOMSG], whatever the caller holds in
    [emsg], and the dispatch loop treats that like any other failed
    receive: [error_count] goes up by one.  When the count then exceeds
    the threshold the loop leaves with [-EIO].  Otherwise the loop calls
    [free(emsg)] and goes back to [receive]; that is defined when [emsg] is
    null or designates a live block, and it is undefined when [emsg] is a
    pointer that is no longer live, as every earlier pass that freed a
    message leaves it. *)
Theorem spoofed_sender_counts_as_failure sk l w d src q :
  inbox w = Datagram d src sizeof_sockaddr_nl :: q -> nl_pid src <> 0 ->
  alloc_script w = [] -> (4 <= length d)%nat ->
  0 < le_value (take 4 d) <= INT_MAX ->
  0 <= error_count l < INT_MAX ->
  let l' := set_error_count (error_count l + 1) l in
  (exists w1,
     ecryptfs_recv_netlink sk (emsg l) (msg_seq l) (msg_type l) w
     = Done (- ENOMSG, emsg l, msg_seq l, msg_type l) w1)
  /\ (ECRYPTFS_NETLINK_ERROR_COUNT_THRESHOLD < error_count l + 1 ->
      exists w', daemon_pass sk l w = Done (GotoOut (- EIO) l') w')
  /\ (error_count l + 1 <= ECRYPTFS_NETLINK_ERROR_COUNT_THRESHOLD ->
      emsg l = NULL \/ emsg l = Z.pos (brk w) \/ is_Some (heap w !! emsg l) ->
      exists w', daemon_pass sk l w = Done (GotoReceive l') w')
  /\ (error_count l + 1 <= ECRYPTFS_NETLINK_ERROR_COUNT_THRESHOLD ->
      emsg l <> NULL -> emsg l <> Z.pos (brk w) -> heap w !! emsg l = None ->
      daemon_pass sk l w = Undefined).
Proof.
  intros Hq Hpid Ha Hd HL Hn l'.
  destruct (recv_spoofed sk (emsg l) (msg_seq l) (msg_type l) w d src q
              Hq Ha Hpid Hd HL) as (w1 & Hrecv & _ & _ & Hleak & Hheap).
  split; [exists w1; exact Hrecv|].
  assert (Hpass : daemon_pass sk l w =
            (if ECRYPTFS_NETLINK_ERROR_COUNT_THRESHOLD <? error_count l + 1
             then ret (GotoOut (- EIO) l')
             else let* _ := free (emsg l) in ret (GotoReceive l')) w1).
  { unfold daemon_pass. erewrite run_bind by exact Hrecv. cbv beta iota zeta.
    change (- ENOMSG <? 0) with true. cbv iota.
    cbn [error_count emsg ctx msg_seq msg_type].
    unfold signed. rewrite decide_True by (unfold INT_MAX in *; lia).
    unfold ret at 1. unfold bindM at 1. reflexivity. }
  rewrite Hpass. split; [|split].
  - intros HT. rewrite (proj2 (Z.ltb_lt _ _) HT). eexists. reflexivity.
  - intros HT Hlive. rewrite (proj2 (Z.ltb_ge _ _) HT).
    destruct (decide (emsg l = NULL)) as [E|Hnn].
    { rewrite E. erewrite run_bind by apply free_null. eexists. reflexivity. }
    assert (Hsome : is_Some (heap w1 !! emsg l)).
    { destruct Hlive as [E|[E|Hs]]; [contradiction | rewrite E; exact Hleak |].
      destruct (decide (emsg l = Z.pos (brk w))) as [E|Hne];
        [rewrite E; exact Hleak | rewrite Hheap by exact Hne; exact Hs]. }
    destruct Hsome as [b Hb].
    erewrite run_bind by (eapply free_ok; [exact Hb | exact Hnn]).
    eexists. reflexivity.
  - intros HT Hnn Hne Hdead. rewrite (proj2 (Z.ltb_ge _ _) HT).
    unfold bindM, free. rewrite (proj2 (Z.eqb_neq _ _) Hnn).
    rewrite Hheap by exact Hne. rewrite Hdead. reflexivity.
Qed.

(** C2, as the code has it.  From a zero [error_count], with no message
    held ([emsg] null) and no allocation failing, one transport failure
    more than the threshold makes the loop leave with [-EIO], and exactly
    as many failures as the threshold leave it at [receive] with the count
    at the threshold.  From a zero count in any state, no run of at most
    that many passes, whatever it receives, leaves with [-EIO].  And where
    the zero count has been left by an answered request, so that [emsg] is
    a pointer that is no longer live, the first transport failure within
    the threshold frees that pointer a second time: the run is undefined.
    With the threshold at zero the first transport failure leaves with
    [-EIO] before anything is freed, whatever [emsg] holds. *)
Theorem error_threshold_must_be_exceeded sk l w :
  0 <= ECRYPTFS_NETLINK_ERROR_COUNT_THRESHOLD < INT_MAX ->
  error_count l = 0 ->
  (forall errs q,
     emsg l = NULL -> alloc_script w = [] -> inbox w = (RecvErr <$> errs) ++ q ->
     (Z.of_nat (length errs) = ECRYPTFS_NETLINK_ERROR_COUNT_THRESHOLD + 1 ->
      exists l' w', daemon_loop (length errs) sk l w = Done (GotoOut (- EIO) l') w')
     /\ (Z.of_nat (length errs) = ECRYPTFS_NETLINK_ERROR_COUNT_THRESHOLD ->
         exists l' w',
           daemon_loop (length errs) sk l w = Done (GotoReceive l') w'
           /\ error_count l' = ECRYPTFS_NETLINK_ERROR_COUNT_THRESHOLD
           /\ inbox w' = q))
  /\ (forall n j w',
        Z.of_nat n <= ECRYPTFS_NETLINK_ERROR_COUNT_THRESHOLD ->
        daemon_loop n sk l w = Done j w' ->
        forall l', j <> GotoOut (- EIO) l')
  /\ (forall e q n,
        1 <= ECRYPTFS_NETLINK_ERROR_COUNT_THRESHOLD ->
        emsg l <> NULL -> emsg l <> Z.pos (brk w) -> heap w !! emsg l = None ->
        alloc_script w = [] -> inbox w = RecvErr e :: q ->
        daemon_loop (S n) sk l w = Undefined)
  /\ (forall e q,
        ECRYPTFS_NETLINK_ERROR_COUNT_THRESHOLD = 0 ->
        alloc_script w = [] -> inbox w = RecvErr e :: q ->
        exists l' w', daemon_loop 1 sk l w = Done (GotoOut (- EIO) l') w').
Proof.
  intros HT H0. split; [|split; [|split]].
  - intros errs q He Ha Hq. split.
    + intros Hlen.
      destruct errs as [|e0 errs0] using rev_ind; [cbn in Hlen; lia|].
      clear IHerrs0. rewrite length_app in Hlen |- *. cbn [length] in Hlen |- *.
      rewrite fmap_app, <- app_assoc in Hq. cbn [fmap list_fmap app] in Hq.
      destruct (failures_continue sk errs0 l w _ Hq Ha He) as (w0 & Hloop & Hq0 & Ha0);
        try lia.
      rewrite (daemon_loop_app _ 1 _ _ _ _ _ Hloop).
      destruct (pass_transport_failure sk
                  (set_error_count (error_count l + Z.of_nat (length errs0)) l)
                  w0 e0 q Hq0 Ha0 He) as (w' & Hpass & _);
        [cbn [set_error_count error_count]; lia|].
      cbn [set_error_count error_count] in Hpass.
      rewrite (proj2 (Z.ltb_lt _ _)) in Hpass by lia.
      cbn [daemon_loop]. erewrite run_bind by exact Hpass.
      do 2 eexists. reflexivity.
    + intros Hlen.
      destruct (failures_continue sk errs l w q Hq Ha He) as (w' & Hloop & Hq' & _);
        try lia.
      do 2 eexists. split; [exact Hloop|]. split; [|exact Hq'].
      cbn [set_error_count error_count]. lia.
  - intros n j w' Hn Hloop l' ->.
    assert (Hc0 : 0 <= error_count l) by lia.
    assert (Hc1 : error_count l + Z.of_nat n <= ECRYPTFS_NETLINK_ERROR_COUNT_THRESHOLD)
      by lia.
    pose proof (no_fatal_exit_early sk n l w _ w' Hc0 Hc1 Hloop) as Hc.
    cbn in Hc. apply Hc. reflexivity.
  - intros e q n H1 Hnn Hne Hdead Ha Hq.
    destruct (recv_transport_failure sk (emsg l) (msg_seq l) (msg_type l) w e q Hq Ha)
      as (w1 & Hrecv & _ & _ & _ & _ & Hheap).
    cbn [daemon_loop]. unfold daemon_pass.
    unfold bindM at 1. erewrite run_bind by exact Hrecv. cbv beta iota zeta.
    pose proof (errno_val_range e) as Hpos.
    rewrite (proj2 (Z.ltb_lt _ _)) by lia.
    cbn [error_count emsg ctx msg_seq msg_type].
    unfold signed. rewrite decide_True by (unfold INT_MAX in *; lia).
    unfold ret at 1. unfold bindM at 1.
    rewrite H0. rewrite (proj2 (Z.ltb_ge _ _)) by lia.
    unfold bindM, free. rewrite (proj2 (Z.eqb_neq _ _) Hnn).
    rewrite Hheap by exact Hne. rewrite Hdead. reflexivity.
  - intros e q HT0 Ha Hq.
    destruct (recv_transport_failure sk (emsg l) (msg_seq l) (msg_type l) w e q Hq Ha)
      as (w1 & Hrecv & _).
    cbn [daemon_loop]. unfold daemon_pass.
    unfold bindM at 1. erewrite run_bind by exact Hrecv. cbv beta iota zeta.
    pose proof (errno_val_range e) as Hpos.
    rewrite (proj2 (Z.ltb_lt _ _)) by lia.
    cbn [error_count emsg ctx msg_seq msg_type].
    unfold signed. rewrite decide_True by (unfold INT_MAX in *; lia).
    unfold ret at 1. unfold bindM at 1.
    rewrite H0. rewrite (proj2 (Z.ltb_lt _ _)) by lia.
    do 2 eexists. reflexivity.
Qed.

(** C6.  For a well-formed request from the kernel that the handler
    answers (return code 0) with a reply message [rb], the pass calls the
    handler, keeps the context it hands back, and transmits exactly one
    frame: a response of [24 + dl] bytes, [dl] being the data length of the
    reply, whose payload is the reply of the handler from its fifth byte on
    (data length and data) behind the index of the request.  The index
    that the handler left in its reply does not reach the frame: the
    statement holds for every [rb], and nothing in the frame is taken from
    the first four bytes of [rb]. *)
Theorem reply_index_is_request_index sk l w d src q rb c' dl :
  inbox w = Datagram d src sizeof_sockaddr_nl :: q -> nl_pid src = 0 ->
  alloc_script w = [] -> send_script w = [] ->
  Z.of_nat (length d) = le_value (take 4 d) ->
  16 + sizeof_emsg <= Z.of_nat (length d) <= INT_MAX ->
  le_value (take 2 (drop 4 d)) = ECRYPTFS_NLMSG_REQUEST ->
  ECRYPTFS_NLMSG_REQUEST <> ECRYPTFS_NLMSG_HELO ->
  ECRYPTFS_NLMSG_REQUEST <> ECRYPTFS_NLMSG_QUIT ->
  parse_packet (ctx l) (Some (Some <$> drop 16 d)) = (0, Some rb, c') ->
  field off_data_len 4 rb = Some dl ->
  sizeof_emsg + dl <= Z.of_nat (length rb) -> dl + 27 <= INT_MAX ->
  exists f l' w',
    daemon_pass sk l w = Done (GotoReceive l') w'
    /\ ctx l' = c'
    /\ outbox w' = outbox w ++ [f]
    /\ Z.of_nat (length f) = 24 + dl
    /\ field off_nlmsg_type 2 f = Some (to_u16 ECRYPTFS_NLMSG_RESPONSE)
    /\ field (16 + off_index) 4 f = field (16 + off_index) 4 (Some <$> d)
    /\ field (16 + off_index) 4 f = Some (le_value (take 4 (drop 16 d)))
    /\ range (16 + 4) (Z.to_nat (4 + dl)) f = range 4 (Z.to_nat (4 + dl)) rb.
Proof.
  intros Hq Hpid Ha Hs Hlen HL Hty Hne1 Hne2 Hpp Hdl Hrb Hmax.
  destruct (request_pass_reply sk l w d src q rb c' dl Hq Hpid Ha Hs Hlen HL Hty
              Hne1 Hne2 Hpp Hdl Hrb Hmax)
    as (f & l' & w' & Hpass & Hout & _ & _ & Hctx & Hty' & _ & Hidx & Lf & Hrest).
  exists f, l', w'. split; [exact Hpass|]. split; [exact Hctx|].
  split; [exact Hout|]. split; [exact Lf|]. split; [exact Hty'|].
  split; [|split; [exact Hidx | exact Hrest]].
  rewrite Hidx. unfold off_index, sizeof_emsg in *.
  rewrite field_bytes by lia. reflexivity.
Qed.

(** C7.  For a well-formed request from the kernel that the handler
    answers, the frame that is transmitted is a response that carries the
    sequence number of the request frame. *)
Theorem response_sequence_is_request_sequence sk l w d src q rb c' dl :
  inbox w = Datagram d src sizeof_sockaddr_nl :: q -> nl_pid src = 0 ->
  alloc_script w = [] -> send_script w = [] ->
  Z.of_nat (length d) = le_value (take 4 d) ->
  16 + sizeof_emsg <= Z.of_nat (length d) <= INT_MAX ->
  le_value (take 2 (drop 4 d)) = ECRYPTFS_NLMSG_REQUEST ->
  ECRYPTFS_NLMSG_REQUEST <> ECRYPTFS_NLMSG_HELO ->
  ECRYPTFS_NLMSG_REQUEST <> ECRYPTFS_NLMSG_QUIT ->
  parse_packet (ctx l) (Some (Some <$> drop 16 d)) = (0, Some rb, c') ->
  field off_data_len 4 rb = Some dl ->
  sizeof_emsg + dl <= Z.of_nat (length rb) -> dl + 27 <= INT_MAX ->
  exists f l' w',
    daemon_pass sk l w = Done (GotoReceive l') w'
    /\ outbox w' = outbox w ++ [f]
    /\ field off_nlmsg_type 2 f = Some (to_u16 ECRYPTFS_NLMSG_RESPONSE)
    /\ field off_nlmsg_seq 4 f = field off_nlmsg_seq 4 (Some <$> d).
Proof.
  intros Hq Hpid Ha Hs Hlen HL Hty Hne1 Hne2 Hpp Hdl Hrb Hmax.
  destruct (request_pass sk l w d src q rb c' dl Hq Hpid Ha Hs Hlen HL Hty Hne1 Hne2
              Hpp Hdl Hrb Hmax) as (f & l' & w' & Hpass & Hout & _ & _ & Hty' & Hseq & _).
  exists f, l', w'. split; [exact Hpass|]. split; [exact Hout|].
  split; [exact Hty'|].
  rewrite Hseq. unfold off_nlmsg_seq, sizeof_emsg in *.
  rewrite field_bytes by lia. reflexivity.
Qed.

End Claims.

(** ** The dispatch loop at concrete inputs *)

(** C1 as stated fails: one pass over a frame from sender 4711 takes
    [error_count] from 0 to 1. *)
Lemma spoofed_sender_is_counted_example :
  let w := quiet [Datagram example_helo intruder 12] in
  nl_pid intruder <> 0
  /\ result (ecryptfs_recv_netlink 3 NULL None None w) = Some (- ENOMSG, NULL, None, None)
  /\ error_count start = 0
  /\ result (example_pass 3 start w) = Some (GotoReceive (set_error_count 1 start)).
Proof.
  intros w. split; [discriminate|]. split; [vm_compute; reflexivity|].
  split; [reflexivity|]. vm_compute. reflexivity.
Qed.

Lemma spoofed_sender_counts_as_failure_witness :
  let w := quiet [Datagram example_helo intruder 12] in
  let w2 := after_request [Datagram example_helo intruder 12] in
  inbox w = Datagram example_helo intruder sizeof_sockaddr_nl :: []
  /\ inbox w2 = Datagram example_helo intruder sizeof_sockaddr_nl :: []
  /\ nl_pid intruder <> 0
  /\ alloc_script w = [] /\ alloc_script w2 = []
  /\ (4 <= length example_helo)%nat
  /\ 0 < le_value (take 4 example_helo) <= INT_MAX
  /\ 0 <= error_count start < INT_MAX
  /\ 0 <= error_count stale < INT_MAX
  /\ error_count start + 1 <= @ECRYPTFS_NETLINK_ERROR_COUNT_THRESHOLD example_header
  /\ error_count stale + 1 <= @ECRYPTFS_NETLINK_ERROR_COUNT_THRESHOLD example_header
  /\ emsg start = NULL
  /\ emsg stale <> NULL /\ emsg stale <> Z.pos (brk w2) /\ heap w2 !! emsg stale = None
  /\ (exists w1,
        ecryptfs_recv_netlink 3 NULL None None w = Done (- ENOMSG, NULL, None, None) w1)
  /\ (exists w',
        example_pass 3 start w = Done (GotoReceive (set_error_count 1 start)) w')
  /\ (exists w1,
        ecryptfs_recv_netlink 3 2 (Some 77) (Some 102) w2
        = Done (- ENOMSG, 2, Some 77, Some 102) w1)
  /\ example_pass 3 stale w2 = Undefined.
Proof.
  intros w w2.
  assert (H1 : inbox w = Datagram example_helo intruder sizeof_sockaddr_nl :: [])
    by reflexivity.
  assert (H1' : inbox w2 = Datagram example_helo intruder sizeof_sockaddr_nl :: [])
    by reflexivity.
  assert (H2 : nl_pid intruder <> 0) by discriminate.
  assert (H3 : alloc_script w = []) by reflexivity.
  assert (H3' : alloc_script w2 = []) by reflexivity.
  assert (H4 : (4 <= length example_helo)%nat) by (vm_compute; lia).
  assert (H5 : 0 < le_value (take 4 example_helo) <= INT_MAX)
    by (vm_compute; split; [reflexivity | discriminate]).
  assert (H6 : 0 <= error_count start < INT_MAX)
    by (vm_compute; split; [discriminate | reflexivity]).
  assert (H6' : 0 <= error_count stale < INT_MAX)
    by (vm_compute; split; [discriminate | reflexivity]).
  assert (H7 : error_count start + 1
               <= @ECRYPTFS_NETLINK_ERROR_COUNT_THRESHOLD example_header)
    by (vm_compute; discriminate).
  assert (H7' : error_count stale + 1
                <= @ECRYPTFS_NETLINK_ERROR_COUNT_THRESHOLD example_header)
    by (vm_compute; discriminate).
  assert (H8 : emsg start = NULL) by reflexivity.
  assert (H9 : emsg stale <> NULL) by discriminate.
  assert (H10 : emsg stale <> Z.pos (brk w2)) by discriminate.
  assert (H11 : heap w2 !! emsg stale = None) by reflexivity.
  repeat (split; [assumption|]).
  destruct (@spoofed_sender_counts_as_failure example_header example_key_modules
              3 start w example_helo intruder [] H1 H2 H3 H4 H5 H6)
    as (Hrecv & _ & Hlive & _).
  destruct (@spoofed_sender_counts_as_failure example_header example_key_modules
              3 stale w2 example_helo intruder [] H1' H2 H3' H4 H5 H6')
    as (Hrecv' & _ & _ & Hdead).
  split; [exact Hrecv|].
  split; [exact (Hlive H7 (or_introl H8))|].
  split; [exact Hrecv'|].
  exact (Hdead H7' H9 H10 H11).
Defined.

(** C2 as stated fails: with the threshold at 8, eight transport failures
    in a row leave the loop at [receive] with the count at 8; with nothing
    more on the socket the daemon then waits in [recvfrom], it has not
    returned. *)
Lemma threshold_failures_do_not_terminate :
  let w := quiet (replicate 8 (RecvErr E_IO)) in
  @ECRYPTFS_NETLINK_ERROR_COUNT_THRESHOLD example_header = 8
  /\ result (example_loop 8 3 start w) = Some (GotoReceive (set_error_count 8 start))
  /\ result (example_daemon 100 3 w) = None
  /\ option_map inbox (final_world (example_daemon 100 3 w)) = Some [].
Proof.
  intros w. split; [reflexivity|]. repeat split; vm_compute; reflexivity.
Qed.

Lemma error_threshold_must_be_exceeded_witness :
  let w := quiet (replicate 9 (RecvErr E_IO)) in
  let w2 := after_request [RecvErr E_IO] in
  0 <= @ECRYPTFS_NETLINK_ERROR_COUNT_THRESHOLD example_header < INT_MAX
  /\ error_count start = 0 /\ error_count stale = 0
  /\ (exists l' w', example_loop 9 3 start w = Done (GotoOut (- EIO) l') w')
  /\ (forall n j w',
        Z.of_nat n <= 8 -> example_loop n 3 start w = Done j w' ->
        forall l', j <> GotoOut (- EIO) l')
  /\ example_loop 1 3 stale w2 = Undefined.
Proof.
  intros w w2.
  assert (H1 : 0 <= @ECRYPTFS_NETLINK_ERROR_COUNT_THRESHOLD example_header < INT_MAX)
    by (vm_compute; split; [discriminate | reflexivity]).
  assert (H2 : error_count start = 0) by reflexivity.
  assert (H2' : error_count stale = 0) by reflexivity.
  assert (H3 : 1 <= @ECRYPTFS_NETLINK_ERROR_COUNT_THRESHOLD example_header)
    by (vm_compute; discriminate).
  assert (H4 : emsg stale <> NULL) by discriminate.
  assert (H5 : emsg stale <> Z.pos (brk w2)) by discriminate.
  assert (H6 : heap w2 !! emsg stale = None) by reflexivity.
  split; [exact H1|]. split; [exact H2|]. split; [exact H2'|].
  destruct (@error_threshold_must_be_exceeded example_header example_key_modules
              3 start w H1 H2) as (Hruns & Hnever & _ & _).
  destruct (@error_threshold_must_be_exceeded example_header example_key_modules
              3 stale w2 H1 H2') as (_ & _ & Hdead & _).
  split; [|split; [exact Hnever|]].
  - exact (proj1 (Hruns (replicate 9 E_IO) [] eq_refl eq_refl eq_refl) eq_refl).
  - exact (Hdead E_IO [] 0%nat H3 H4 H5 H6 eq_refl eq_refl).
Defined.

(** An answered request leaves the daemon in [stale], in a world like
    [after_request]: the message it received is freed at [free_emsg] and
    its address stays in [emsg]. *)
Lemma answered_request_leaves_freed_emsg :
  exists w',
    example_pass 3 start (quiet [Datagram example_request kernel 12])
    = Done (GotoReceive stale) w'
    /\ brk w' = brk (after_request [])
    /\ heap w' !! emsg stale = None
    /\ alloc_script w' = [].
Proof.
  eexists. split; [vm_compute; reflexivity|].
  split; [vm_compute; reflexivity|]. split; vm_compute; reflexivity.
Qed.

(** From the initial state: a request that is answered, then a failed
    receive of either kind, and the second pass frees the request a second
    time. *)
Lemma freed_message_is_freed_again :
  example_loop 2 3 start
    (quiet [Datagram example_request kernel 12; Datagram example_helo intruder 12])
  = Undefined
  /\ example_loop 2 3 start (quiet [Datagram example_request kernel 12; RecvErr E_IO])
     = Undefined.
Proof. split; vm_compute; reflexivity. Qed.

Lemma reply_index_is_request_index_witness :
  let w := quiet [Datagram example_request kernel 12] in
  let rb := Some <$> message 3735928559 (byte_of <$> [75; 69; 89]) in
  inbox w = Datagram example_request kernel sizeof_sockaddr_nl :: []
  /\ nl_pid kernel = 0 /\ alloc_script w = [] /\ send_script w = []
  /\ Z.of_nat (length example_request) = le_value (take 4 example_request)
  /\ 16 + sizeof_emsg <= Z.of_nat (length example_request) <= INT_MAX
  /\ le_value (take 2 (drop 4 example_request)) = @ECRYPTFS_NLMSG_REQUEST example_header
  /\ @ECRYPTFS_NLMSG_REQUEST example_header <> @ECRYPTFS_NLMSG_HELO example_header
  /\ @ECRYPTFS_NLMSG_REQUEST example_header <> @ECRYPTFS_NLMSG_QUIT example_header
  /\ @parse_packet example_key_modules (ctx start) (Some (Some <$> drop 16 example_request))
     = (0, Some rb, tt)
  /\ field off_data_len 4 rb = Some 3
  /\ sizeof_emsg + 3 <= Z.of_nat (length rb) /\ 3 + 27 <= INT_MAX
  /\ field off_index 4 rb = Some 3735928559
  /\ field (16 + off_index) 4 (Some <$> example_request) = Some 7
  /\ exists f l' w',
       example_pass 3 start w = Done (GotoReceive l') w'
       /\ ctx l' = tt
       /\ outbox w' = outbox w ++ [f]
       /\ Z.of_nat (length f) = 24 + 3
       /\ field off_nlmsg_type 2 f
          = Some (to_u16 (@ECRYPTFS_NLMSG_RESPONSE example_header))
       /\ field (16 + off_index) 4 f = field (16 + off_index) 4 (Some <$> example_request)
       /\ field (16 + off_index) 4 f = Some (le_value (take 4 (drop 16 example_request)))
       /\ range (16 + 4) (Z.to_nat (4 + 3)) f = range 4 (Z.to_nat (4 + 3)) rb.
Proof.
  intros w rb.
  assert (H1 : inbox w = Datagram example_request kernel sizeof_sockaddr_nl :: [])
    by reflexivity.
  assert (H2 : nl_pid kernel = 0) by reflexivity.
  assert (H3 : alloc_script w = []) by reflexivity.
  assert (H4 : send_script w = []) by reflexivity.
  assert (H5 : Z.of_nat (length example_request) = le_value (take 4 example_request))
    by (vm_compute; reflexivity).
  assert (H6 : 16 + sizeof_emsg <= Z.of_nat (length example_request) <= INT_MAX)
    by (vm_compute; split; discriminate).
  assert (H7 : le_value (take 2 (drop 4 example_request))
               = @ECRYPTFS_NLMSG_REQUEST example_header) by (vm_compute; reflexivity).
  assert (H8 : @ECRYPTFS_NLMSG_REQUEST example_header <> @ECRYPTFS_NLMSG_HELO example_header)
    by discriminate.
  assert (H9 : @ECRYPTFS_NLMSG_REQUEST example_header <> @ECRYPTFS_NLMSG_QUIT example_header)
    by discriminate.
  assert (H10 : @parse_packet example_key_modules (ctx start)
                  (Some (Some <$> drop 16 example_request)) = (0, Some rb, tt))
    by reflexivity.
  assert (H11 : field off_data_len 4 rb = Some 3) by (vm_compute; reflexivity).
  assert (H12 : sizeof_emsg + 3 <= Z.of_nat (length rb)) by (vm_compute; discriminate).
  assert (H13 : 3 + 27 <= INT_MAX) by (vm_compute; discriminate).
  repeat (split; [assumption|]).
  split; [vm_compute; reflexivity|]. split; [vm_compute; reflexivity|].
  exact (@reply_index_is_request_index example_header example_key_modules
           3 start w example_request kernel [] rb tt 3
           H1 H2 H3 H4 H5 H6 H7 H8 H9 H10 H11 H12 H13).
Defined.

Lemma response_sequence_is_request_sequence_witness :
  let w := quiet [Datagram example_request kernel 12] in
  let rb := Some <$> message 3735928559 (byte_of <$> [75; 69; 89]) in
  inbox w = Datagram example_request kernel sizeof_sockaddr_nl :: []
  /\ nl_pid kernel = 0 /\ alloc_script w = [] /\ send_script w = []
  /\ Z.of_nat (length example_request) = le_value (take 4 example_request)
  /\ 16 + sizeof_emsg <= Z.of_nat (length example_request) <= INT_MAX
  /\ le_value (take 2 (drop 4 example_request)) = @ECRYPTFS_NLMSG_REQUEST example_header
  /\ @ECRYPTFS_NLMSG_REQUEST example_header <> @ECRYPTFS_NLMSG_HELO example_header
  /\ @ECRYPTFS_NLMSG_REQUEST example_header <> @ECRYPTFS_NLMSG_QUIT example_header
  /\ @parse_packet example_key_modules (ctx start) (Some (Some <$> drop 16 example_request))
     = (0, Some rb, tt)
  /\ field off_data_len 4 rb = Some 3
  /\ sizeof_emsg + 3 <= Z.of_nat (length rb) /\ 3 + 27 <= INT_MAX
  /\ field off_nlmsg_seq 4 (Some <$> example_request) = Some 77
  /\ exists f l' w',
       example_pass 3 start w = Done (GotoReceive l') w'
       /\ outbox w' = outbox w ++ [f]
       /\ field off_nlmsg_type 2 f
          = Some (to_u16 (@ECRYPTFS_NLMSG_RESPONSE example_header))
       /\ field off_nlmsg_seq 4 f = field off_nlmsg_seq 4 (Some <$> example_request).
Proof.
  intros w rb.
  assert (H1 : inbox w = Datagram example_request kernel sizeof_sockaddr_nl :: [])
    by reflexivity.
  assert (H2 : nl_pid kernel = 0) by reflexivity.
  assert (H3 : alloc_script w = []) by reflexivity.
  assert (H4 : send_script w = []) by reflexivity.
  assert (H5 : Z.of_nat (length example_request) = le_value (take 4 example_request))
    by (vm_compute; reflexivity).
  assert (H6 : 16 + sizeof_emsg <= Z.of_nat (length example_request) <= INT_MAX)
    by (vm_compute; split; discriminate).
  assert (H7 : le_value (take 2 (drop 4 example_request))
               = @ECRYPTFS_NLMSG_REQUEST example_header) by (vm_compute; reflexivity).
  assert (H8 : @ECRYPTFS_NLMSG_REQUEST example_header <> @ECRYPTFS_NLMSG_HELO example_header)
    by discriminate.
  assert (H9 : @ECRYPTFS_NLMSG_REQUEST example_header <> @ECRYPTFS_NLMSG_QUIT example_header)
    by discriminate.
  assert (H10 : @parse_packet example_key_modules (ctx start)
                  (Some (Some <$> drop 16 example_request)) = (0, Some rb, tt))
    by reflexivity.
  assert (H11 : field off_data_len 4 rb = Some 3) by (vm_compute; reflexivity).
  assert (H12 : sizeof_emsg + 3 <= Z.of_nat (length rb)) by (vm_compute; discriminate).
  assert (H13 : 3 + 27 <= INT_MAX) by (vm_compute; discriminate).
  repeat (split; [assumption|]).
  split; [vm_compute; reflexivity|].
  exact (@response_sequence_is_request_sequence example_header example_key_modules
           3 start w example_request kernel [] rb tt 3
           H1 H2 H3 H4 H5 H6 H7 H8 H9 H10 H11 H12 H13).
Defined.

(** * Further facts and properties *)

(** ** More of the allocator and the socket *)

Lemma allocate_fail size entry w s :
  alloc_script w = true :: s ->
  allocate size entry w =
    Done NULL (log_call (entry NULL)
                 (with_errno ENOMEM
                    (if PTRDIFF_MAX <? size then w else with_alloc_script s w))).
Proof.
  intros Ha. unfold allocate. destruct (PTRDIFF_MAX <? size); [reflexivity|].
  rewrite Ha. reflexivity.
Qed.

(** The cells of a block into which the first [n] bytes of a datagram were
    read over [k] cells that were indeterminate. *)
Lemma received_cells n k (d : list byte) :
  (n <= k)%nat -> (n <= length d)%nat ->
  overwrite 0 (Some <$> take n d) (replicate k None)
  = (Some <$> take n d) ++ replicate (k - n) None.
Proof.
  intros Hk Hd. unfold overwrite. rewrite take_0. cbn [app Nat.add].
  rewrite length_fmap, length_take, drop_replicate. do 2 f_equal. lia.
Qed.

(** The second pass on a frame from the kernel that declares no payload:
    nothing is allocated, [*emsg] stays as it was, and the frame buffer is
    freed. *)
Lemma receive_empty sk p nladdr nladdr_len em s t w b d src q :
  heap w !! p = Some b -> p <> NULL ->
  inbox w = Datagram d src sizeof_sockaddr_nl :: q -> alloc_script w = [] ->
  nl_pid src = 0 -> le_value (take 4 d) = 16 -> (16 <= length d)%nat ->
  let b' := take 16 b ++ replicate (16 - length b) None in
  let frame := overwrite 0 (Some <$> take 16 d) b' in
  receive 1 sk p 16 0 nladdr nladdr_len em s t w =
  Done (16, em, Some (to_int (le_value (take 4 (drop 8 d)))),
        Some (le_value (take 2 (drop 4 d))))
    {| heap := delete p (<[p := frame]> (heap w));
       brk := brk w; errno := errno w; alloc_script := [];
       inbox := q; send_script := send_script w; outbox := outbox w;
       sys_socket := sys_socket w; sys_bind := sys_bind w; sys_getpid := sys_getpid w;
       trace := ((trace w ++ [CRealloc p 16 p]) ++ [CRecvfrom p 16 16 0 16]) ++ [CFree p] |}.
Proof.
  intros Hb Hp Hq Ha Hpid Elen Hd b' frame.
  assert (HL : 0 < 16 <= INT_MAX) by (unfold INT_MAX; lia).
  assert (Hlen' : length b' = 16%nat)
    by (unfold b'; rewrite length_app, length_take, length_replicate; lia).
  assert (Hmin : Z.min 16 (Z.of_nat (length d)) = 16) by lia.
  second_pass 16 Hb Hp Hq Ha HL.
  change (negb (sizeof_sockaddr_nl =? sizeof_sockaddr_nl)) with false. cbv iota.
  unfold rvalue, ret at 1, bindM at 1.
  rewrite Hpid. change (negb (0 =? 0)) with false. cbv iota.
  rewrite Hmin. change (Z.to_nat 16) with 16%nat. fold b' frame.
  erewrite run_bind.
  2:{ eapply load_ok; [heap_lookup|].
      unfold frame. apply field_received with (off := 0%nat); lia. }
  cbv beta zeta. change (drop 0 d) with d. rewrite Elen.
  change (to_int (NLMSG_PAYLOAD 16 0)) with 0.
  change (negb (0 =? 0)) with false. cbv iota.
  erewrite run_bind.
  2:{ eapply load_ok; [heap_lookup|].
      unfold frame. apply field_received with (off := off_nlmsg_seq); unfold off_nlmsg_seq; lia. }
  erewrite run_bind.
  2:{ eapply load_ok; [heap_lookup|].
      unfold frame. apply field_received with (off := off_nlmsg_type); unfold off_nlmsg_type; lia. }
  cbv beta.
  erewrite run_bind by (eapply free_ok; [heap_lookup | exact Hp]).
  reflexivity.
Qed.

(** The second pass on a frame whose sender address does not have the size
    of a [struct sockaddr_nl]. *)
Lemma receive_bad_address sk p len nladdr nladdr_len em s t w b d src slen q :
  heap w !! p = Some b -> p <> NULL ->
  inbox w = Datagram d src slen :: q -> alloc_script w = [] ->
  0 < len <= INT_MAX -> slen <> sizeof_sockaddr_nl ->
  let n := Z.min len (Z.of_nat (length d)) in
  let b' := take (Z.to_nat len) b ++ replicate (Z.to_nat len - length b) None in
  receive 1 sk p len 0 nladdr nladdr_len em s t w =
  Done (- EPROTO, em, s, t)
    {| heap := delete p (<[p := overwrite 0 (Some <$> take (Z.to_nat n) d) b']> (heap w));
       brk := brk w; errno := errno w; alloc_script := [];
       inbox := q; send_script := send_script w; outbox := outbox w;
       sys_socket := sys_socket w; sys_bind := sys_bind w; sys_getpid := sys_getpid w;
       trace := ((trace w ++ [CRealloc p len p])
                 ++ [CRecvfrom p (Z.to_nat len) len 0 n]) ++ [CFree p] |}.
Proof.
  intros Hb Hp Hq Ha HL Hslen n b'.
  second_pass len Hb Hp Hq Ha HL.
  rewrite (proj2 (Z.eqb_neq _ _) Hslen). cbn [negb].
  erewrite run_bind by (eapply free_ok; [heap_lookup | exact Hp]).
  reflexivity.
Qed.

(** ** The receiver, outcome by outcome *)

(** The payload as it is handed to the caller: the bytes that arrived,
    then, where the frame declared more than it carried, cells that were
    never written. *)
Lemma payload_cells len n (d : list byte) b0 :
  length b0 = 16%nat -> (16 <= n <= len)%nat -> (n <= length d)%nat ->
  range 16 (len - 16)
    (overwrite 0 (Some <$> take n d) (take len b0 ++ replicate (len - length b0) None))
  = (Some <$> take (n - 16) (drop 16 d)) ++ replicate (len - n) None.
Proof.
  intros Hb Hn Hd.
  assert (Hcs : length (Some <$> take n d) = n) by (rewrite length_fmap, length_take; lia).
  assert (Hb' : length (take len b0 ++ replicate (len - length b0) None) = len)
    by (rewrite length_app, length_take, length_replicate; lia).
  apply list_eq; intros i. rewrite lookup_range.
  destruct (decide (i < len - 16)%nat) as [Hi|Hi].
  - rewrite lookup_overwrite by lia. rewrite Hcs.
    rewrite decide_False by lia. change (0 + n)%nat with n.
    destruct (decide (16 + i < n)%nat) as [Hin|Hin].
    + rewrite lookup_app_l by (rewrite length_fmap, length_take, length_drop; lia).
      rewrite !list_lookup_fmap. f_equal.
      rewrite lookup_take_lt by lia. rewrite lookup_take_lt by lia.
      rewrite lookup_drop; f_equal; lia.
    + rewrite (lookup_app_r (take len b0)) by (rewrite length_take; lia).
      rewrite lookup_app_r by (rewrite length_fmap, length_take, length_drop; lia).
      rewrite length_fmap, !length_take, length_drop.
      rewrite !lookup_replicate_2 by lia. reflexivity.
  - symmetry. apply lookup_ge_None_2.
    rewrite length_app, length_fmap, length_take, length_drop, length_replicate. lia.
Qed.

(** A frame from the kernel that declares a payload. *)
Lemma recv_payload_run sk em s t w d src q :
  inbox w = Datagram d src sizeof_sockaddr_nl :: q -> alloc_script w = [] ->
  nl_pid src = 0 -> (16 <= length d)%nat ->
  16 < le_value (take 4 d) <= INT_MAX ->
  let len := le_value (take 4 d) in
  let n := Z.min len (Z.of_nat (length d)) in
  let p := Z.pos (brk w) in
  let m := Z.pos (brk w + 1) in
  exists w',
    ecryptfs_recv_netlink sk em s t w
    = Done (n, m, Some (to_int (le_value (take 4 (drop 8 d)))),
            Some (le_value (take 2 (drop 4 d)))) w'
    /\ heap w' !! m = Some ((Some <$> take (Z.to_nat (n - 16)) (drop 16 d))
                            ++ replicate (Z.to_nat (len - n)) None)
    /\ heap w' !! p = None
    /\ (forall a, a <> p -> a <> m -> heap w' !! a = heap w !! a)
    /\ inbox w' = q /\ outbox w' = outbox w
    /\ alloc_script w' = [] /\ send_script w' = send_script w
    /\ brk w' = (brk w + 1 + 1)%positive
    /\ trace w' = trace w ++
         [CRealloc NULL 16 p; CRecvfrom p 16 16 MSG_PEEK 16;
          CRealloc p len p; CRecvfrom p (Z.to_nat len) len 0 n;
          CMalloc (len - 16) m; CFree p].
Proof.
  intros Hq Ha Hpid Hd HL len n p m.
  assert (Elen : le_value (take 4 d) = len) by reflexivity. clearbody len.
  rewrite (receive_peek sk em s t w d src _ q Hq Ha) by lia.
  rewrite Elen. rewrite to_int_small by (unfold INT_MAX in HL; lia).
  replace (Z.min 16 (Z.of_nat (length d))) with 16 by lia.
  rewrite <- Elen.
  erewrite receive_payload;
    [ | heap_lookup | discriminate | world_simpl; lia | world_simpl; exact Hq
      | reflexivity | exact Hpid | exact HL | exact Hd ].
  rewrite Elen. fold n p m.
  eexists. split; [reflexivity|]. world_simpl.
  split.
  { rewrite lookup_delete_ne by (unfold p, m; lia). rewrite lookup_insert_eq. f_equal.
    replace (Z.to_nat (len - 16)) with (Z.to_nat len - 16)%nat by lia.
    replace (Z.to_nat (n - 16)) with (Z.to_nat n - 16)%nat by lia.
    replace (Z.to_nat (len - n)) with (Z.to_nat len - Z.to_nat n)%nat by lia.
    apply payload_cells; [len | unfold n; lia | unfold n; lia]. }
  split; [apply lookup_delete_eq|].
  split.
  { intros a Hp Hm. rewrite lookup_delete_ne by distinct.
    rewrite !lookup_insert_ne by distinct. reflexivity. }
  repeat (split; [reflexivity|]).
  rewrite <- !app_assoc. reflexivity.
Qed.

(** A frame from the kernel that is a header and nothing else. *)
Lemma recv_empty_run sk em s t w d src q :
  inbox w = Datagram d src sizeof_sockaddr_nl :: q -> alloc_script w = [] ->
  nl_pid src = 0 -> (16 <= length d)%nat -> le_value (take 4 d) = 16 ->
  let p := Z.pos (brk w) in
  exists w',
    ecryptfs_recv_netlink sk em s t w
    = Done (16, em, Some (to_int (le_value (take 4 (drop 8 d)))),
            Some (le_value (take 2 (drop 4 d)))) w'
    /\ heap w' !! p = None
    /\ (forall a, a <> p -> heap w' !! a = heap w !! a)
    /\ inbox w' = q /\ outbox w' = outbox w
    /\ alloc_script w' = [] /\ send_script w' = send_script w
    /\ brk w' = (brk w + 1)%positive
    /\ trace w' = trace w ++
         [CRealloc NULL 16 p; CRecvfrom p 16 16 MSG_PEEK 16;
          CRealloc p 16 p; CRecvfrom p 16 16 0 16; CFree p].
Proof.
  intros Hq Ha Hpid Hd Elen p.
  rewrite (receive_peek sk em s t w d src _ q Hq Ha) by lia.
  rewrite Elen. change (to_int 16) with 16.
  replace (Z.min 16 (Z.of_nat (length d))) with 16 by lia.
  erewrite receive_empty;
    [ | heap_lookup | discriminate | world_simpl; exact Hq
      | reflexivity | exact Hpid | exact Elen | exact Hd ].
  fold p.
  eexists. split; [reflexivity|]. world_simpl.
  split; [apply lookup_delete_eq|].
  split.
  { intros a Hp. rewrite lookup_delete_ne by distinct.
    rewrite !lookup_insert_ne by distinct. reflexivity. }
  repeat (split; [reflexivity|]).
  rewrite <- !app_assoc. reflexivity.
Qed.

(** X4. A frame whose sender address does not have the size of a
    [struct sockaddr_nl]: both reads are made, so the datagram is off the
    queue and lost; the call returns [-EPROTO], the frame buffer is freed
    and [*emsg], [*msg_seq] and [*msg_type] are as they were passed in. *)
Theorem recv_rejects_address_length sk em s t w d src slen q :
  inbox w = Datagram d src slen :: q -> alloc_script w = [] ->
  slen <> sizeof_sockaddr_nl -> (4 <= length d)%nat ->
  0 < le_value (take 4 d) <= INT_MAX ->
  let len := le_value (take 4 d) in
  let p := Z.pos (brk w) in
  exists w',
    ecryptfs_recv_netlink sk em s t w = Done (- EPROTO, em, s, t) w'
    /\ heap w' !! p = None
    /\ (forall a, a <> p -> heap w' !! a = heap w !! a)
    /\ inbox w' = q /\ outbox w' = outbox w
    /\ alloc_script w' = []
    /\ trace w' = trace w ++
         [CRealloc NULL 16 p; CRecvfrom p 16 16 MSG_PEEK (Z.min 16 (Z.of_nat (length d)));
          CRealloc p len p;
          CRecvfrom p (Z.to_nat len) len 0 (Z.min len (Z.of_nat (length d))); CFree p].
Proof.
  intros Hq Ha Hslen Hd HL len p.
  assert (Elen : le_value (take 4 d) = len) by reflexivity. clearbody len.
  rewrite Elen in HL.
  rewrite (receive_peek sk em s t w d src _ q Hq Ha Hd).
  rewrite Elen. rewrite to_int_small by (unfold INT_MAX in HL; lia).
  erewrite receive_bad_address;
    [ | heap_lookup | discriminate | world_simpl; exact Hq
      | reflexivity | exact HL | exact Hslen ].
  fold p.
  eexists. split; [reflexivity|]. world_simpl.
  split; [apply lookup_delete_eq|].
  split.
  { intros a Hp. rewrite lookup_delete_ne by distinct.
    rewrite !lookup_insert_ne by distinct. reflexivity. }
  repeat (split; [reflexivity|]).
  rewrite <- !app_assoc. reflexivity.
Qed.

Lemma recv_rejects_address_length_witness :
  exists w',
    ecryptfs_recv_netlink 3 NULL None None (quiet [Datagram example_helo kernel 8])
    = Done (- EPROTO, NULL, None, None) w'
    /\ heap w' !! 1 = None /\ inbox w' = [].
Proof.
  destruct (recv_rejects_address_length 3 NULL None None
              (quiet [Datagram example_helo kernel 8]) example_helo kernel 8 []
              eq_refl eq_refl ltac:(discriminate) ltac:(vm_compute; lia)
              ltac:(vm_compute; split; [reflexivity | discriminate]))
    as (w' & H1 & H2 & _ & H4 & _).
  exists w'. split; [exact H1|]. split; [exact H2 | exact H4].
Defined.


(** X3. A transport failure under the first [recvfrom]: the call returns
    the negated [errno] that [recvfrom] left, after that one [recvfrom]
    and without a second pass; [*emsg], [*msg_seq] and [*msg_type] are as
    they were passed in, the frame buffer is freed and no other block is
    touched. *)
Theorem recv_reports_transport_failure sk em s t w e q :
  inbox w = RecvErr e :: q -> alloc_script w = [] ->
  let p := Z.pos (brk w) in
  exists w',
    ecryptfs_recv_netlink sk em s t w = Done (- errno_val e, em, s, t) w'
    /\ heap w' !! p = None
    /\ (forall a, a <> p -> heap w' !! a = heap w !! a)
    /\ inbox w' = q /\ outbox w' = outbox w /\ errno w' = errno_val e
    /\ trace w' = trace w ++
         [CRealloc NULL 16 p; CRecvfrom p 16 16 MSG_PEEK (-1); CFree p].
Proof.
  intros Hq Ha p. eexists. split.
  - unfold ecryptfs_recv_netlink. rewrite receive_S.
    change (to_size_t sizeof_nlmsghdr) with 16.
    erewrite run_bind
      by (rewrite realloc_null; apply allocate_ok; [unfold PTRDIFF_MAX; lia | exact Ha]).
    cbv beta. change (Z.pos (brk w) =? NULL) with false. cbv iota.
    erewrite run_bind by (eapply recvfrom_err; [heap_lookup | world_simpl; exact Hq]).
    cbv beta iota zeta. change (to_int (-1) <? 0) with true. cbv iota.
    unfold get_errno at 1. unfold bindM at 1. world_simpl.
    erewrite run_bind by (eapply free_ok; [heap_lookup | discriminate]).
    rewrite neg_errno_int. unfold ret. reflexivity.
  - world_simpl. fold p.
    split; [apply lookup_delete_eq|].
    split.
    { intros a Hp. rewrite lookup_delete_ne, lookup_insert_ne by distinct. reflexivity. }
    repeat (split; [reflexivity|]).
    rewrite length_replicate, <- !app_assoc. reflexivity.
Qed.

Lemma recv_reports_transport_failure_witness :
  exists w',
    ecryptfs_recv_netlink 3 NULL None None (quiet [RecvErr E_IO; RecvErr E_AGAIN])
    = Done (- EIO, NULL, None, None) w'
    /\ heap w' !! 1 = None /\ inbox w' = [RecvErr E_AGAIN].
Proof.
  destruct (recv_reports_transport_failure 3 NULL None None
              (quiet [RecvErr E_IO; RecvErr E_AGAIN]) E_IO [RecvErr E_AGAIN]
              eq_refl eq_refl)
    as (w' & H1 & H2 & _ & H4 & _).
  exists w'. split; [exact H1|]. split; [exact H2 | exact H4].
Defined.


(** ** The receiver when memory runs out *)

Lemma allocate_pass size entry w s :
  0 <= size <= PTRDIFF_MAX -> alloc_script w = false :: s ->
  allocate size entry w =
    Done (Z.pos (brk w))
      (log_call (entry (Z.pos (brk w)))
         (with_heap (<[Z.pos (brk w) := replicate (Z.to_nat size) None]> (heap w))
            (with_brk (brk w + 1)%positive (with_alloc_script s w)))).
Proof.
  intros Hs Ha. unfold allocate.
  rewrite (proj2 (Z.ltb_ge _ _)) by lia. rewrite Ha. reflexivity.
Qed.

Lemma realloc_pass ptr size w b s :
  heap w !! ptr = Some b -> ptr <> NULL -> 0 < size <= PTRDIFF_MAX ->
  alloc_script w = false :: s ->
  realloc ptr size w =
    Done ptr
      (log_call (CRealloc ptr size ptr)
         (with_heap
            (<[ptr := take (Z.to_nat size) b
                      ++ replicate (Z.to_nat size - length b) None]> (heap w))
            (with_alloc_script s w))).
Proof.
  intros Hb Hp Hs Ha. unfold realloc.
  rewrite (proj2 (Z.eqb_neq _ _)) by exact Hp. rewrite Hb.
  rewrite (proj2 (Z.eqb_neq _ _)) by lia.
  rewrite (proj2 (Z.ltb_ge _ _)) by lia. rewrite Ha. reflexivity.
Qed.

Lemma realloc_fail ptr size w b s :
  heap w !! ptr = Some b -> ptr <> NULL -> 0 < size <= PTRDIFF_MAX ->
  alloc_script w = true :: s ->
  realloc ptr size w =
    Done NULL (log_call (CRealloc ptr size NULL)
                 (with_errno ENOMEM (with_alloc_script s w))).
Proof.
  intros Hb Hp Hs Ha. unfold realloc.
  rewrite (proj2 (Z.eqb_neq _ _)) by exact Hp. rewrite Hb.
  rewrite (proj2 (Z.eqb_neq _ _)) by lia.
  rewrite (proj2 (Z.ltb_ge _ _)) by lia. rewrite Ha. reflexivity.
Qed.

(** X5. The first [realloc] fails: the call returns [-ENOMEM] at once.
    It has made no socket call, the queue and the heap are as they were,
    and [*emsg], [*msg_seq] and [*msg_type] are as they were passed in. *)
Theorem recv_out_of_memory_at_entry sk em s t w sc :
  alloc_script w = true :: sc ->
  exists w',
    ecryptfs_recv_netlink sk em s t w = Done (- ENOMEM, em, s, t) w'
    /\ inbox w' = inbox w /\ heap w' = heap w /\ outbox w' = outbox w
    /\ alloc_script w' = sc
    /\ trace w' = trace w ++ [CRealloc NULL 16 NULL].
Proof.
  intros Ha. eexists. split.
  - unfold ecryptfs_recv_netlink. rewrite receive_S.
    change (to_size_t sizeof_nlmsghdr) with 16.
    erewrite run_bind by (rewrite realloc_null; eapply allocate_fail; exact Ha).
    cbv beta. change (NULL =? NULL) with true. cbv iota.
    change (PTRDIFF_MAX <? 16) with false. cbv iota.
    unfold get_errno at 1, bindM at 1, ret. world_simpl. reflexivity.
  - world_simpl. repeat split; reflexivity.
Qed.

Lemma recv_out_of_memory_at_entry_witness :
  exists w',
    ecryptfs_recv_netlink 3 NULL None None
      (with_alloc_script [true] (quiet [Datagram example_helo kernel 12]))
    = Done (- ENOMEM, NULL, None, None) w'
    /\ inbox w' = [Datagram example_helo kernel 12]
    /\ trace w' = [CRealloc NULL 16 NULL].
Proof.
  destruct (recv_out_of_memory_at_entry 3 NULL None None
              (with_alloc_script [true] (quiet [Datagram example_helo kernel 12])) []
              eq_refl)
    as (w' & H1 & H2 & _ & _ & _ & H6).
  exists w'. split; [exact H1|]. split; [exact H2 | exact H6].
Defined.

(** The peek when the script lets the first [realloc] through. *)
Lemma receive_peek_pass sk em s t w d src slen q sc :
  inbox w = Datagram d src slen :: q -> alloc_script w = false :: sc ->
  (4 <= length d)%nat ->
  let p := Z.pos (brk w) in
  let n := Z.min 16 (Z.of_nat (length d)) in
  ecryptfs_recv_netlink sk em s t w =
  receive 1 sk p (to_int (le_value (take 4 d))) 0 (Some src) slen em s t
    {| heap := <[p := overwrite 0 (Some <$> take (Z.to_nat n) d) (replicate 16 None)]> (heap w);
       brk := (brk w + 1)%positive; errno := errno w; alloc_script := sc;
       inbox := inbox w; send_script := send_script w; outbox := outbox w;
       sys_socket := sys_socket w; sys_bind := sys_bind w; sys_getpid := sys_getpid w;
       trace := (trace w ++ [CRealloc NULL 16 p]) ++ [CRecvfrom p 16 16 MSG_PEEK n] |}.
Proof.
  intros Hq Ha Hd p n. unfold ecryptfs_recv_netlink. rewrite receive_S.
  change (to_size_t sizeof_nlmsghdr) with 16.
  erewrite run_bind
    by (rewrite realloc_null; eapply allocate_pass; [unfold PTRDIFF_MAX; lia | exact Ha]).
  cbv beta. change (Z.pos (brk w) =? NULL) with false. cbv iota.
  erewrite run_bind
    by (eapply recvfrom_data;
        [heap_lookup | world_simpl; exact Hq | rewrite length_replicate; lia]).
  cbv beta iota zeta. fold p n. world_simpl.
  rewrite to_int_small by lia.
  rewrite (proj2 (Z.ltb_ge _ _)) by lia.
  change (negb (Z.land MSG_PEEK MSG_PEEK =? 0)) with true. cbv iota.
  erewrite run_bind.
  2:{ eapply load_ok; [heap_lookup|].
      apply field_received with (off := 0%nat); [lia | lia | rewrite length_replicate; lia]. }
  change (Z.land MSG_PEEK (Z.lnot MSG_PEEK)) with 0. unfold p.
  rewrite insert_insert_eq. rewrite Hq. reflexivity.
Qed.

(** X6. The [realloc] to the declared length fails: the call returns
    [-ENOMEM]; the datagram has only been peeked at and is still at the
    head of the queue; the 16-byte block of the first pass is still
    allocated, and the call returns no pointer to it. *)
Theorem recv_resize_failure_keeps_datagram sk em s t w d src slen q sc :
  inbox w = Datagram d src slen :: q -> alloc_script w = false :: true :: sc ->
  (4 <= length d)%nat -> 0 < le_value (take 4 d) <= INT_MAX ->
  let len := le_value (take 4 d) in
  let p := Z.pos (brk w) in
  exists w' b,
    ecryptfs_recv_netlink sk em s t w = Done (- ENOMEM, em, s, t) w'
    /\ inbox w' = inbox w
    /\ heap w' !! p = Some b /\ length b = 16%nat
    /\ (forall a, a <> p -> heap w' !! a = heap w !! a)
    /\ alloc_script w' = sc
    /\ trace w' = trace w ++
         [CRealloc NULL 16 p; CRecvfrom p 16 16 MSG_PEEK (Z.min 16 (Z.of_nat (length d)));
          CRealloc p len NULL].
Proof.
  intros Hq Ha Hd HL len p.
  assert (Elen : le_value (take 4 d) = len) by reflexivity. clearbody len.
  rewrite Elen in HL.
  rewrite (receive_peek_pass sk em s t w d src _ q _ Hq Ha Hd).
  rewrite Elen. rewrite to_int_small by (unfold INT_MAX in HL; lia).
  rewrite receive_S. rewrite to_size_t_small by (unfold INT_MAX in HL; lia).
  erewrite run_bind
    by (eapply realloc_fail;
        [heap_lookup | discriminate | unfold PTRDIFF_MAX, INT_MAX in *; lia | reflexivity]).
  cbv beta. change (NULL =? NULL) with true. cbv iota.
  unfold get_errno at 1, bindM at 1, ret. world_simpl. fold p.
  do 2 eexists. split; [reflexivity|]. world_simpl.
  split; [reflexivity|].
  split; [apply lookup_insert_eq|].
  split; [rewrite length_overwrite; rewrite ?length_fmap, ?length_take, length_replicate; lia|].
  split.
  { intros a Hp. rewrite lookup_insert_ne by distinct. reflexivity. }
  split; [reflexivity|].
  rewrite <- !app_assoc. reflexivity.
Qed.

Lemma recv_resize_failure_keeps_datagram_witness :
  exists w' b,
    ecryptfs_recv_netlink 3 NULL None None
      (with_alloc_script [false; true] (quiet [Datagram example_request kernel 12]))
    = Done (- ENOMEM, NULL, None, None) w'
    /\ inbox w' = [Datagram example_request kernel 12]
    /\ heap w' !! 1 = Some b /\ length b = 16%nat.
Proof.
  destruct (recv_resize_failure_keeps_datagram 3 NULL None None
              (with_alloc_script [false; true] (quiet [Datagram example_request kernel 12]))
              example_request kernel 12 [] []
              eq_refl eq_refl ltac:(vm_compute; lia)
              ltac:(vm_compute; split; [reflexivity | discriminate]))
    as (w' & b & H1 & H2 & H3 & H4 & _).
  exists w', b. split; [exact H1|]. split; [exact H2|]. split; [exact H3 | exact H4].
Defined.


(** X7. The [malloc] for the payload fails: the call returns [-ENOMEM];
    the datagram has been taken off the queue and is lost, the frame buffer
    is freed, and [*emsg] has been assigned the null pointer that [malloc]
    returned, whatever it held before; [*msg_seq] and [*msg_type] are as
    they were passed in. *)
Theorem recv_payload_allocation_failure sk em s t w d src q sc :
  inbox w = Datagram d src sizeof_sockaddr_nl :: q ->
  alloc_script w = false :: false :: true :: sc ->
  nl_pid src = 0 -> (4 <= length d)%nat ->
  16 < le_value (take 4 d) <= INT_MAX ->
  let len := le_value (take 4 d) in
  let p := Z.pos (brk w) in
  exists w',
    ecryptfs_recv_netlink sk em s t w = Done (- ENOMEM, NULL, s, t) w'
    /\ inbox w' = q
    /\ heap w' !! p = None
    /\ (forall a, a <> p -> heap w' !! a = heap w !! a)
    /\ alloc_script w' = sc /\ outbox w' = outbox w
    /\ trace w' = trace w ++
         [CRealloc NULL 16 p; CRecvfrom p 16 16 MSG_PEEK (Z.min 16 (Z.of_nat (length d)));
          CRealloc p len p;
          CRecvfrom p (Z.to_nat len) len 0 (Z.min len (Z.of_nat (length d)));
          CMalloc (len - 16) NULL; CFree p].
Proof.
  intros Hq Ha Hpid Hd HL len p.
  assert (Elen : le_value (take 4 d) = len) by reflexivity. clearbody len.
  rewrite Elen in HL.
  rewrite (receive_peek_pass sk em s t w d src _ q _ Hq Ha Hd).
  rewrite Elen. rewrite to_int_small by (unfold INT_MAX in HL; lia).
  fold p.
  set (b0 := overwrite 0 (Some <$> take (Z.to_nat (Z.min 16 (Z.of_nat (length d)))) d)
               (replicate 16 None)).
  assert (Hb0 : length b0 = 16%nat)
    by (unfold b0; rewrite length_overwrite;
        rewrite ?length_fmap, ?length_take, length_replicate; lia).
  rewrite receive_S. rewrite to_size_t_small by (unfold INT_MAX in HL; lia).
  erewrite run_bind
    by (eapply realloc_pass;
        [heap_lookup | discriminate | unfold PTRDIFF_MAX, INT_MAX in *; lia | reflexivity]).
  cbv beta. change (p =? NULL) with false. cbv iota.
  erewrite run_bind
    by (eapply recvfrom_data;
        [heap_lookup | world_simpl; exact Hq
        | rewrite length_app, length_take, length_replicate; lia]).
  cbv beta iota zeta. world_simpl.
  rewrite to_int_small by (unfold INT_MAX in HL; lia).
  rewrite (proj2 (Z.ltb_ge _ _)) by lia.
  change (negb (Z.land 0 MSG_PEEK =? 0)) with false. cbv iota.
  rewrite insert_insert_eq.
  change (negb (sizeof_sockaddr_nl =? sizeof_sockaddr_nl)) with false. cbv iota.
  unfold rvalue, ret at 1, bindM at 1.
  rewrite Hpid. change (negb (0 =? 0)) with false. cbv iota.
  erewrite run_bind.
  2:{ eapply load_ok; [heap_lookup|].
      apply field_received with (off := 0%nat);
        [lia | lia | rewrite length_app, length_take, length_replicate; lia]. }
  cbv beta zeta. change (drop 0 d) with d. rewrite Elen.
  rewrite NLMSG_PAYLOAD_int by lia.
  rewrite (proj2 (Z.eqb_neq _ _)) by lia. cbn [negb].
  rewrite to_size_t_small by (unfold INT_MAX in HL; lia).
  erewrite run_bind by (eapply allocate_fail; reflexivity).
  cbv beta. change (NULL =? NULL) with true. cbv iota.
  rewrite (proj2 (Z.ltb_ge _ _)) by (unfold PTRDIFF_MAX, INT_MAX in *; lia).
  unfold get_errno at 1, bindM at 1. world_simpl.
  erewrite run_bind by (eapply free_ok; [heap_lookup | discriminate]).
  eexists. split; [reflexivity|]. world_simpl.
  split; [reflexivity|].
  split; [apply lookup_delete_eq|].
  split.
  { intros a Hp. rewrite lookup_delete_ne, lookup_insert_ne by distinct.
    rewrite lookup_insert_ne by distinct. reflexivity. }
  split; [reflexivity|]. split; [reflexivity|].
  rewrite length_app, length_take, length_replicate, Hb0.
  replace (Z.to_nat len `min` 16 + (Z.to_nat len - 16))%nat with (Z.to_nat len) by lia.
  rewrite <- !app_assoc. reflexivity.
Qed.

Lemma recv_payload_allocation_failure_witness :
  exists w',
    ecryptfs_recv_netlink 3 4711 None None
      (with_alloc_script [false; false; true]
         (quiet [Datagram example_request kernel 12]))
    = Done (- ENOMEM, NULL, None, None) w'
    /\ inbox w' = [] /\ heap w' !! 1 = None.
Proof.
  destruct (recv_payload_allocation_failure 3 4711 None None
              (with_alloc_script [false; false; true]
                 (quiet [Datagram example_request kernel 12]))
              example_request kernel [] []
              eq_refl eq_refl eq_refl ltac:(vm_compute; lia)
              ltac:(vm_compute; split; [reflexivity | discriminate]))
    as (w' & H1 & H2 & H3 & _).
  exists w'. split; [exact H1|]. split; [exact H2 | exact H3].
Defined.


(** ** The sender, outcome by outcome *)

(** The header fields and the payload, written in the order of the code
    into a block of indeterminate cells, make up the frame. *)
Lemma wire_frame N (l t f s pd pc : list cell) :
  length l = 4%nat -> length t = 2%nat -> length f = 2%nat -> length s = 4%nat ->
  length pd = 4%nat -> (16 + length pc <= N)%nat ->
  range 0 (16 + length pc)
    (overwrite 16 pc
       (overwrite 6 f
          (overwrite 4 t
             (overwrite 12 pd
                (overwrite 8 s
                   (overwrite 0 l (replicate N None)))))))
  = l ++ t ++ f ++ s ++ pd ++ pc.
Proof.
  intros Hl Ht Hf Hs Hpd HN.
  set (B0 := overwrite 0 l (replicate N None)).
  set (B1 := overwrite 8 s B0).
  set (B2 := overwrite 12 pd B1).
  set (B3 := overwrite 4 t B2).
  set (B4 := overwrite 6 f B3).
  assert (L0 : length B0 = N)
    by (unfold B0; rewrite length_overwrite by (rewrite length_replicate; lia);
        apply length_replicate).
  assert (L1 : length B1 = N) by (unfold B1; rewrite length_overwrite; lia).
  assert (L2 : length B2 = N) by (unfold B2; rewrite length_overwrite; lia).
  assert (L3 : length B3 = N) by (unfold B3; rewrite length_overwrite; lia).
  assert (L4 : length B4 = N) by (unfold B4; rewrite length_overwrite; lia).
  apply list_eq; intros i. rewrite lookup_range.
  destruct (decide (i < 16 + length pc)%nat) as [Hi|Hi].
  - change (0 + i)%nat with i.
    rewrite lookup_overwrite by lia.
    unfold B4. rewrite lookup_overwrite by lia.
    unfold B3. rewrite lookup_overwrite by lia.
    unfold B2. rewrite lookup_overwrite by lia.
    unfold B1. rewrite lookup_overwrite by lia.
    unfold B0. rewrite lookup_overwrite by (rewrite length_replicate; lia).
    repeat case_decide; try lia;
      repeat first [ rewrite lookup_app_l by lia | rewrite lookup_app_r by lia ];
      f_equal; lia.
  - symmetry. apply lookup_ge_None_2. rewrite !length_app. lia.
Qed.

(** The sender up to its [sendto], for a message whose [data_len] is [dl]:
    the frame buffer holds the header and a copy of the message. *)
Lemma send_builds sk reply mtype mflags mseq w rb dl :
  heap w !! reply = Some rb -> reply <> NULL -> reply <> Z.pos (brk w) ->
  field off_data_len 4 rb = Some dl ->
  sizeof_emsg + dl <= Z.of_nat (length rb) -> dl + 27 <= INT_MAX ->
  alloc_script w = [] ->
  let nlh := Z.pos (brk w) in
  let B :=
    overwrite 16 (range 0 (Z.to_nat (sizeof_emsg + dl)) rb)
      (overwrite 6 (Some <$> le_bytes 2 (to_u16 mflags))
         (overwrite 4 (Some <$> le_bytes 2 (to_u16 mtype))
            (overwrite 12 (Some <$> le_bytes 4 0)
               (overwrite 8 (Some <$> le_bytes 4 (to_u32 mseq))
                  (overwrite 0 (Some <$> le_bytes 4 (to_u32 (24 + dl)))
                     (replicate (Z.to_nat (NLMSG_ALIGN (24 + dl))) None)))))) in
  ecryptfs_send_netlink sk reply mtype mflags mseq w =
    (let* rc := sendto sk nlh (24 + dl)
                  {| nl_family := AF_NETLINK; nl_pid := 0; nl_groups := 0 |} in
     if to_int rc <? 0 then
       let* e := get_errno in let* _ := free nlh in ret (to_int (- e))
     else let* _ := free nlh in ret (to_int rc))
      {| heap := <[nlh := B]> (heap w);
         brk := (brk w + 1)%positive; errno := errno w; alloc_script := [];
         inbox := inbox w; send_script := send_script w; outbox := outbox w;
         sys_socket := sys_socket w; sys_bind := sys_bind w;
         sys_getpid := sys_getpid w;
         trace := trace w ++ [CMalloc (NLMSG_ALIGN (24 + dl)) nlh] |}
  /\ length B = Z.to_nat (NLMSG_ALIGN (24 + dl))
  /\ 24 + dl <= NLMSG_ALIGN (24 + dl) <= 27 + dl.
Proof.
  intros Hb Hp Hfresh Hdl Hrb Hmax Ha nlh.
  unfold sizeof_emsg, INT_MAX in *.
  pose proof (field_range_of _ _ _ _ Hdl) as Hdl0.
  pose proof (NLMSG_ALIGN_bounds (24 + dl) ltac:(lia)) as HN.
  set (N := NLMSG_ALIGN (24 + dl)) in *.
  set (B0 := overwrite 0 (Some <$> le_bytes 4 (to_u32 (24 + dl)))
               (replicate (Z.to_nat N) None)).
  set (B1 := overwrite 8 (Some <$> le_bytes 4 (to_u32 mseq)) B0).
  set (B2 := overwrite 12 (Some <$> le_bytes 4 0) B1).
  set (B3 := overwrite 4 (Some <$> le_bytes 2 (to_u16 mtype)) B2).
  set (B4 := overwrite 6 (Some <$> le_bytes 2 (to_u16 mflags)) B3).
  set (B := overwrite 16 (range 0 (Z.to_nat (8 + dl)) rb) B4).
  assert (L0 : length B0 = Z.to_nat N) by (unfold B0; len).
  assert (L1 : length B1 = Z.to_nat N) by (unfold B1; len).
  assert (L2 : length B2 = Z.to_nat N) by (unfold B2; len).
  assert (L3 : length B3 = Z.to_nat N) by (unfold B3; len).
  assert (L4 : length B4 = Z.to_nat N) by (unfold B4; len).
  assert (L5 : length B = Z.to_nat N) by (unfold B; len).
  assert (F0 : field 0 4 B = Some (24 + dl)).
  { unfold B. rewrite field_overwrite_before by len.
    unfold B4. rewrite field_overwrite_before by len.
    unfold B3. rewrite field_overwrite_before by len.
    unfold B2. rewrite field_overwrite_before by len.
    unfold B1. rewrite field_overwrite_before by len.
    unfold B0. rewrite field_set_field by len.
    change (256 ^ Z.of_nat 4) with (2 ^ 32).
    rewrite to_u32_small by lia. rewrite Z.mod_small by lia. reflexivity. }
  cbv zeta. split; [|split; [exact L5 | lia]].
  unfold ecryptfs_send_netlink.
  unfold off_nlmsg_len, off_nlmsg_seq, off_nlmsg_pid, off_nlmsg_type, off_nlmsg_flags.
  rewrite (proj2 (Z.eqb_neq _ _) Hp).
  erewrite run_bind.
  2:{ erewrite run_bind by (eapply load_ok; [exact Hb | exact Hdl]).
      unfold sizeof_emsg. rewrite to_size_t_small by lia.
      rewrite to_int_small by lia. reflexivity. }
  cbv beta. unfold signed, NLMSG_LENGTH. rewrite NLMSG_HDRLEN_16.
  rewrite decide_True by (unfold INT_MAX; lia).
  unfold ret at 1, bindM at 1.
  replace (8 + dl + 16) with (24 + dl) by lia. fold N.
  erewrite run_bind
    by (apply allocate_ok; [unfold PTRDIFF_MAX; lia | exact Ha]).
  cbv beta zeta. fold nlh. change (nlh =? NULL) with false. cbv iota.
  erewrite run_bind by (eapply store_ok; [heap_lookup | len]).
  cbv beta. world_simpl. rewrite insert_insert_eq. fold B0.
  erewrite run_bind by (eapply store_ok; [heap_lookup | len]).
  cbv beta. world_simpl. rewrite insert_insert_eq. fold B1.
  erewrite run_bind by (eapply store_ok; [heap_lookup | len]).
  cbv beta. world_simpl. rewrite insert_insert_eq. fold B2.
  erewrite run_bind by (eapply store_ok; [heap_lookup | len]).
  cbv beta. world_simpl. rewrite insert_insert_eq. fold B3.
  erewrite run_bind by (eapply store_ok; [heap_lookup | len]).
  cbv beta. world_simpl. rewrite insert_insert_eq. fold B4.
  rewrite (proj2 (Z.eqb_neq _ _)) by lia.
  rewrite to_size_t_small by lia.
  change (Z.to_nat NLMSG_DATA) with 16%nat.
  erewrite run_bind by (eapply memcpy_ok; [heap_lookup | heap_lookup | len | len]).
  cbv beta. world_simpl. rewrite insert_insert_eq. fold B.
  erewrite run_bind by (eapply load_ok; [heap_lookup | exact F0]).
  reflexivity.
Qed.

(** The bytes of the frame that [send_builds] describes, when the message
    has been written all through. *)
Lemma send_frame_bytes mtype mflags mseq dl rb (pl : list byte) N :
  0 <= dl -> range 0 (Z.to_nat (sizeof_emsg + dl)) rb = Some <$> pl ->
  sizeof_emsg + dl <= Z.of_nat (length rb) -> 24 + dl <= N ->
  range 0 (Z.to_nat (24 + dl))
    (overwrite 16 (range 0 (Z.to_nat (sizeof_emsg + dl)) rb)
       (overwrite 6 (Some <$> le_bytes 2 (to_u16 mflags))
          (overwrite 4 (Some <$> le_bytes 2 (to_u16 mtype))
             (overwrite 12 (Some <$> le_bytes 4 0)
                (overwrite 8 (Some <$> le_bytes 4 (to_u32 mseq))
                   (overwrite 0 (Some <$> le_bytes 4 (to_u32 (24 + dl)))
                      (replicate (Z.to_nat N) None)))))))
  = Some <$> (le_bytes 4 (to_u32 (24 + dl)) ++ le_bytes 2 (to_u16 mtype)
              ++ le_bytes 2 (to_u16 mflags) ++ le_bytes 4 (to_u32 mseq)
              ++ le_bytes 4 0 ++ pl)
  /\ Z.of_nat (length pl) = sizeof_emsg + dl.
Proof.
  intros Hdl Hpl Hrb HN. unfold sizeof_emsg in *.
  assert (Lpl : length pl = Z.to_nat (8 + dl)).
  { rewrite <- (length_fmap Some pl), <- Hpl. apply length_range. lia. }
  split; [|lia].
  rewrite Hpl. rewrite !fmap_app.
  replace (Z.to_nat (24 + dl)) with (16 + length (Some <$> pl))%nat
    by (rewrite length_fmap; lia).
  apply wire_frame; rewrite ?length_fmap, ?length_le_bytes; try reflexivity. lia.
Qed.

Lemma sendto_fail sk buf len dst w b e sc :
  heap w !! buf = Some b -> 0 <= len <= Z.of_nat (length b) ->
  send_script w = Some e :: sc ->
  sendto sk buf len dst w =
    Done (-1)
      (log_call (CSendto buf len (-1)) (with_errno (errno_val e) (with_send_script sc w))).
Proof.
  intros Hb Hl Hs. unfold sendto. rewrite Hb.
  rewrite slice_eq by lia. rewrite Hs. reflexivity.
Qed.

Lemma overwrite_nil off (b : list cell) : overwrite off [] b = b.
Proof. unfold overwrite. cbn [app length]. rewrite Nat.add_0_r. apply take_drop. Qed.

(** A message that is sent: the datagram that leaves is the header
    followed by the message, and the frame buffer is freed. *)
Lemma send_message_run sk reply mtype mflags mseq w rb dl pl :
  heap w !! reply = Some rb -> reply <> NULL -> reply <> Z.pos (brk w) ->
  field off_data_len 4 rb = Some dl ->
  sizeof_emsg + dl <= Z.of_nat (length rb) -> dl + 27 <= INT_MAX ->
  range 0 (Z.to_nat (sizeof_emsg + dl)) rb = Some <$> pl ->
  alloc_script w = [] -> send_script w = [] ->
  let nlh := Z.pos (brk w) in
  exists w',
    ecryptfs_send_netlink sk reply mtype mflags mseq w = Done (24 + dl) w'
    /\ outbox w' = outbox w ++
         [Some <$> (le_bytes 4 (to_u32 (24 + dl)) ++ le_bytes 2 (to_u16 mtype)
                    ++ le_bytes 2 (to_u16 mflags) ++ le_bytes 4 (to_u32 mseq)
                    ++ le_bytes 4 0 ++ pl)]
    /\ Z.of_nat (length pl) = sizeof_emsg + dl
    /\ heap w' !! nlh = None
    /\ (forall a, a <> nlh -> heap w' !! a = heap w !! a)
    /\ inbox w' = inbox w /\ alloc_script w' = [] /\ send_script w' = []
    /\ brk w' = (brk w + 1)%positive
    /\ trace w' = trace w ++
         [CMalloc (NLMSG_ALIGN (24 + dl)) nlh; CSendto nlh (24 + dl) (24 + dl); CFree nlh].
Proof.
  intros Hb Hp Hfresh Hdl Hrb Hmax Hpl Ha Hs nlh.
  destruct (send_builds sk reply mtype mflags mseq w rb dl Hb Hp Hfresh Hdl Hrb Hmax Ha)
    as (Hrun & LB & HN).
  pose proof (field_range_of _ _ _ _ Hdl) as Hdl0.
  destruct (send_frame_bytes mtype mflags mseq dl rb pl (NLMSG_ALIGN (24 + dl))
              ltac:(lia) Hpl Hrb ltac:(lia)) as (Hf & Lpl).
  cbv zeta in Hrun. fold nlh in Hrun. rewrite Hrun.
  erewrite run_bind
    by (eapply sendto_ok; [heap_lookup | first [rewrite LB; lia | len] | exact Hs]).
  cbv beta. rewrite to_int_small by (unfold INT_MAX in Hmax; lia).
  rewrite (proj2 (Z.ltb_ge _ _)) by lia.
  erewrite run_bind by (eapply free_ok; [heap_lookup | discriminate]).
  eexists. split; [reflexivity|]. world_simpl.
  split; [apply (f_equal (fun x => outbox w ++ [x])); exact Hf|].
  split; [exact Lpl|].
  split; [apply lookup_delete_eq|].
  split.
  { intros a Hn. rewrite lookup_delete_ne, lookup_insert_ne by distinct. reflexivity. }
  repeat (split; [reflexivity|]).
  rewrite <- !app_assoc. reflexivity.
Qed.

(** A message whose [sendto] fails: the call returns the negated [errno]
    of [sendto]; nothing leaves, and the frame buffer is freed. *)
Lemma send_fails_run sk reply mtype mflags mseq w rb dl e sc :
  heap w !! reply = Some rb -> reply <> NULL -> reply <> Z.pos (brk w) ->
  field off_data_len 4 rb = Some dl ->
  sizeof_emsg + dl <= Z.of_nat (length rb) -> dl + 27 <= INT_MAX ->
  alloc_script w = [] -> send_script w = Some e :: sc ->
  let nlh := Z.pos (brk w) in
  exists w',
    ecryptfs_send_netlink sk reply mtype mflags mseq w = Done (- errno_val e) w'
    /\ outbox w' = outbox w
    /\ heap w' !! nlh = None
    /\ (forall a, a <> nlh -> heap w' !! a = heap w !! a)
    /\ inbox w' = inbox w /\ alloc_script w' = [] /\ send_script w' = sc
    /\ brk w' = (brk w + 1)%positive
    /\ trace w' = trace w ++
         [CMalloc (NLMSG_ALIGN (24 + dl)) nlh; CSendto nlh (24 + dl) (-1); CFree nlh].
Proof.
  intros Hb Hp Hfresh Hdl Hrb Hmax Ha Hs nlh.
  destruct (send_builds sk reply mtype mflags mseq w rb dl Hb Hp Hfresh Hdl Hrb Hmax Ha)
    as (Hrun & LB & HN).
  pose proof (field_range_of _ _ _ _ Hdl) as Hdl0.
  cbv zeta in Hrun. fold nlh in Hrun. rewrite Hrun.
  erewrite run_bind
    by (eapply sendto_fail; [heap_lookup | first [rewrite LB; lia | len] | exact Hs]).
  cbv beta. change (to_int (-1) <? 0) with true. cbv iota.
  unfold get_errno at 1, bindM at 1. world_simpl.
  erewrite run_bind by (eapply free_ok; [heap_lookup | discriminate]).
  rewrite neg_errno_int.
  eexists. split; [reflexivity|]. world_simpl.
  split; [reflexivity|].
  split; [apply lookup_delete_eq|].
  split.
  { intros a Hn. rewrite lookup_delete_ne, lookup_insert_ne by distinct. reflexivity. }
  repeat (split; [reflexivity|]).
  rewrite <- !app_assoc. reflexivity.
Qed.

(** X11. No memory for the frame buffer: the call returns [-ENOMEM]; it
    has made no [sendto], so nothing has left and the send script is
    untouched; the heap is as it was (the [free] on the way out is on the
    null pointer). *)
Theorem send_out_of_memory sk reply mtype mflags mseq w rb dl sc :
  heap w !! reply = Some rb -> reply <> NULL ->
  field off_data_len 4 rb = Some dl -> dl + 27 <= INT_MAX ->
  alloc_script w = true :: sc ->
  exists w',
    ecryptfs_send_netlink sk reply mtype mflags mseq w = Done (- ENOMEM) w'
    /\ outbox w' = outbox w /\ send_script w' = send_script w
    /\ heap w' = heap w /\ alloc_script w' = sc
    /\ trace w' = trace w ++ [CMalloc (NLMSG_ALIGN (24 + dl)) NULL; CFree NULL].
Proof.
  intros Hb Hp Hdl Hmax Ha.
  unfold sizeof_emsg, INT_MAX in *.
  pose proof (field_range_of _ _ _ _ Hdl) as Hdl0.
  pose proof (NLMSG_ALIGN_bounds (24 + dl) ltac:(lia)) as HN.
  eexists. split.
  - unfold ecryptfs_send_netlink.
    rewrite (proj2 (Z.eqb_neq _ _) Hp).
    erewrite run_bind.
    2:{ erewrite run_bind by (eapply load_ok; [exact Hb | exact Hdl]).
        unfold sizeof_emsg. rewrite to_size_t_small by lia.
        rewrite to_int_small by lia. reflexivity. }
    cbv beta. unfold signed, NLMSG_LENGTH. rewrite NLMSG_HDRLEN_16.
    rewrite decide_True by (unfold INT_MAX; lia).
    unfold ret at 1, bindM at 1.
    replace (8 + dl + 16) with (24 + dl) by lia.
    erewrite run_bind by (eapply allocate_fail; exact Ha).
    cbv beta zeta. change (NULL =? NULL) with true. cbv iota.
    rewrite (proj2 (Z.ltb_ge _ _)) by (unfold PTRDIFF_MAX; lia).
    erewrite run_bind by apply free_null.
    reflexivity.
  - world_simpl. repeat (split; [reflexivity|]).
    rewrite <- app_assoc. reflexivity.
Qed.

Lemma send_out_of_memory_witness :
  exists w',
    ecryptfs_send_netlink 3 100 103 0 77
      (with_alloc_script [true]
         (holding 100 (message 7 (byte_of <$> [75; 69; 89])) (quiet [])))
    = Done (- ENOMEM) w'
    /\ outbox w' = []
    /\ trace w' = [CMalloc 28 NULL; CFree NULL].
Proof.
  assert (Hb : heap (with_alloc_script [true]
                       (holding 100 (message 7 (byte_of <$> [75; 69; 89])) (quiet [])))
               !! 100 = Some (Some <$> message 7 (byte_of <$> [75; 69; 89])))
    by (vm_compute; reflexivity).
  assert (Hp : 100 <> NULL) by discriminate.
  assert (Hdl : field off_data_len 4 (Some <$> message 7 (byte_of <$> [75; 69; 89]))
                = Some 3) by (vm_compute; reflexivity).
  assert (Hmax : 3 + 27 <= INT_MAX) by (vm_compute; discriminate).
  destruct (send_out_of_memory 3 100 103 0 77 _ _ 3 [] Hb Hp Hdl Hmax eq_refl)
    as (w' & H1 & H2 & _ & _ & _ & H6).
  exists w'. split; [exact H1|]. split; [exact H2 | exact H6].
Defined.

(** X24. The bound on the data length.  [NLMSG_LENGTH(payload_len)] adds
    the header length to [payload_len] in [int]: for a message whose
    [sizeof( *emsg) + data_len] still fits an [int] but exceeds
    [INT_MAX - 16], that addition overflows, and the behaviour of
    [ecryptfs_send_netlink] is undefined before anything is allocated. *)
Theorem send_length_overflow sk reply mtype mflags mseq w rb dl :
  heap w !! reply = Some rb -> reply <> NULL ->
  field off_data_len 4 rb = Some dl ->
  INT_MAX - 16 < sizeof_emsg + dl <= INT_MAX ->
  ecryptfs_send_netlink sk reply mtype mflags mseq w = Undefined.
Proof.
  intros Hb Hp Hdl Hr. unfold sizeof_emsg, INT_MAX in *.
  unfold ecryptfs_send_netlink.
  rewrite (proj2 (Z.eqb_neq _ _) Hp).
  erewrite run_bind.
  2:{ erewrite run_bind by (eapply load_ok; [exact Hb | exact Hdl]).
      unfold sizeof_emsg. rewrite to_size_t_small by lia.
      rewrite to_int_small by lia. reflexivity. }
  cbv beta. unfold signed, NLMSG_LENGTH. rewrite NLMSG_HDRLEN_16.
  rewrite decide_False by (unfold INT_MAX; lia).
  reflexivity.
Qed.

Lemma send_length_overflow_witness :
  ecryptfs_send_netlink 3 100 103 0 77
    (holding 100 (le_bytes 4 7 ++ le_bytes 4 (2 ^ 31 - 20)) (quiet []))
  = Undefined.
Proof.
  assert (Hb : heap (holding 100 (le_bytes 4 7 ++ le_bytes 4 (2 ^ 31 - 20)) (quiet []))
               !! 100 = Some (Some <$> (le_bytes 4 7 ++ le_bytes 4 (2 ^ 31 - 20))))
    by (vm_compute; reflexivity).
  assert (Hp : 100 <> NULL) by (unfold NULL; lia).
  assert (Hdl : field off_data_len 4 (Some <$> (le_bytes 4 7 ++ le_bytes 4 (2 ^ 31 - 20)))
                = Some (2 ^ 31 - 20)) by (vm_compute; reflexivity).
  assert (Hr : INT_MAX - 16 < sizeof_emsg + (2 ^ 31 - 20) <= INT_MAX)
    by (unfold INT_MAX, sizeof_emsg; lia).
  exact (send_length_overflow 3 100 103 0 77 _ _ _ Hb Hp Hdl Hr).
Defined.

(** X9. Called with a null message, [ecryptfs_send_netlink] sends a frame
    that is a header alone: 16 bytes that declare the length 16 and carry
    the type, the flags and the sequence number given and the port id 0.
    It returns 16, frees the frame buffer and touches no other block. *)
Theorem send_without_message sk mtype mflags mseq w :
  alloc_script w = [] -> send_script w = [] ->
  let nlh := Z.pos (brk w) in
  exists w',
    ecryptfs_send_netlink sk NULL mtype mflags mseq w = Done 16 w'
    /\ outbox w' = outbox w ++
         [Some <$> (le_bytes 4 16 ++ le_bytes 2 (to_u16 mtype)
                    ++ le_bytes 2 (to_u16 mflags) ++ le_bytes 4 (to_u32 mseq)
                    ++ le_bytes 4 0)]
    /\ heap w' !! nlh = None
    /\ (forall a, a <> nlh -> heap w' !! a = heap w !! a)
    /\ inbox w' = inbox w
    /\ trace w' = trace w ++ [CMalloc 16 nlh; CSendto nlh 16 16; CFree nlh].
Proof.
  intros Ha Hs nlh.
  set (B0 := overwrite 0 (Some <$> le_bytes 4 (to_u32 16)) (replicate 16 None)).
  set (B1 := overwrite 8 (Some <$> le_bytes 4 (to_u32 mseq)) B0).
  set (B2 := overwrite 12 (Some <$> le_bytes 4 0) B1).
  set (B3 := overwrite 4 (Some <$> le_bytes 2 (to_u16 mtype)) B2).
  set (B4 := overwrite 6 (Some <$> le_bytes 2 (to_u16 mflags)) B3).
  assert (L0 : length B0 = 16%nat) by (unfold B0; len).
  assert (L1 : length B1 = 16%nat) by (unfold B1; len).
  assert (L2 : length B2 = 16%nat) by (unfold B2; len).
  assert (L3 : length B3 = 16%nat) by (unfold B3; len).
  assert (L4 : length B4 = 16%nat) by (unfold B4; len).
  assert (F0 : field 0 4 B4 = Some 16).
  { unfold B4. rewrite field_overwrite_before by len.
    unfold B3. rewrite field_overwrite_before by len.
    unfold B2. rewrite field_overwrite_before by len.
    unfold B1. rewrite field_overwrite_before by len.
    unfold B0. rewrite field_set_field by len. reflexivity. }
  assert (HF : range 0 16 B4 =
               Some <$> (le_bytes 4 16 ++ le_bytes 2 (to_u16 mtype)
                         ++ le_bytes 2 (to_u16 mflags) ++ le_bytes 4 (to_u32 mseq)
                         ++ le_bytes 4 0)).
  { rewrite <- (overwrite_nil 16 B4). rewrite !fmap_app.
    rewrite <- (app_nil_r (Some <$> le_bytes 4 0)).
    unfold B4, B3, B2, B1, B0.
    apply (wire_frame 16 _ _ _ _ _ []);
      rewrite ?length_fmap, ?length_le_bytes; try reflexivity. }
  eexists. split.
  - unfold ecryptfs_send_netlink.
    unfold off_nlmsg_len, off_nlmsg_seq, off_nlmsg_pid, off_nlmsg_type, off_nlmsg_flags.
    change (NULL =? NULL) with true. cbv iota.
    unfold ret at 1, bindM at 1.
    change (signed (NLMSG_LENGTH 0)) with (@ret Z 16).
    unfold ret at 1, bindM at 1.
    change (NLMSG_ALIGN 16) with 16.
    erewrite run_bind
      by (apply allocate_ok; [unfold PTRDIFF_MAX; lia | exact Ha]).
    cbv beta zeta. fold nlh. change (nlh =? NULL) with false. cbv iota.
    erewrite run_bind by (eapply store_ok; [heap_lookup | len]).
    cbv beta. world_simpl. rewrite insert_insert_eq. fold B0.
    erewrite run_bind by (eapply store_ok; [heap_lookup | len]).
    cbv beta. world_simpl. rewrite insert_insert_eq. fold B1.
    erewrite run_bind by (eapply store_ok; [heap_lookup | len]).
    cbv beta. world_simpl. rewrite insert_insert_eq. fold B2.
    erewrite run_bind by (eapply store_ok; [heap_lookup | len]).
    cbv beta. world_simpl. rewrite insert_insert_eq. fold B3.
    erewrite run_bind by (eapply store_ok; [heap_lookup | len]).
    cbv beta. world_simpl. rewrite insert_insert_eq. fold B4.
    change (0 =? 0) with true. cbv iota.
    unfold ret at 1, bindM at 1.
    erewrite run_bind by (eapply load_ok; [heap_lookup | exact F0]).
    erewrite run_bind by (eapply sendto_ok; [heap_lookup | first [rewrite L4; lia | len] | exact Hs]).
    cbv beta zeta. world_simpl.
    change (to_int 16 <? 0) with false. cbv iota.
    erewrite run_bind by (eapply free_ok; [heap_lookup | discriminate]).
    reflexivity.
  - world_simpl.
    split; [apply (f_equal (fun x => outbox w ++ [x])); exact HF|].
    split; [apply lookup_delete_eq|].
    split.
    { intros a Hn. rewrite lookup_delete_ne, lookup_insert_ne by distinct. reflexivity. }
    split; [reflexivity|].
    rewrite <- !app_assoc. reflexivity.
Qed.

Lemma send_without_message_witness :
  exists w',
    ecryptfs_send_netlink 3 NULL 100 0 78 (quiet []) = Done 16 w'
    /\ outbox w' = [Some <$> example_helo]
    /\ heap w' !! 1 = None.
Proof.
  destruct (send_without_message 3 100 0 78 (quiet []) eq_refl eq_refl)
    as (w' & H1 & H2 & H3 & _).
  exists w'. split; [exact H1|]. split; [exact H2 | exact H3].
Defined.


(** ** The dispatch loop, frame by frame *)

Section Dispatch.
Context `{Hdr : EcryptfsHeader} `{KM : KeyModules}.

(** One pass over a frame from the kernel that is a header alone and is not
    a request, with no message held from before: the type decides where the
    pass ends, and in every case [free] is called on the null [emsg]. *)
Lemma pass_header_only sk l w d src q :
  inbox w = Datagram d src sizeof_sockaddr_nl :: q -> nl_pid src = 0 ->
  alloc_script w = [] -> (16 <= length d)%nat -> le_value (take 4 d) = 16 ->
  emsg l = NULL ->
  le_value (take 2 (drop 4 d)) <> ECRYPTFS_NLMSG_REQUEST ->
  let ty := le_value (take 2 (drop 4 d)) in
  let p := Z.pos (brk w) in
  let l1 := {| emsg := NULL; ctx := ctx l;
               msg_seq := Some (to_int (le_value (take 4 (drop 8 d))));
               msg_type := Some ty; error_count := error_count l |} in
  exists w',
    daemon_pass sk l w =
      Done (if ty =? ECRYPTFS_NLMSG_HELO then GotoReceive (set_error_count 0 l1)
            else if ty =? ECRYPTFS_NLMSG_QUIT then GotoOut 0 l1
            else GotoReceive l1) w'
    /\ inbox w' = q /\ alloc_script w' = []
    /\ outbox w' = outbox w /\ send_script w' = send_script w
    /\ heap w' !! p = None
    /\ (forall a, a <> p -> heap w' !! a = heap w !! a)
    /\ brk w' = (brk w + 1)%positive
    /\ trace w' = trace w ++
         [CRealloc NULL 16 p; CRecvfrom p 16 16 MSG_PEEK 16;
          CRealloc p 16 p; CRecvfrom p 16 16 0 16; CFree p; CFree NULL].
Proof.
  intros Hq Hpid Ha Hd Elen He Hreq ty p l1.
  destruct (recv_empty_run sk (emsg l) (msg_seq l) (msg_type l) w d src q
              Hq Ha Hpid Hd Elen)
    as (w1 & Hrecv & Hp & Hheap & Hq1 & Ho1 & Ha1 & Hs1 & Hb1 & Ht1).
  fold p in Hp, Hheap, Ht1. fold ty in Hrecv.
  exists (log_call (CFree NULL) w1). split.
  - unfold daemon_pass. erewrite run_bind by exact Hrecv. cbv beta iota zeta.
    change (16 <? 0) with false. cbv iota.
    cbn [emsg ctx msg_seq msg_type error_count].
    unfold rvalue at 1, ret at 1, bindM at 1.
    rewrite He. unfold l1, set_error_count. cbn [emsg ctx msg_seq msg_type error_count].
    destruct (ty =? ECRYPTFS_NLMSG_HELO).
    { erewrite run_bind by apply free_null. reflexivity. }
    destruct (ty =? ECRYPTFS_NLMSG_QUIT).
    { erewrite run_bind by apply free_null. reflexivity. }
    replace (ty =? ECRYPTFS_NLMSG_REQUEST) with false
      by (symmetry; apply Z.eqb_neq; exact Hreq).
    erewrite run_bind by apply free_null. reflexivity.
  - world_simpl. repeat (split; [assumption|]).
    rewrite Ht1, <- app_assoc. reflexivity.
Qed.


Lemma call_parse_packet_none c em w b rc c' :
  heap w !! em = Some b -> em <> NULL ->
  parse_packet c (Some b) = (rc, None, c') ->
  call_parse_packet c em w = Done (rc, NULL, c') (log_call (CParsePacket em rc NULL) w).
Proof.
  intros Hb Hp Hpp. unfold call_parse_packet.
  rewrite (proj2 (Z.eqb_neq _ _) Hp), Hb, Hpp. reflexivity.
Qed.

(** X18. One pass of the dispatch loop over a request that the handler
    turns down (a return code other than 0): nothing is sent; the reply the
    handler may have left, the request and the frame buffer are freed; the
    error count is neither raised nor cleared, and the loop goes on. *)
Theorem refused_request_sends_nothing sk l w d src q rc rep c' :
  inbox w = Datagram d src sizeof_sockaddr_nl :: q -> nl_pid src = 0 ->
  alloc_script w = [] -> (16 <= length d)%nat ->
  16 < le_value (take 4 d) <= INT_MAX ->
  le_value (take 2 (drop 4 d)) = ECRYPTFS_NLMSG_REQUEST ->
  ECRYPTFS_NLMSG_REQUEST <> ECRYPTFS_NLMSG_HELO ->
  ECRYPTFS_NLMSG_REQUEST <> ECRYPTFS_NLMSG_QUIT ->
  let len := le_value (take 4 d) in
  let n := Z.min len (Z.of_nat (length d)) in
  parse_packet (ctx l)
    (Some ((Some <$> take (Z.to_nat (n - 16)) (drop 16 d))
           ++ replicate (Z.to_nat (len - n)) None)) = (rc, rep, c') ->
  rc <> 0 ->
  let p := Z.pos (brk w) in
  let m := Z.pos (brk w + 1) in
  let r := Z.pos (brk w + 1 + 1) in
  exists w',
    daemon_pass sk l w =
      Done (GotoReceive
              {| emsg := m; ctx := c';
                 msg_seq := Some (to_int (le_value (take 4 (drop 8 d))));
                 msg_type := Some ECRYPTFS_NLMSG_REQUEST;
                 error_count := error_count l |}) w'
    /\ inbox w' = q /\ outbox w' = outbox w /\ send_script w' = send_script w
    /\ alloc_script w' = []
    /\ heap w' !! p = None /\ heap w' !! m = None
    /\ (is_Some rep -> heap w' !! r = None)
    /\ (forall a, a <> p -> a <> m -> a <> r -> heap w' !! a = heap w !! a).
Proof.
  intros Hq Hpid Ha Hd HL Hty Hne1 Hne2 len n Hpp Hrc p m r.
  destruct (recv_payload_run sk (emsg l) (msg_seq l) (msg_type l) w d src q
              Hq Ha Hpid Hd HL)
    as (w1 & Hrecv & Hm & Hp & Hheap & Hq1 & Ho1 & Ha1 & Hs1 & Hb1 & Ht1).
  fold len n p m in Hrecv, Hm, Hp, Hheap.
  assert (Hn : 0 <= n) by (unfold n; unfold INT_MAX in HL; lia).
  unfold daemon_pass. erewrite run_bind by exact Hrecv. cbv beta iota zeta.
  rewrite (proj2 (Z.ltb_ge _ _)) by exact Hn.
  cbn [emsg ctx msg_seq msg_type error_count].
  unfold rvalue at 1, ret at 1, bindM at 1.
  rewrite Hty.
  rewrite (proj2 (Z.eqb_neq _ _) Hne1), (proj2 (Z.eqb_neq _ _) Hne2), Z.eqb_refl.
  destruct rep as [rb|].
  - erewrite run_bind
      by (eapply call_parse_packet_reply; [exact Hm | discriminate | exact Hpp]).
    cbv beta iota zeta. cbn [emsg ctx msg_seq msg_type error_count].
    rewrite (proj2 (Z.eqb_neq _ _) Hrc). cbn [negb].
    rewrite Hb1. fold r.
    erewrite run_bind by (eapply free_ok; [heap_lookup | discriminate]).
    cbv beta. world_simpl.
    erewrite run_bind.
    2:{ eapply free_ok; [|discriminate]. world_simpl.
        rewrite lookup_delete_ne, lookup_insert_ne by (unfold r, m; lia). exact Hm. }
    eexists. split; [reflexivity|]. world_simpl.
    repeat (split; [assumption|]).
    split.
    { rewrite lookup_delete_ne, lookup_delete_ne, lookup_insert_ne by (unfold r, m, p; lia).
      exact Hp. }
    split; [apply lookup_delete_eq|].
    split.
    { intros _. rewrite lookup_delete_ne by (unfold r, m; lia). apply lookup_delete_eq. }
    intros a H1 H2 H3.
    rewrite lookup_delete_ne, lookup_delete_ne, lookup_insert_ne by distinct.
    apply Hheap; assumption.
  - erewrite run_bind
      by (eapply call_parse_packet_none; [exact Hm | discriminate | exact Hpp]).
    cbv beta iota zeta. cbn [emsg ctx msg_seq msg_type error_count].
    rewrite (proj2 (Z.eqb_neq _ _) Hrc). cbn [negb].
    erewrite run_bind by apply free_null.
    cbv beta.
    erewrite run_bind by (eapply free_ok; [world_simpl; exact Hm | discriminate]).
    eexists. split; [reflexivity|]. world_simpl.
    repeat (split; [assumption|]).
    split.
    { rewrite lookup_delete_ne by (unfold m, p; lia). exact Hp. }
    split; [apply lookup_delete_eq|].
    split; [intros [? E]; discriminate E|].
    intros a H1 H2 H3. rewrite lookup_delete_ne by distinct.
    apply Hheap; assumption.
Qed.


(** X19. One pass of the dispatch loop over a well-formed request whose
    answer cannot be sent ([sendto] fails): the failure is not counted; the
    error count is cleared as after any answered request, nothing has left,
    every block the pass has allocated is freed, and the loop goes on. *)
Theorem send_failure_is_not_counted sk l w d src q rb c' dl e sc :
  inbox w = Datagram d src sizeof_sockaddr_nl :: q -> nl_pid src = 0 ->
  alloc_script w = [] -> send_script w = Some e :: sc ->
  Z.of_nat (length d) = le_value (take 4 d) ->
  16 + sizeof_emsg <= Z.of_nat (length d) <= INT_MAX ->
  le_value (take 2 (drop 4 d)) = ECRYPTFS_NLMSG_REQUEST ->
  ECRYPTFS_NLMSG_REQUEST <> ECRYPTFS_NLMSG_HELO ->
  ECRYPTFS_NLMSG_REQUEST <> ECRYPTFS_NLMSG_QUIT ->
  parse_packet (ctx l) (Some (Some <$> drop 16 d)) = (0, Some rb, c') ->
  field off_data_len 4 rb = Some dl ->
  sizeof_emsg + dl <= Z.of_nat (length rb) -> dl + 27 <= INT_MAX ->
  let m := Z.pos (brk w + 1) in
  exists w',
    daemon_pass sk l w =
      Done (GotoReceive
              {| emsg := m; ctx := c';
                 msg_seq := Some (to_int (le_value (take 4 (drop 8 d))));
                 msg_type := Some ECRYPTFS_NLMSG_REQUEST;
                 error_count := 0 |}) w'
    /\ inbox w' = q /\ outbox w' = outbox w /\ send_script w' = sc
    /\ alloc_script w' = []
    /\ (forall a, Z.pos (brk w) <= a < Z.pos (brk w) + 4 -> heap w' !! a = None)
    /\ (forall a, ~ Z.pos (brk w) <= a < Z.pos (brk w) + 4 -> heap w' !! a = heap w !! a).
Proof.
  intros Hq Hpid Ha Hs Hlen HL Hty Hne1 Hne2 Hpp Hdl Hrb Hmax m.
  unfold sizeof_emsg, off_index, off_data_len in *.
  set (p := Z.pos (brk w)).
  set (r := Z.pos (brk w + 1 + 1)).
  set (nlh := Z.pos (brk w + 1 + 1 + 1)).
  set (idx := le_value (take 4 (drop 16 d))).
  destruct (recv_payload_run sk (emsg l) (msg_seq l) (msg_type l) w d src q
              Hq Ha Hpid ltac:(lia) ltac:(lia))
    as (w1 & Hrecv & Hm & Hp & Hheap & Hq1 & Ho1 & Ha1 & Hs1 & Hb1 & Ht1).
  rewrite <- Hlen in Hrecv, Hm. rewrite Z.min_id in Hrecv, Hm.
  rewrite Z.sub_diag in Hm. change (Z.to_nat 0) with 0%nat in Hm.
  cbn [replicate] in Hm. rewrite app_nil_r in Hm.
  rewrite take_ge in Hm by (rewrite length_drop; lia).
  fold p m in Hrecv, Hm, Hp, Hheap.
  pose proof (field_range_of _ _ _ _ Hdl) as Hdl0.
  assert (Hidx : 0 <= idx < 2 ^ 32).
  { pose proof (le_value_range (take 4 (drop 16 d))) as R.
    rewrite length_take, length_drop in R.
    replace (Z.of_nat (4 `min` (length d - 16))) with 4 in R by lia. exact R. }
  set (rb' := overwrite 0 (Some <$> le_bytes 4 idx) rb).
  assert (Lrb : length rb' = length rb) by (unfold rb'; len).
  assert (Hdl' : field 4 4 rb' = Some dl)
    by (unfold rb'; rewrite field_overwrite_after by len; exact Hdl).
  unfold daemon_pass. erewrite run_bind by exact Hrecv. cbv beta iota zeta.
  rewrite (proj2 (Z.ltb_ge _ _)) by lia.
  cbn [emsg ctx msg_seq msg_type error_count].
  unfold rvalue at 1, ret at 1, bindM at 1.
  rewrite Hty.
  rewrite (proj2 (Z.eqb_neq _ _) Hne1), (proj2 (Z.eqb_neq _ _) Hne2), Z.eqb_refl.
  erewrite run_bind
    by (eapply call_parse_packet_reply; [exact Hm | discriminate | exact Hpp]).
  cbv beta iota zeta. cbn [emsg ctx msg_seq msg_type error_count].
  change (negb (0 =? 0)) with false. cbv iota.
  rewrite Hb1. fold r.
  change ((r =? NULL) || (m =? NULL)) with false. cbv iota.
  unfold ret at 1, bindM at 1.
  erewrite run_bind.
  2:{ eapply load_ok.
      - world_simpl. rewrite lookup_insert_ne by (unfold r, m; lia). exact Hm.
      - unfold off_index. rewrite field_bytes by (rewrite length_drop; lia).
        change (drop 0 (drop 16 d)) with (drop 16 d). reflexivity. }
  fold idx.
  erewrite run_bind by (eapply store_ok; [heap_lookup | unfold off_index; lia]).
  unfold off_index.
  fold rb'. world_simpl. rewrite insert_insert_eq.
  unfold rvalue at 1, ret at 1, bindM at 1.
  lazymatch goal with
  | |- context [bindM (ecryptfs_send_netlink ?a ?b ?c ?d0 ?e0) _ ?W] =>
      destruct (send_fails_run a b c d0 e0 W rb' dl e sc)
        as (w4 & Hsend & Ho4 & Hn4 & Hheap4 & Hq4 & Ha4 & Hs4 & Hb4 & Ht4)
  end.
  { heap_lookup. }
  { discriminate. }
  { world_simpl. rewrite ?Hb1. unfold r. lia. }
  { exact Hdl'. }
  { unfold sizeof_emsg. lia. }
  { exact Hmax. }
  { world_simpl. exact Ha1. }
  { world_simpl. rewrite Hs1. exact Hs. }
  world_simpl in Ho4. world_simpl in Hn4. world_simpl in Hheap4. world_simpl in Hq4.
  world_simpl in Hb4. rewrite ?Hb1 in Hn4, Hheap4, Hb4. fold nlh in Hn4, Hheap4.
  erewrite run_bind by exact Hsend. cbv beta.
  erewrite run_bind.
  2:{ eapply free_ok; [|discriminate].
      rewrite Hheap4 by (unfold r, nlh; lia). apply lookup_insert_eq. }
  cbv beta.
  erewrite run_bind.
  2:{ eapply free_ok; [|discriminate]. world_simpl.
      rewrite lookup_delete_ne by (unfold r, m; lia).
      rewrite Hheap4 by (unfold m, nlh; lia).
      rewrite lookup_insert_ne by (unfold r, m; lia). exact Hm. }
  eexists. split; [reflexivity|]. world_simpl.
  split; [congruence|]. split; [congruence|]. split; [assumption|].
  split; [assumption|].
  assert (Hcases : forall a, p <= a < p + 4 <-> a = p \/ a = m \/ a = r \/ a = nlh)
    by (intros a; unfold p, m, r, nlh; lia).
  split.
  - intros a Hin. apply Hcases in Hin.
    destruct (decide (a = m)) as [->|Hm']; [apply lookup_delete_eq|].
    rewrite lookup_delete_ne by distinct.
    destruct (decide (a = r)) as [->|Hr']; [apply lookup_delete_eq|].
    rewrite lookup_delete_ne by distinct.
    destruct (decide (a = nlh)) as [->|Hn']; [exact Hn4|].
    rewrite Hheap4 by exact Hn'.
    rewrite lookup_insert_ne by distinct.
    destruct Hin as [->|[?|[?|?]]]; try contradiction. exact Hp.
  - intros a Hout.
    assert (a <> p /\ a <> m /\ a <> r /\ a <> nlh) as (H1 & H2 & H3 & H4)
      by (unfold p, m, r, nlh in *; lia).
    rewrite !lookup_delete_ne by distinct.
    rewrite Hheap4 by exact H4.
    rewrite lookup_insert_ne by distinct.
    apply Hheap; assumption.
Qed.

End Dispatch.

Lemma send_failure_is_not_counted_witness :
  exists w',
    example_pass 3 (set_error_count 5 start)
      (with_send_script [Some E_CONNREFUSED] (quiet [Datagram example_request kernel 12]))
    = Done (GotoReceive {| emsg := 2; ctx := @ctx_zero example_key_modules; msg_seq := Some 77;
                           msg_type := Some 102; error_count := 0 |}) w'
    /\ outbox w' = [] /\ inbox w' = [].
Proof.
  assert (Hlen : Z.of_nat (length example_request) = le_value (take 4 example_request))
    by (vm_compute; reflexivity).
  assert (HL : 16 + sizeof_emsg <= Z.of_nat (length example_request) <= INT_MAX)
    by (vm_compute; split; discriminate).
  assert (Hty : le_value (take 2 (drop 4 example_request))
                = @ECRYPTFS_NLMSG_REQUEST example_header) by (vm_compute; reflexivity).
  assert (Hdl : field off_data_len 4 (Some <$> message 3735928559 (byte_of <$> [75; 69; 89]))
                = Some 3) by (vm_compute; reflexivity).
  assert (Hrb : sizeof_emsg + 3
                <= Z.of_nat (length (Some <$> message 3735928559 (byte_of <$> [75; 69; 89]))))
    by (vm_compute; discriminate).
  assert (Hmax : 3 + 27 <= INT_MAX) by (vm_compute; discriminate).
  destruct (@send_failure_is_not_counted example_header example_key_modules
              3 (set_error_count 5 start)
              (with_send_script [Some E_CONNREFUSED]
                 (quiet [Datagram example_request kernel 12]))
              example_request kernel [] _ tt 3 E_CONNREFUSED []
              eq_refl eq_refl eq_refl eq_refl Hlen HL Hty
              ltac:(discriminate) ltac:(discriminate) eq_refl Hdl Hrb Hmax)
    as (w' & H1 & H2 & H3 & _).
  exists w'. split; [exact H1|]. split; [exact H3 | exact H2].
Defined.

Lemma refused_request_sends_nothing_witness :
  let l := {| emsg := NULL; ctx := @ctx_zero refusing_key_modules; msg_seq := None;
              msg_type := None; error_count := 5 |} in
  exists w',
    @daemon_pass example_header refusing_key_modules 3 l
      (quiet [Datagram example_request kernel 12])
    = Done (GotoReceive {| emsg := 2; ctx := @ctx_zero refusing_key_modules; msg_seq := Some 77;
                           msg_type := Some 102; error_count := 5 |}) w'
    /\ outbox w' = []
    /\ heap w' !! 1 = None /\ heap w' !! 2 = None /\ heap w' !! 3 = None.
Proof.
  intros l.
  assert (Hd : (16 <= length example_request)%nat) by (vm_compute; lia).
  assert (HL : 16 < le_value (take 4 example_request) <= INT_MAX)
    by (vm_compute; split; [reflexivity | discriminate]).
  assert (Hty : le_value (take 2 (drop 4 example_request))
                = @ECRYPTFS_NLMSG_REQUEST example_header) by (vm_compute; reflexivity).
  assert (Hrc : -22 <> 0) by discriminate.
  destruct (@refused_request_sends_nothing example_header refusing_key_modules
              3 l (quiet [Datagram example_request kernel 12]) example_request kernel []
              (-22) (Some (Some <$> message 0 [])) tt
              eq_refl eq_refl eq_refl Hd HL Hty ltac:(discriminate) ltac:(discriminate)
              eq_refl Hrc)
    as (w' & H1 & _ & H2 & _ & _ & H3 & H4 & H5 & _).
  exists w'. split; [exact H1|]. split; [exact H2|]. split; [exact H3|].
  split; [exact H4|]. apply H5. eexists. reflexivity.
Defined.

Section Answer.
Context `{Hdr : EcryptfsHeader} `{KM : KeyModules}.

Lemma byte_of_val b : byte_of (byte_val b) = b.
Proof.
  unfold byte_of. pose proof (byte_val_range b) as R.
  rewrite Z.mod_small by exact R. unfold byte_val.
  rewrite N2Z.id, Byte.of_to_N. reflexivity.
Qed.

Lemma le_bytes_value bs : le_bytes (length bs) (le_value bs) = bs.
Proof.
  induction bs as [|b bs IH]; cbn [length le_bytes le_value]; [reflexivity|].
  pose proof (byte_val_range b) as R.
  replace (byte_val b + 256 * le_value bs) with (byte_val b + le_value bs * 256) by lia.
  f_equal.
  - unfold byte_of. rewrite Z_mod_plus_full.
    rewrite Z.mod_small by exact R. unfold byte_val.
    rewrite N2Z.id, Byte.of_to_N. reflexivity.
  - rewrite Z.div_add by lia.
    rewrite Z.div_small by exact R. exact IH.
Qed.

Lemma overwrite_bytes (a b : list byte) :
  overwrite 0 (Some <$> a) (Some <$> b) = Some <$> (a ++ drop (length a) b).
Proof.
  unfold overwrite. rewrite take_0, length_fmap. cbn [app Nat.add].
  rewrite fmap_app, fmap_drop. reflexivity.
Qed.

(** One pass over a well-formed request that the handler answers with a
    reply written all through. *)
Lemma pass_request_answered sk l w d src q rbs c' dl :
  inbox w = Datagram d src sizeof_sockaddr_nl :: q -> nl_pid src = 0 ->
  alloc_script w = [] -> send_script w = [] ->
  Z.of_nat (length d) = le_value (take 4 d) ->
  16 + sizeof_emsg <= Z.of_nat (length d) <= INT_MAX ->
  le_value (take 2 (drop 4 d)) = ECRYPTFS_NLMSG_REQUEST ->
  ECRYPTFS_NLMSG_REQUEST <> ECRYPTFS_NLMSG_HELO ->
  ECRYPTFS_NLMSG_REQUEST <> ECRYPTFS_NLMSG_QUIT ->
  parse_packet (ctx l) (Some (Some <$> drop 16 d)) = (0, Some (Some <$> rbs), c') ->
  le_value (take 4 (drop 4 rbs)) = dl ->
  sizeof_emsg + dl <= Z.of_nat (length rbs) -> dl + 27 <= INT_MAX ->
  let m := Z.pos (brk w + 1) in
  let seq := le_value (take 4 (drop 8 d)) in
  let index := take 4 (drop 16 d) in
  exists w',
    daemon_pass sk l w =
      Done (GotoReceive
              {| emsg := m; ctx := c'; msg_seq := Some (to_int seq);
                 msg_type := Some ECRYPTFS_NLMSG_REQUEST; error_count := 0 |}) w'
    /\ outbox w' = outbox w ++
         [Some <$> (le_bytes 4 (24 + dl) ++ le_bytes 2 (to_u16 ECRYPTFS_NLMSG_RESPONSE)
                    ++ le_bytes 2 0 ++ le_bytes 4 seq ++ le_bytes 4 0
                    ++ index ++ take (Z.to_nat (4 + dl)) (drop 4 rbs))]
    /\ inbox w' = q /\ alloc_script w' = [] /\ send_script w' = []
    /\ (forall a, Z.pos (brk w) <= a < Z.pos (brk w) + 4 -> heap w' !! a = None)
    /\ (forall a, ~ Z.pos (brk w) <= a < Z.pos (brk w) + 4 -> heap w' !! a = heap w !! a)
    /\ Z.pos (brk w') = Z.pos (brk w) + 4.
Proof.
  intros Hq Hpid Ha Hs Hlen HL Hty Hne1 Hne2 Hpp Hdl Hrb Hmax m seq index.
  unfold sizeof_emsg, off_index, off_data_len in *.
  set (p := Z.pos (brk w)).
  set (r := Z.pos (brk w + 1 + 1)).
  set (nlh := Z.pos (brk w + 1 + 1 + 1)).
  set (idx := le_value index).
  destruct (recv_payload_run sk (emsg l) (msg_seq l) (msg_type l) w d src q
              Hq Ha Hpid ltac:(lia) ltac:(lia))
    as (w1 & Hrecv & Hm & Hp & Hheap & Hq1 & Ho1 & Ha1 & Hs1 & Hb1 & Ht1).
  rewrite <- Hlen in Hrecv, Hm. rewrite Z.min_id in Hrecv, Hm.
  rewrite Z.sub_diag in Hm. change (Z.to_nat 0) with 0%nat in Hm.
  cbn [replicate] in Hm. rewrite app_nil_r in Hm.
  rewrite take_ge in Hm by (rewrite length_drop; lia).
  fold p m seq in Hrecv, Hm, Hp, Hheap.
  assert (Lindex : length index = 4%nat)
    by (unfold index; rewrite length_take, length_drop; lia).
  assert (Hidx : 0 <= idx < 2 ^ 32).
  { pose proof (le_value_range index) as R. rewrite Lindex in R. exact R. }
  assert (Hseq : 0 <= seq < 2 ^ 32).
  { pose proof (le_value_range (take 4 (drop 8 d))) as R.
    rewrite length_take, length_drop in R.
    replace (Z.of_nat (4 `min` (length d - 8))) with 4 in R by lia. exact R. }
  assert (Hdl0 : 0 <= dl < 2 ^ 32).
  { pose proof (le_value_range (take 4 (drop 4 rbs))) as R.
    rewrite length_take, length_drop in R.
    replace (Z.of_nat (4 `min` (length rbs - 4))) with 4 in R by lia.
    rewrite Hdl in R. exact R. }
  assert (Eidx : le_bytes 4 idx = index).
  { unfold idx. rewrite <- Lindex. apply le_bytes_value. }
  set (rbs' := le_bytes 4 idx ++ drop 4 rbs).
  set (rb' := overwrite 0 (Some <$> le_bytes 4 idx) (Some <$> rbs)).
  assert (Erb : rb' = Some <$> rbs')
    by (unfold rb', rbs'; rewrite overwrite_bytes, length_le_bytes; reflexivity).
  assert (Lrbs : length rbs' = length rbs)
    by (unfold rbs'; rewrite length_app, length_le_bytes, length_drop; lia).
  assert (Hdl' : field 4 4 rb' = Some dl).
  { rewrite Erb. rewrite field_bytes by lia. rewrite <- Hdl. unfold rbs'.
    rewrite drop_app_length' by (rewrite length_le_bytes; reflexivity). reflexivity. }
  assert (Hpl : range 0 (Z.to_nat (8 + dl)) rb'
                = Some <$> (index ++ take (Z.to_nat (4 + dl)) (drop 4 rbs))).
  { rewrite Erb, range_Some. f_equal. rewrite drop_0. unfold rbs'. rewrite Eidx.
    replace (Z.to_nat (8 + dl)) with (length index + Z.to_nat (4 + dl))%nat by lia.
    rewrite take_app_add' by reflexivity. reflexivity. }
  unfold daemon_pass. erewrite run_bind by exact Hrecv. cbv beta iota zeta.
  rewrite (proj2 (Z.ltb_ge _ _)) by lia.
  cbn [emsg ctx msg_seq msg_type error_count].
  unfold rvalue at 1, ret at 1, bindM at 1.
  rewrite Hty.
  rewrite (proj2 (Z.eqb_neq _ _) Hne1), (proj2 (Z.eqb_neq _ _) Hne2), Z.eqb_refl.
  erewrite run_bind
    by (eapply call_parse_packet_reply; [exact Hm | discriminate | exact Hpp]).
  cbv beta iota zeta. cbn [emsg ctx msg_seq msg_type error_count].
  change (negb (0 =? 0)) with false. cbv iota.
  rewrite Hb1. fold r.
  change ((r =? NULL) || (m =? NULL)) with false. cbv iota.
  unfold ret at 1, bindM at 1.
  erewrite run_bind.
  2:{ eapply load_ok.
      - world_simpl. rewrite lookup_insert_ne by (unfold r, m; lia). exact Hm.
      - unfold off_index. rewrite field_bytes by (rewrite length_drop; lia).
        change (drop 0 (drop 16 d)) with (drop 16 d). reflexivity. }
  fold index idx.
  erewrite run_bind
    by (eapply store_ok; [heap_lookup | unfold off_index; rewrite length_fmap; lia]).
  unfold off_index. fold rb'. world_simpl. rewrite insert_insert_eq.
  unfold rvalue at 1, ret at 1, bindM at 1.
  lazymatch goal with
  | |- context [bindM (ecryptfs_send_netlink ?a ?b ?c ?d0 ?e0) _ ?W] =>
      destruct (send_message_run a b c d0 e0 W rb' dl
                  (index ++ take (Z.to_nat (4 + dl)) (drop 4 rbs)))
        as (w4 & Hsend & Ho4 & _ & Hn4 & Hheap4 & Hq4 & Ha4 & Hs4 & Hb4 & Ht4)
  end.
  { heap_lookup. }
  { discriminate. }
  { world_simpl. rewrite ?Hb1. unfold r. lia. }
  { exact Hdl'. }
  { unfold sizeof_emsg. rewrite Erb, length_fmap. lia. }
  { exact Hmax. }
  { exact Hpl. }
  { world_simpl. exact Ha1. }
  { world_simpl. rewrite Hs1. exact Hs. }
  world_simpl in Ho4. world_simpl in Hn4. world_simpl in Hheap4. world_simpl in Hq4.
  world_simpl in Hb4. rewrite ?Hb1 in Hn4, Hheap4, Hb4. fold nlh in Hn4, Hheap4.
  erewrite run_bind by exact Hsend. cbv beta.
  erewrite run_bind.
  2:{ eapply free_ok; [|discriminate].
      rewrite Hheap4 by (unfold r, nlh; lia). apply lookup_insert_eq. }
  cbv beta.
  erewrite run_bind.
  2:{ eapply free_ok; [|discriminate]. world_simpl.
      rewrite lookup_delete_ne by (unfold r, m; lia).
      rewrite Hheap4 by (unfold m, nlh; lia).
      rewrite lookup_insert_ne by (unfold r, m; lia). exact Hm. }
  eexists. split; [reflexivity|]. world_simpl.
  split.
  { rewrite Ho4, Ho1. do 3 f_equal.
    rewrite to_u32_small by (unfold INT_MAX in Hmax; lia).
    rewrite to_u32_to_int by exact Hseq. reflexivity. }
  split; [congruence|]. split; [assumption|]. split; [assumption|].
  assert (Hcases : forall a, p <= a < p + 4 <-> a = p \/ a = m \/ a = r \/ a = nlh)
    by (intros a; unfold p, m, r, nlh; lia).
  split.
  { intros a Hin. apply Hcases in Hin.
    destruct (decide (a = m)) as [->|Hm']; [apply lookup_delete_eq|].
    rewrite lookup_delete_ne by distinct.
    destruct (decide (a = r)) as [->|Hr']; [apply lookup_delete_eq|].
    rewrite lookup_delete_ne by distinct.
    destruct (decide (a = nlh)) as [->|Hn']; [exact Hn4|].
    rewrite Hheap4 by exact Hn'.
    rewrite lookup_insert_ne by distinct.
    destruct Hin as [->|[?|[?|?]]]; try contradiction. exact Hp. }
  split.
  { intros a Hout.
    assert (a <> p /\ a <> m /\ a <> r /\ a <> nlh) as (H1 & H2 & H3 & H4)
      by (unfold p, m, r, nlh in *; lia).
    rewrite !lookup_delete_ne by distinct.
    rewrite Hheap4 by exact H4.
    rewrite lookup_insert_ne by distinct.
    apply Hheap; assumption. }
  rewrite Hb4. lia.
Qed.


(** X20. One pass of the dispatch loop over a well-formed request that the
    handler answers with a reply written all through.  Exactly one frame
    leaves: a header that declares 24 bytes plus the data length of the
    reply, with the type [ECRYPTFS_NLMSG_RESPONSE], no flags, the sequence
    number of the request and the port id 0; then the index of the request
    in place of the index of the reply; then the data length and the data
    of the reply.  Every block the pass has allocated (frame buffers,
    request, reply) is freed when it ends, no other block is touched, and
    the error count is cleared. *)
Theorem request_is_answered_exactly sk l w d src q rbs c' dl :
  inbox w = Datagram d src sizeof_sockaddr_nl :: q -> nl_pid src = 0 ->
  alloc_script w = [] -> send_script w = [] ->
  Z.of_nat (length d) = le_value (take 4 d) ->
  16 + sizeof_emsg <= Z.of_nat (length d) <= INT_MAX ->
  le_value (take 2 (drop 4 d)) = ECRYPTFS_NLMSG_REQUEST ->
  ECRYPTFS_NLMSG_REQUEST <> ECRYPTFS_NLMSG_HELO ->
  ECRYPTFS_NLMSG_REQUEST <> ECRYPTFS_NLMSG_QUIT ->
  parse_packet (ctx l) (Some (Some <$> drop 16 d)) = (0, Some (Some <$> rbs), c') ->
  le_value (take 4 (drop 4 rbs)) = dl ->
  sizeof_emsg + dl <= Z.of_nat (length rbs) -> dl + 27 <= INT_MAX ->
  let m := Z.pos (brk w + 1) in
  let seq := le_value (take 4 (drop 8 d)) in
  let index := take 4 (drop 16 d) in
  exists w',
    daemon_pass sk l w =
      Done (GotoReceive
              {| emsg := m; ctx := c'; msg_seq := Some (to_int seq);
                 msg_type := Some ECRYPTFS_NLMSG_REQUEST; error_count := 0 |}) w'
    /\ outbox w' = outbox w ++
         [Some <$> (le_bytes 4 (24 + dl) ++ le_bytes 2 (to_u16 ECRYPTFS_NLMSG_RESPONSE)
                    ++ le_bytes 2 0 ++ le_bytes 4 seq ++ le_bytes 4 0
                    ++ index ++ take (Z.to_nat (4 + dl)) (drop 4 rbs))]
    /\ inbox w' = q /\ alloc_script w' = [] /\ send_script w' = []
    /\ (forall a, Z.pos (brk w) <= a < Z.pos (brk w) + 4 -> heap w' !! a = None)
    /\ (forall a, ~ Z.pos (brk w) <= a < Z.pos (brk w) + 4 -> heap w' !! a = heap w !! a).
Proof.
  intros Hq Hpid Ha Hs Hlen HL Hty Hne1 Hne2 Hpp Hdl Hrb Hmax m seq index.
  destruct (pass_request_answered sk l w d src q rbs c' dl
              Hq Hpid Ha Hs Hlen HL Hty Hne1 Hne2 Hpp Hdl Hrb Hmax)
    as (w' & H1 & H2 & H3 & H4 & H5 & H6 & H7 & _).
  exists w'. repeat (split; [assumption|]). assumption.
Qed.

(** X23. Requests are served in order.  When the socket holds a run of
    well-formed requests from the kernel, each of which the handler answers
    (in whatever context it is called) with a reply written all through,
    the dispatch loop goes through all of them and is still running; the
    frames that have left are the responses to the requests, one for each
    and in the order of the requests, each with the sequence number and the
    index of its request.  Every block allocated on the way is freed, and
    the blocks that were live before are untouched.  The message pointer
    left over from one pass does no harm in the next, since a request with
    a payload overwrites it. *)
Theorem requests_are_served_in_order sk src (answer : list byte -> list byte) ds :
  forall l w q,
  nl_pid src = 0 ->
  ECRYPTFS_NLMSG_REQUEST <> ECRYPTFS_NLMSG_HELO ->
  ECRYPTFS_NLMSG_REQUEST <> ECRYPTFS_NLMSG_QUIT ->
  Forall (fun d =>
            Z.of_nat (length d) = le_value (take 4 d)
            /\ 16 + sizeof_emsg <= Z.of_nat (length d) <= INT_MAX
            /\ le_value (take 2 (drop 4 d)) = ECRYPTFS_NLMSG_REQUEST
            /\ (forall c, exists c',
                  parse_packet c (Some (Some <$> drop 16 d))
                  = (0, Some (Some <$> answer d), c'))
            /\ sizeof_emsg + le_value (take 4 (drop 4 (answer d)))
               <= Z.of_nat (length (answer d))
            /\ le_value (take 4 (drop 4 (answer d))) + 27 <= INT_MAX) ds ->
  inbox w = ((fun d => Datagram d src sizeof_sockaddr_nl) <$> ds) ++ q ->
  alloc_script w = [] -> send_script w = [] ->
  exists l' w',
    daemon_loop (length ds) sk l w = Done (GotoReceive l') w'
    /\ outbox w' = outbox w ++
         ((fun d =>
             let dl := le_value (take 4 (drop 4 (answer d))) in
             Some <$> (le_bytes 4 (24 + dl)
                       ++ le_bytes 2 (to_u16 ECRYPTFS_NLMSG_RESPONSE)
                       ++ le_bytes 2 0 ++ le_bytes 4 (le_value (take 4 (drop 8 d)))
                       ++ le_bytes 4 0
                       ++ take 4 (drop 16 d)
                       ++ take (Z.to_nat (4 + dl)) (drop 4 (answer d)))) <$> ds)
    /\ inbox w' = q
    /\ (forall a, a < Z.pos (brk w) -> heap w' !! a = heap w !! a)
    /\ (forall a, Z.pos (brk w) <= a < Z.pos (brk w') -> heap w' !! a = None)
    /\ Z.pos (brk w') = Z.pos (brk w) + 4 * Z.of_nat (length ds).
Proof.
  induction ds as [|d ds IH]; intros l w q Hpid Hne1 Hne2 Hall Hq Ha Hs.
  - cbn [daemon_loop length fmap list_fmap app] in *.
    exists l, w. split; [reflexivity|]. split; [symmetry; apply app_nil_r|].
    split; [exact Hq|]. split; [reflexivity|]. split; [intros a Hr; lia | lia].
  - apply Forall_cons in Hall as [(Hlen & HL & Hty & Hans & Hrb & Hmax) Hall].
    destruct (Hans (ctx l)) as (c' & Hpp).
    cbn [fmap list_fmap app] in Hq.
    destruct (pass_request_answered sk l w d src _ (answer d) c' _
                Hq Hpid Ha Hs Hlen HL Hty Hne1 Hne2 Hpp eq_refl Hrb Hmax)
      as (w1 & Hpass & Ho1 & Hq1 & Ha1 & Hs1 & Hfree1 & Hkeep1 & Hb1).
    match type of Hpass with
    | _ = Done (GotoReceive ?L) _ => set (l1 := L) in *
    end.
    destruct (IH l1 w1 q Hpid Hne1 Hne2 Hall Hq1 Ha1 Hs1)
      as (l' & w' & Hloop & Ho & Hq' & Hkeep & Hfree & Hbrk).
    exists l', w'. split.
    { cbn [daemon_loop length]. erewrite run_bind by exact Hpass. exact Hloop. }
    split.
    { rewrite Ho, Ho1. cbn [fmap list_fmap]. rewrite <- app_assoc. reflexivity. }
    split; [exact Hq'|].
    split.
    { intros a Hlt. rewrite Hkeep by lia. apply Hkeep1. lia. }
    split.
    { intros a Hr. destruct (Z_lt_dec a (Z.pos (brk w1))) as [Hlt|Hge].
      - rewrite Hkeep by exact Hlt. apply Hfree1. lia.
      - apply Hfree. lia. }
    cbn [length]. lia.
Qed.

End Answer.

Lemma request_is_answered_exactly_witness :
  exists w',
    example_pass 3 (set_error_count 5 start) (quiet [Datagram example_request kernel 12])
    = Done (GotoReceive {| emsg := 2; ctx := @ctx_zero example_key_modules; msg_seq := Some 77;
                           msg_type := Some 102; error_count := 0 |}) w'
    /\ outbox w' = [Some <$> frame 103 77 (message 7 (byte_of <$> [75; 69; 89]))]
    /\ inbox w' = [] /\ heap w' !! 2 = None.
Proof.
  assert (Hlen : Z.of_nat (length example_request) = le_value (take 4 example_request))
    by (vm_compute; reflexivity).
  assert (HL : 16 + sizeof_emsg <= Z.of_nat (length example_request) <= INT_MAX)
    by (vm_compute; split; discriminate).
  assert (Hty : le_value (take 2 (drop 4 example_request))
                = @ECRYPTFS_NLMSG_REQUEST example_header) by (vm_compute; reflexivity).
  assert (Hdl : le_value (take 4 (drop 4 (message 3735928559 (byte_of <$> [75; 69; 89]))))
                = 3) by (vm_compute; reflexivity).
  assert (Hrb : sizeof_emsg + 3
                <= Z.of_nat (length (message 3735928559 (byte_of <$> [75; 69; 89]))))
    by (vm_compute; discriminate).
  assert (Hmax : 3 + 27 <= INT_MAX) by (vm_compute; discriminate).
  destruct (@request_is_answered_exactly example_header example_key_modules
              3 (set_error_count 5 start) (quiet [Datagram example_request kernel 12])
              example_request kernel [] _ tt 3
              eq_refl eq_refl eq_refl eq_refl Hlen HL Hty
              ltac:(discriminate) ltac:(discriminate) eq_refl Hdl Hrb Hmax)
    as (w' & H1 & H2 & H3 & _ & _ & H6 & _).
  exists w'. split; [exact H1|]. split; [exact H2|]. split; [exact H3|].
  apply H6. cbn. lia.
Defined.

Lemma requests_are_served_in_order_witness :
  exists l' w',
    example_loop 2 3 (set_error_count 5 start)
      (quiet [Datagram example_request kernel 12; Datagram example_request2 kernel 12])
    = Done (GotoReceive l') w'
    /\ outbox w' = [Some <$> frame 103 77 (message 7 (byte_of <$> [75; 69; 89]));
                    Some <$> frame 103 78 (message 9 (byte_of <$> [75; 69; 89]))]
    /\ inbox w' = []
    /\ (forall a, 1 <= a < Z.pos (brk w') -> heap w' !! a = None).
Proof.
  destruct (@requests_are_served_in_order example_header example_key_modules 3 kernel
              (fun _ => message 3735928559 (byte_of <$> [75; 69; 89]))
              [example_request; example_request2] (set_error_count 5 start)
              (quiet [Datagram example_request kernel 12;
                      Datagram example_request2 kernel 12]) [])
    as (l' & w' & H1 & H2 & H3 & _ & H5 & _).
  - reflexivity.
  - discriminate.
  - discriminate.
  - repeat apply Forall_cons_2; [ | | apply Forall_nil_2 ];
      (split; [vm_compute; reflexivity|]);
      (split; [vm_compute; split; discriminate|]);
      (split; [vm_compute; reflexivity|]);
      (split; [intros c; exists c; reflexivity|]);
      split; vm_compute; discriminate.
  - reflexivity.
  - reflexivity.
  - reflexivity.
  - exists l', w'. split; [exact H1|]. split; [exact H2|]. split; [exact H3 | exact H5].
Defined.

(** ** Leaving the loop *)

Section Leaving.
Context `{Hdr : EcryptfsHeader} `{KM : KeyModules}.

(** A pass leaves the loop in two ways only. *)
Lemma pass_exit sk l w rc l' w' :
  daemon_pass sk l w = Done (GotoOut rc l') w' ->
  (rc = - EIO /\ ECRYPTFS_NETLINK_ERROR_COUNT_THRESHOLD < error_count l'
   /\ error_count l' = error_count l + 1)
  \/ (rc = 0 /\ msg_type l' = Some ECRYPTFS_NLMSG_QUIT).
Proof.
  intros H. unfold daemon_pass in H.
  cbn [error_count emsg ctx msg_seq msg_type] in H.
  minv H.
  all: cbn [error_count emsg ctx msg_seq msg_type] in *.
  all: repeat match goal with
         | E : signed _ _ = Done _ _ |- _ =>
             unfold signed in E; case_decide; [apply ret_inv in E as [? ?] | discriminate E]
         end.
  all: try discriminate.
  - injection Er as <- <-. left. cbn [error_count].
    split; [reflexivity|]. split; [apply Z.ltb_lt; assumption | congruence].
  - injection Er as <- <-. right. cbn [msg_type].
    split; [reflexivity|]. destruct o as [ty|]; [|discriminate Hm0].
    apply ret_inv in Hm0 as [-> _]. f_equal. apply Z.eqb_eq. assumption.
Qed.

Lemma loop_exit n sk : forall l w rc l' w',
  daemon_loop n sk l w = Done (GotoOut rc l') w' ->
  (rc = - EIO /\ ECRYPTFS_NETLINK_ERROR_COUNT_THRESHOLD < error_count l')
  \/ (rc = 0 /\ msg_type l' = Some ECRYPTFS_NLMSG_QUIT).
Proof.
  induction n as [|n IH]; intros l w rc l' w' H; cbn [daemon_loop] in H.
  - apply ret_inv in H as [E _]. discriminate E.
  - apply bindM_inv in H as (j & w1 & Hp & H).
    destruct j as [rc1 l1|l1].
    + apply ret_inv in H as [E <-]. injection E as <- <-.
      destruct (pass_exit _ _ _ _ _ _ Hp) as [(? & ? & _)|?]; [left|right]; tauto.
    + eapply IH. exact H.
Qed.

End Leaving.

(** ** The sender, whatever it is given *)

Lemma same_but_trans ptr w w1 w2 :
  same_but ptr w w1 -> same_but ptr w1 w2 -> same_but ptr w w2.
Proof.
  intros (H1 & H2 & H3) (G1 & G2 & G3). split; [|split; congruence].
  intros a Ha. rewrite G1, H1 by exact Ha. reflexivity.
Qed.

Lemma store_step ptr off n v w u w1 B :
  store ptr off n v w = Done u w1 -> heap w !! ptr = Some B ->
  (off + n <= length B)%nat
  /\ heap w1 !! ptr = Some (overwrite off (Some <$> le_bytes n v) B)
  /\ same_but ptr w w1.
Proof.
  unfold store, set_field, blit. intros H HB. rewrite HB in H.
  rewrite length_fmap, length_le_bytes in H.
  case_decide as Hl; [|discriminate H]. injection H as _ <-.
  split; [exact Hl|]. split; [apply lookup_insert_eq|].
  split; [|split; reflexivity].
  intros a Ha. cbn. apply lookup_insert_ne. congruence.
Qed.

Lemma memcpy_step dst doff src soff n w u w1 B :
  memcpy dst doff src soff n w = Done u w1 -> heap w !! dst = Some B ->
  exists cs,
    length cs = Z.to_nat n /\ (doff + Z.to_nat n <= length B)%nat
    /\ heap w1 !! dst = Some (overwrite doff cs B)
    /\ same_but dst w w1.
Proof.
  intros H HB. apply memcpy_inv in H as (s & d & Hs & Hd & Hsn & Hdn & ->).
  rewrite HB in Hd. injection Hd as <-.
  exists (range soff (Z.to_nat n) s).
  split; [apply length_range; exact Hsn|]. split; [exact Hdn|].
  split; [apply lookup_insert_eq|].
  split; [|split; reflexivity].
  intros a Ha. cbn. apply lookup_insert_ne. congruence.
Qed.

Lemma sendto_inv sk buf len dst w rc w1 :
  sendto sk buf len dst w = Done rc w1 ->
  heap w1 = heap w /\ inbox w1 = inbox w
  /\ ((rc = -1 /\ outbox w1 = outbox w /\ exists e, errno w1 = errno_val e)
      \/ (rc = len /\ exists f, outbox w1 = outbox w ++ [f] /\ length f = Z.to_nat len)).
Proof.
  unfold sendto. intros H.
  destruct (heap w !! buf) as [b|]; [|discriminate].
  unfold slice in H. case_decide as Hl; [|discriminate].
  destruct (send_script w) as [|[e|] s]; injection H as <- <-;
    (split; [reflexivity|]); (split; [reflexivity|]).
  - right. split; [reflexivity|]. eexists. split; [reflexivity|]. apply length_range. lia.
  - left. split; [reflexivity|]. split; [reflexivity|]. exists e. reflexivity.
  - right. split; [reflexivity|]. eexists. split; [reflexivity|]. apply length_range. lia.
Qed.

Lemma NLMSG_ALIGN_range x : 0 <= NLMSG_ALIGN x < 2 ^ 32.
Proof.
  assert (E : NLMSG_ALIGN x
              = Z.land (x + NLMSG_ALIGNTO - 1) (to_u32 (Z.lnot (NLMSG_ALIGNTO - 1)))
                mod 2 ^ 32).
  { unfold NLMSG_ALIGN. unfold to_u32 at 1, wrap_unsigned.
    rewrite <- !Z.land_ones by lia.
    rewrite <- Z.land_assoc, (Z.land_comm (Z.ones 32)), Z.land_assoc. reflexivity. }
  rewrite E. apply Z.mod_pos_bound. lia.
Qed.

(** The length field of the frame under the writes that follow it. *)
Lemma length_field_kept v (s pd t f pc B0 : list cell) :
  length s = 4%nat -> length pd = 4%nat -> length t = 2%nat -> length f = 2%nat ->
  (16 + length pc <= length B0)%nat ->
  field 0 4
    (overwrite 16 pc
       (overwrite 6 f
          (overwrite 4 t
             (overwrite 12 pd
                (overwrite 8 s
                   (overwrite 0 (Some <$> le_bytes 4 v) B0))))))
  = Some (v mod 2 ^ 32).
Proof.
  intros Hs Hpd Ht Hf HN.
  set (C0 := overwrite 0 (Some <$> le_bytes 4 v) B0).
  set (C1 := overwrite 8 s C0).
  set (C2 := overwrite 12 pd C1).
  set (C3 := overwrite 4 t C2).
  set (C4 := overwrite 6 f C3).
  assert (L0 : length C0 = length B0)
    by (unfold C0; rewrite length_overwrite; rewrite ?length_fmap, ?length_le_bytes; lia).
  assert (L1 : length C1 = length B0) by (unfold C1; rewrite length_overwrite; lia).
  assert (L2 : length C2 = length B0) by (unfold C2; rewrite length_overwrite; lia).
  assert (L3 : length C3 = length B0) by (unfold C3; rewrite length_overwrite; lia).
  assert (L4 : length C4 = length B0) by (unfold C4; rewrite length_overwrite; lia).
  rewrite field_overwrite_before by lia.
  unfold C4. rewrite field_overwrite_before by lia.
  unfold C3. rewrite field_overwrite_before by lia.
  unfold C2. rewrite field_overwrite_before by lia.
  unfold C1. rewrite field_overwrite_before by lia.
  unfold C0. rewrite field_set_field by lia. reflexivity.
Qed.

(** X12. Every return of [ecryptfs_send_netlink], whatever it was given:
    the heap is as it was found (the frame buffer is freed, the message
    untouched) and the queue of the socket is untouched; either the code
    is negative and nothing has left, or it is at least 16 and is the size
    of the one datagram that has left.  The precondition is that the
    allocator's next address is not in use. *)
Theorem send_leaves_heap_as_found sk emsg mtype mflags mseq w rc w' :
  heap w !! Z.pos (brk w) = None ->
  ecryptfs_send_netlink sk emsg mtype mflags mseq w = Done rc w' ->
  heap w' = heap w /\ inbox w' = inbox w
  /\ ((rc < 0 /\ outbox w' = outbox w)
      \/ (16 <= rc /\ exists f, outbox w' = outbox w ++ [f] /\ Z.of_nat (length f) = rc)).
Proof.
  intros Hfresh H. unfold ecryptfs_send_netlink in H. cbv zeta in H.
  apply bindM_inv in H as (pl & w1 & Hpl & H).
  assert (w1 = w /\ - 2 ^ 31 <= pl < 2 ^ 31) as [-> Hplr].
  { destruct (emsg =? NULL).
    - apply ret_inv in Hpl as [<- ->]. split; [reflexivity | lia].
    - apply bindM_inv in Hpl as (dl & w0 & Hld & Hpl).
      apply load_inv in Hld as [-> _]. apply ret_inv in Hpl as [<- ->].
      split; [reflexivity | apply to_int_range]. }
  clear Hpl.
  apply bindM_inv in H as (nl & w1 & Hs & H).
  unfold signed in Hs. case_decide as Hnl; [|discriminate Hs].
  apply ret_inv in Hs as [<- <-].
  unfold NLMSG_LENGTH in *. rewrite NLMSG_HDRLEN_16 in *.
  apply bindM_inv in H as (nlh & w1 & Hal & H).
  apply allocate_inv in Hal
    as [(-> & w0 & -> & Hh0 & Hq0 & _ & _ & Ho0) | (-> & Hsz & sc & ->)].
  - change (NULL =? NULL) with true in H. cbv iota in H.
    apply bindM_inv in H as (u & w2 & Hf & H).
    rewrite free_null in Hf. injection Hf as _ <-. apply ret_inv in H as [<- <-].
    world_simpl. split; [exact Hh0|]. split; [exact Hq0|].
    left. split; [unfold ENOMEM; lia | exact Ho0].
  - set (p := Z.pos (brk w)) in *.
    pose proof (NLMSG_ALIGN_range (pl + 16)) as HN.
    set (N := NLMSG_ALIGN (pl + 16)) in *.
    change (p =? NULL) with false in H. cbv iota in H.
    match type of H with bindM _ _ ?W = _ => set (w0 := W) in H end.
    assert (I0 : same_but p w w0).
    { unfold w0. split; [|split; reflexivity].
      intros a Ha. cbn. apply lookup_insert_ne. congruence. }
    assert (B0 : heap w0 !! p = Some (replicate (Z.to_nat N) None))
      by (unfold w0; world_simpl; apply lookup_insert_eq).
    clearbody w0.
    unfold off_nlmsg_len, off_nlmsg_seq, off_nlmsg_pid, off_nlmsg_type,
      off_nlmsg_flags in H.
    set (C0 := replicate (Z.to_nat N) (@None byte)) in B0.
    assert (L0 : length C0 = Z.to_nat N) by apply length_replicate.
    apply bindM_inv in H as (u1 & w1 & H1 & H).
    apply (store_step _ _ _ _ _ _ _ _ H1) in B0 as (F1 & B1 & I1). clear H1.
    match type of B1 with _ = Some ?b => set (C1 := b) in B1 end.
    assert (L1 : length C1 = Z.to_nat N)
      by (unfold C1; rewrite length_overwrite;
          rewrite ?length_fmap, ?length_le_bytes; lia).
    apply bindM_inv in H as (u2 & w2 & H2 & H).
    apply (store_step _ _ _ _ _ _ _ _ H2) in B1 as (F2 & B2 & I2). clear H2.
    match type of B2 with _ = Some ?b => set (C2 := b) in B2 end.
    assert (L2 : length C2 = Z.to_nat N)
      by (unfold C2; rewrite length_overwrite;
          rewrite ?length_fmap, ?length_le_bytes; lia).
    apply bindM_inv in H as (u3 & w3 & H3 & H).
    apply (store_step _ _ _ _ _ _ _ _ H3) in B2 as (F3 & B3 & I3). clear H3.
    match type of B3 with _ = Some ?b => set (C3 := b) in B3 end.
    assert (L3 : length C3 = Z.to_nat N)
      by (unfold C3; rewrite length_overwrite;
          rewrite ?length_fmap, ?length_le_bytes; lia).
    apply bindM_inv in H as (u4 & w4 & H4 & H).
    apply (store_step _ _ _ _ _ _ _ _ H4) in B3 as (F4 & B4 & I4). clear H4.
    match type of B4 with _ = Some ?b => set (C4 := b) in B4 end.
    assert (L4 : length C4 = Z.to_nat N)
      by (unfold C4; rewrite length_overwrite;
          rewrite ?length_fmap, ?length_le_bytes; lia).
    apply bindM_inv in H as (u5 & w5 & H5 & H).
    apply (store_step _ _ _ _ _ _ _ _ H5) in B4 as (F5 & B5 & I5). clear H5.
    match type of B5 with _ = Some ?b => set (C5 := b) in B5 end.
    assert (L5 : length C5 = Z.to_nat N)
      by (unfold C5; rewrite length_overwrite;
          rewrite ?length_fmap, ?length_le_bytes; lia).
    assert (J5 : same_but p w w5).
    { eapply same_but_trans; [exact I0|]. eapply same_but_trans; [exact I1|].
      eapply same_but_trans; [exact I2|]. eapply same_but_trans; [exact I3|].
      eapply same_but_trans; [exact I4|]. exact I5. }
    clear I0 I1 I2 I3 I4 I5.
    apply bindM_inv in H as (u6 & w6 & H6 & H).
    assert (Hfin : exists pc,
               0 <= pl /\ (16 + length pc <= Z.to_nat N)%nat
               /\ heap w6 !! p = Some (overwrite 16 pc C5)
               /\ same_but p w w6).
    { destruct (pl =? 0) eqn:Hz.
      - apply ret_inv in H6 as [_ <-]. apply Z.eqb_eq in Hz. exists [].
        split; [lia|]. split; [cbn [length]; lia|].
        split; [rewrite overwrite_nil; exact B5 | exact J5].
      - apply Z.eqb_neq in Hz.
        apply (memcpy_step _ _ _ _ _ _ _ _ _ H6) in B5 as (pc & Lpc & Fpc & B6 & I6).
        change (Z.to_nat NLMSG_DATA) with 16%nat in *.
        assert (Hpos : 0 <= pl).
        { destruct (Z_lt_dec pl 0) as [Hneg|]; [|lia]. exfalso.
          rewrite to_size_t_neg in Fpc by lia. lia. }
        exists pc. split; [exact Hpos|]. split; [lia|]. split; [exact B6|].
        eapply same_but_trans; eassumption. }
    clear H6 B5 J5.
    destruct Hfin as (pc & Hpos & Fpc & B6 & (Hh6 & Hq6 & Ho6)).
    apply bindM_inv in H as (len & w7 & Hld & H).
    apply load_inv in Hld as (-> & b & Hb & Hlen).
    rewrite B6 in Hb. injection Hb as <-.
    unfold off_nlmsg_len in Hlen. unfold C5, C4, C3, C2, C1 in Hlen.
    rewrite length_field_kept in Hlen
      by (rewrite ?length_fmap, ?length_le_bytes; lia).
    unfold INT_MAX in Hnl.
    assert (Elen : len = pl + 16).
    { injection Hlen as <-. rewrite to_u32_small by lia. apply Z.mod_small. lia. }
    clear Hlen. subst len.
    apply bindM_inv in H as (r & w8 & Hsend & H).
    apply sendto_inv in Hsend as (Hh8 & Hq8 & Hout).
    assert (Hend : forall rc0 w9,
              bindM (free p) (fun _ => ret rc0) w9 = Done rc w' ->
              heap w9 = heap w8 -> inbox w9 = inbox w8 -> outbox w9 = outbox w8 ->
              rc = rc0 /\ heap w' = heap w /\ inbox w' = inbox w /\ outbox w' = outbox w8).
    { intros rc0 w9 E Eh Eq Eo.
      apply bindM_inv in E as (u & w10 & Hf & E).
      apply free_inv in Hf; [|discriminate]. subst w10.
      apply ret_inv in E as [<- <-]. world_simpl.
      split; [reflexivity|]. split; [|split; congruence].
      apply map_eq. intros a. destruct (decide (a = p)) as [->|Ha].
      - rewrite lookup_delete_eq. symmetry. exact Hfresh.
      - rewrite lookup_delete_ne by congruence. rewrite Eh, Hh8. apply Hh6. exact Ha. }
    destruct Hout as [(-> & Ho8 & e & He) | (-> & f & Ho8 & Lf)].
    + change (to_int (-1) <? 0) with true in H. cbv iota in H.
      apply bindM_inv in H as (e' & w9 & Hge & H).
      unfold get_errno in Hge. injection Hge as <- <-.
      apply Hend in H as (-> & Hh & Hq & Ho); try reflexivity.
      split; [exact Hh|]. split; [exact Hq|]. left.
      rewrite He, neg_errno_int. pose proof (errno_val_range e).
      split; [lia | congruence].
    + rewrite to_int_small in H by lia.
      rewrite (proj2 (Z.ltb_ge _ _)) in H by lia.
      apply Hend in H as (-> & Hh & Hq & Ho); try reflexivity.
      split; [exact Hh|]. split; [exact Hq|]. right.
      split; [lia|]. exists f. split; [congruence | lia].
Qed.

Lemma send_leaves_heap_as_found_witness :
  let w := holding 100 (message 7 (byte_of <$> [75; 69; 89])) (quiet []) in
  exists w',
    ecryptfs_send_netlink 3 100 103 0 77 w = Done 27 w'
    /\ heap w' = heap w /\ inbox w' = inbox w
    /\ ((27 < 0 /\ outbox w' = outbox w)
        \/ (16 <= 27
            /\ exists f, outbox w' = outbox w ++ [f] /\ Z.of_nat (length f) = 27)).
Proof.
  intros w. eexists.
  assert (H : ecryptfs_send_netlink 3 100 103 0 77 w = Done 27 _)
    by (vm_compute; reflexivity).
  split; [exact H|].
  assert (Hfresh : heap w !! Z.pos (brk w) = None) by (vm_compute; reflexivity).
  exact (send_leaves_heap_as_found 3 100 103 0 77 w 27 _ Hfresh H).
Defined.


(** ** A frame taken apart *)

Lemma frame_parts (l t f s pd pl : list byte) :
  length l = 4%nat -> length t = 2%nat -> length f = 2%nat -> length s = 4%nat ->
  length pd = 4%nat ->
  let d := l ++ t ++ f ++ s ++ pd ++ pl in
  take 4 d = l /\ take 2 (drop 4 d) = t /\ take 4 (drop 8 d) = s /\ drop 16 d = pl
  /\ length d = (16 + length pl)%nat.
Proof.
  intros Hl Ht Hf Hs Hpd d. unfold d.
  split; [apply take_app_length'; congruence|].
  split.
  { rewrite drop_app_length' by congruence. apply take_app_length'. congruence. }
  split.
  { change 8%nat with (4 + (2 + 2))%nat. rewrite <- !drop_drop.
    rewrite drop_app_length' by congruence. rewrite drop_app_length' by congruence.
    rewrite drop_app_length' by congruence. apply take_app_length'. congruence. }
  split.
  { change 16%nat with (4 + (2 + (2 + (4 + 4))))%nat. rewrite <- !drop_drop.
    rewrite drop_app_length' by congruence. rewrite drop_app_length' by congruence.
    rewrite drop_app_length' by congruence. rewrite drop_app_length' by congruence.
    apply drop_app_length'. congruence. }
  rewrite !length_app. lia.
Qed.

(** ** The set-up of the socket *)

Section Setup.
Context `{Hdr : EcryptfsHeader}.

(** X14. When [socket] gives a descriptor other than 0,
    [ecryptfs_init_netlink] binds it to the netlink address whose port id
    is the process id and whose group mask is 0, and hands the descriptor
    back in [*sk_fd] in every case.  It returns 0 when [bind] succeeds;
    when [bind] fails it returns the negated [errno] of [bind], which is
    negative, and it has not closed the descriptor. *)
Theorem init_binds_own_pid w fd :
  sys_socket w = SysOk fd -> fd <> 0 ->
  let addr := {| nl_family := AF_NETLINK; nl_pid := sys_getpid w; nl_groups := 0 |} in
  exists rc w',
    ecryptfs_init_netlink w = Done (rc, fd) w'
    /\ (forall v, sys_bind w fd = SysOk v ->
        rc = 0
        /\ trace w' = trace w ++
             [CSocket PF_NETLINK SOCK_RAW NETLINK_ECRYPTFS fd; CBind fd addr 0])
    /\ (forall e, sys_bind w fd = SysFail e ->
        rc = - errno_val e /\ rc < 0 /\ errno w' = errno_val e
        /\ trace w' = trace w ++
             [CSocket PF_NETLINK SOCK_RAW NETLINK_ECRYPTFS fd; CBind fd addr (-1)]).
Proof.
  intros Hs Hfd addr. unfold ecryptfs_init_netlink.
  erewrite run_bind by (unfold socket; rewrite Hs; reflexivity).
  cbv beta. rewrite (proj2 (Z.eqb_neq _ _) Hfd).
  unfold getpid at 1, bindM at 1. world_simpl.
  unfold bind at 1, bindM at 1. world_simpl. fold addr.
  destruct (sys_bind w fd) as [v|e].
  - change (negb (0 =? 0)) with false. cbv iota.
    do 2 eexists. split; [reflexivity|]. split.
    + intros _ _. split; [reflexivity|]. world_simpl.
      rewrite <- app_assoc. reflexivity.
    + intros e E. discriminate E.
  - change (negb (-1 =? 0)) with true. cbv iota.
    unfold get_errno at 1, bindM at 1, ret. world_simpl.
    rewrite neg_errno_int.
    do 2 eexists. split; [reflexivity|]. split.
    + intros v E. discriminate E.
    + intros e' E. injection E as <-. world_simpl.
      pose proof (errno_val_range e).
      split; [reflexivity|]. split; [lia|]. split; [reflexivity|].
      rewrite <- app_assoc. reflexivity.
Qed.

End Setup.

Lemma init_binds_own_pid_witness :
  exists rc w',
    example_init (quiet []) = Done (rc, 3) w'
    /\ (forall v, sys_bind (quiet []) 3 = SysOk v ->
        rc = 0
        /\ trace w' = [CSocket PF_NETLINK SOCK_RAW 19 3;
                       CBind 3 {| nl_family := AF_NETLINK; nl_pid := 4242;
                                  nl_groups := 0 |} 0]).
Proof.
  assert (Hfd : 3 <> 0) by lia.
  destruct (@init_binds_own_pid example_header (quiet []) 3 eq_refl Hfd)
    as (rc & w' & H1 & H2 & _).
  exists rc, w'. split; [exact H1 | exact H2].
Defined.

(** ** Runs of the dispatch loop *)

Section Runs.
Context `{Hdr : EcryptfsHeader} `{KM : KeyModules}.

(** X15. The error count counts consecutive failures: a run of transport
    failures no longer than the threshold, then a handshake frame from the
    kernel, then another such run.  The handshake clears the count, so the
    loop is still running after all of them, and its count is the length
    of the second run alone. *)
Theorem helo_clears_error_count sk errs1 errs2 d src l w q :
  inbox w = (RecvErr <$> errs1) ++ Datagram d src sizeof_sockaddr_nl
                                   :: (RecvErr <$> errs2) ++ q ->
  alloc_script w = [] -> emsg l = NULL -> error_count l = 0 ->
  0 <= ECRYPTFS_NETLINK_ERROR_COUNT_THRESHOLD < INT_MAX ->
  Z.of_nat (length errs1) <= ECRYPTFS_NETLINK_ERROR_COUNT_THRESHOLD ->
  Z.of_nat (length errs2) <= ECRYPTFS_NETLINK_ERROR_COUNT_THRESHOLD ->
  nl_pid src = 0 -> (16 <= length d)%nat -> le_value (take 4 d) = 16 ->
  le_value (take 2 (drop 4 d)) = ECRYPTFS_NLMSG_HELO ->
  ECRYPTFS_NLMSG_HELO <> ECRYPTFS_NLMSG_REQUEST ->
  exists l' w',
    daemon_loop (length errs1 + (1 + length errs2)) sk l w = Done (GotoReceive l') w'
    /\ error_count l' = Z.of_nat (length errs2)
    /\ inbox w' = q.
Proof.
  intros Hq Ha He H0 HT H1 H2 Hpid Hd Elen Hty Hne.
  destruct (failures_continue sk errs1 l w _ Hq Ha He) as (w1 & Hloop1 & Hq1 & Ha1);
    try lia.
  rewrite (daemon_loop_app _ _ _ _ _ _ _ Hloop1).
  set (l1 := set_error_count (error_count l + Z.of_nat (length errs1)) l) in *.
  destruct (pass_header_only sk l1 w1 d src _ Hq1 Hpid Ha1 Hd Elen He)
    as (w2 & Hpass & Hq2 & Ha2 & _); [rewrite Hty; exact Hne|].
  cbv zeta in Hpass. rewrite Hty, Z.eqb_refl in Hpass.
  change (1 + length errs2)%nat with (S (length errs2)). cbn [daemon_loop].
  erewrite run_bind by exact Hpass. cbv beta iota.
  match type of Hpass with
  | _ = Done (GotoReceive ?L) _ => set (l2 := L) in *
  end.
  destruct (failures_continue sk errs2 l2 w2 q Hq2 Ha2) as (w3 & Hloop2 & Hq3 & _);
    try (unfold l2; cbn [set_error_count error_count emsg]; lia).
  rewrite Hloop2. do 2 eexists. split; [reflexivity|]. split; [|exact Hq3].
  unfold l2. cbn [set_error_count error_count]. lia.
Qed.

(** X16. The termination frame: when the key modules register and the
    first frame on the socket is a header-only [ECRYPTFS_NLMSG_QUIT] from
    the kernel, [ecryptfs_run_netlink_daemon] returns 0 after one receive;
    it sends nothing, leaves the rest of the queue unread, and its last
    call is [ecryptfs_free_key_mod_list]. *)
Theorem quit_ends_daemon fuel sk w d src q c :
  ecryptfs_register_key_modules ctx_zero = (0, c) ->
  inbox w = Datagram d src sizeof_sockaddr_nl :: q -> nl_pid src = 0 ->
  alloc_script w = [] -> (16 <= length d)%nat -> le_value (take 4 d) = 16 ->
  le_value (take 2 (drop 4 d)) = ECRYPTFS_NLMSG_QUIT ->
  ECRYPTFS_NLMSG_QUIT <> ECRYPTFS_NLMSG_HELO ->
  ECRYPTFS_NLMSG_QUIT <> ECRYPTFS_NLMSG_REQUEST ->
  let p := Z.pos (brk w) in
  exists w',
    ecryptfs_run_netlink_daemon (S fuel) sk w = Done (Returned 0) w'
    /\ inbox w' = q /\ outbox w' = outbox w
    /\ trace w' = trace w ++
         [CRegisterKeyModules 0;
          CRealloc NULL 16 p; CRecvfrom p 16 16 MSG_PEEK 16;
          CRealloc p 16 p; CRecvfrom p 16 16 0 16; CFree p; CFree NULL;
          CFreeKeyModList].
Proof.
  intros Hreg Hq Hpid Ha Hd Elen Hty Hne1 Hne2 p.
  set (l0 := {| emsg := NULL; ctx := c; msg_seq := None; msg_type := None;
                error_count := 0 |}).
  destruct (pass_header_only sk l0 (log_call (CRegisterKeyModules 0) w) d src q
              Hq Hpid Ha Hd Elen eq_refl)
    as (w1 & Hpass & Hq1 & _ & Ho1 & _ & _ & _ & _ & Ht1); [rewrite Hty; exact Hne2|].
  cbv zeta in Hpass. rewrite Hty in Hpass.
  rewrite (proj2 (Z.eqb_neq _ _) Hne1), Z.eqb_refl in Hpass.
  world_simpl in Ho1. world_simpl in Ht1. fold p in Ht1.
  unfold ecryptfs_run_netlink_daemon.
  unfold call_register_key_modules at 1, bindM at 1. rewrite Hreg.
  change (negb (0 =? 0)) with false. cbv iota.
  fold l0. cbn [daemon_loop].
  erewrite run_bind.
  2:{ erewrite run_bind by exact Hpass. reflexivity. }
  cbv beta iota.
  unfold call_free_key_mod_list at 1, bindM at 1, ret.
  eexists. split; [reflexivity|]. world_simpl.
  split; [exact Hq1|]. split; [exact Ho1|].
  rewrite Ht1, <- !app_assoc. reflexivity.
Qed.

(** X21. Every return of [ecryptfs_run_netlink_daemon]: its last call is
    [ecryptfs_free_key_mod_list], and its code is [-EIO], or 0, or the code
    other than 0 with which [ecryptfs_register_key_modules] failed; in
    that last case it has made no call besides those two and has touched
    neither the socket nor the heap. *)
Theorem daemon_exit_codes fuel sk w rc w' :
  ecryptfs_run_netlink_daemon fuel sk w = Done (Returned rc) w' ->
  (exists tr, trace w' = tr ++ [CFreeKeyModList])
  /\ (rc = - EIO \/ rc = 0
      \/ (rc = fst (ecryptfs_register_key_modules ctx_zero) /\ rc <> 0
          /\ trace w' = trace w ++ [CRegisterKeyModules rc; CFreeKeyModList]
          /\ inbox w' = inbox w /\ outbox w' = outbox w /\ heap w' = heap w)).
Proof.
  unfold ecryptfs_run_netlink_daemon. intros H.
  apply bindM_inv in H as ([rc0 c] & w1 & Hreg & H).
  unfold call_register_key_modules in Hreg.
  destruct (ecryptfs_register_key_modules ctx_zero) as [rc1 c1] eqn:Ereg.
  injection Hreg as -> -> <-.
  destruct (negb (rc0 =? 0)) eqn:Hz.
  - apply bindM_inv in H as (c2 & w2 & Hfree & H).
    unfold call_free_key_mod_list in Hfree. injection Hfree as _ <-.
    apply ret_inv in H as [E <-]. injection E as <-. world_simpl.
    split; [eexists; reflexivity|]. right; right. cbn [fst].
    split; [reflexivity|].
    split; [apply negb_true_iff, Z.eqb_neq in Hz; exact Hz|].
    split; [rewrite <- app_assoc; reflexivity|]. repeat split; reflexivity.
  - apply bindM_inv in H as (j & w2 & Hloop & H).
    destruct j as [rc1 l1|l1].
    + apply bindM_inv in H as (c2 & w3 & Hfree & H).
      unfold call_free_key_mod_list in Hfree. injection Hfree as _ <-.
      apply ret_inv in H as [E <-]. injection E as <-. world_simpl.
      split; [eexists; reflexivity|].
      destruct (loop_exit _ _ _ _ _ _ _ Hloop) as [(? & _)|(? & _)]; tauto.
    + apply ret_inv in H as [E _]. discriminate E.
Qed.

End Runs.

Lemma helo_clears_error_count_witness :
  let w := quiet ((RecvErr <$> replicate 8 E_IO)
                  ++ Datagram example_helo kernel 12
                     :: (RecvErr <$> replicate 8 E_AGAIN) ++ []) in
  exists l' w',
    example_loop 17 3 start w = Done (GotoReceive l') w'
    /\ error_count l' = 8 /\ inbox w' = [].
Proof.
  intros w.
  assert (HT : 0 <= @ECRYPTFS_NETLINK_ERROR_COUNT_THRESHOLD example_header < INT_MAX)
    by (vm_compute; split; [discriminate | reflexivity]).
  assert (H1 : Z.of_nat (length (replicate 8 E_IO))
               <= @ECRYPTFS_NETLINK_ERROR_COUNT_THRESHOLD example_header)
    by (vm_compute; discriminate).
  assert (H2 : Z.of_nat (length (replicate 8 E_AGAIN))
               <= @ECRYPTFS_NETLINK_ERROR_COUNT_THRESHOLD example_header)
    by (vm_compute; discriminate).
  assert (Hd : (16 <= length example_helo)%nat) by (vm_compute; lia).
  assert (Hne : @ECRYPTFS_NLMSG_HELO example_header
                <> @ECRYPTFS_NLMSG_REQUEST example_header) by discriminate.
  exact (@helo_clears_error_count example_header example_key_modules 3
           (replicate 8 E_IO) (replicate 8 E_AGAIN) example_helo kernel start w []
           eq_refl eq_refl eq_refl eq_refl HT H1 H2 eq_refl Hd eq_refl eq_refl Hne).
Defined.

Lemma quit_ends_daemon_witness :
  exists w',
    example_daemon 1 3
      (quiet [Datagram example_quit kernel 12; Datagram example_request kernel 12])
    = Done (Returned 0) w'
    /\ inbox w' = [Datagram example_request kernel 12] /\ outbox w' = [].
Proof.
  assert (Hd : (16 <= length example_quit)%nat) by (vm_compute; lia).
  assert (Hne1 : @ECRYPTFS_NLMSG_QUIT example_header
                 <> @ECRYPTFS_NLMSG_HELO example_header) by discriminate.
  assert (Hne2 : @ECRYPTFS_NLMSG_QUIT example_header
                 <> @ECRYPTFS_NLMSG_REQUEST example_header) by discriminate.
  destruct (@quit_ends_daemon example_header example_key_modules 0 3
              (quiet [Datagram example_quit kernel 12; Datagram example_request kernel 12])
              example_quit kernel [Datagram example_request kernel 12] tt
              eq_refl eq_refl eq_refl eq_refl Hd eq_refl eq_refl Hne1 Hne2)
    as (w' & H1 & H2 & H3 & _).
  exists w'. split; [exact H1|]. split; [exact H2 | exact H3].
Defined.

Lemma daemon_exit_codes_witness :
  exists w',
    example_daemon 100 3 (quiet (replicate 9 (RecvErr E_IO))) = Done (Returned (- EIO)) w'
    /\ (exists tr, trace w' = tr ++ [CFreeKeyModList]).
Proof.
  eexists.
  assert (H : example_daemon 100 3 (quiet (replicate 9 (RecvErr E_IO)))
              = Done (Returned (- EIO)) _) by (vm_compute; reflexivity).
  split; [exact H|].
  exact (proj1 (@daemon_exit_codes example_header example_key_modules 100 3 _ _ _ H)).
Defined.

(** ** The receiver *)

(** X1. A frame from the kernel that declares a payload and carries at
    least its header is received in two reads; the call returns the number
    of bytes read, [*emsg] is a fresh block of the declared length minus
    the header length that holds the payload bytes that arrived, followed
    by indeterminate cells where the frame declared more than it carried;
    [*msg_seq] and [*msg_type] are the fields of the header.  The frame
    buffer is freed, no other block is touched, and the datagram is off
    the queue. *)
Theorem recv_delivers_payload sk em s t w d src q :
  inbox w = Datagram d src sizeof_sockaddr_nl :: q -> alloc_script w = [] ->
  nl_pid src = 0 -> (16 <= length d)%nat ->
  16 < le_value (take 4 d) <= INT_MAX ->
  let len := le_value (take 4 d) in
  let n := Z.min len (Z.of_nat (length d)) in
  let p := Z.pos (brk w) in
  let m := Z.pos (brk w + 1) in
  exists w',
    ecryptfs_recv_netlink sk em s t w
    = Done (n, m, Some (to_int (le_value (take 4 (drop 8 d)))),
            Some (le_value (take 2 (drop 4 d)))) w'
    /\ heap w' !! m = Some ((Some <$> take (Z.to_nat (n - 16)) (drop 16 d))
                            ++ replicate (Z.to_nat (len - n)) None)
    /\ heap w' !! p = None
    /\ (forall a, a <> p -> a <> m -> heap w' !! a = heap w !! a)
    /\ inbox w' = q /\ outbox w' = outbox w.
Proof.
  intros Hq Ha Hpid Hd HL len n p m.
  destruct (recv_payload_run sk em s t w d src q Hq Ha Hpid Hd HL)
    as (w' & H1 & H2 & H3 & H4 & H5 & H6 & _).
  exists w'. repeat (split; [assumption|]). assumption.
Qed.

Lemma recv_delivers_payload_witness :
  exists w',
    ecryptfs_recv_netlink 3 NULL None None (quiet [Datagram example_request kernel 12])
    = Done (27, 2, Some 77, Some 102) w'
    /\ heap w' !! 2 = Some (Some <$> message 7 (byte_of <$> [71; 69; 84]))
    /\ heap w' !! 1 = None.
Proof.
  destruct (recv_delivers_payload 3 NULL None None
              (quiet [Datagram example_request kernel 12]) example_request kernel []
              eq_refl eq_refl eq_refl
              ltac:(vm_compute; lia)
              ltac:(vm_compute; split; [reflexivity | discriminate]))
    as (w' & H1 & H2 & H3 & _).
  exists w'. split; [exact H1|]. split; [exact H2 | exact H3].
Defined.

(** X2. A frame from the kernel that is a header and nothing else: the
    call returns 16 and sets [*msg_seq] and [*msg_type]; [*emsg] is not
    assigned and comes back as it was passed in, whatever it was; the
    frame buffer is freed and no block is left behind. *)
Theorem recv_header_only_keeps_emsg sk em s t w d src q :
  inbox w = Datagram d src sizeof_sockaddr_nl :: q -> alloc_script w = [] ->
  nl_pid src = 0 -> (16 <= length d)%nat -> le_value (take 4 d) = 16 ->
  let p := Z.pos (brk w) in
  exists w',
    ecryptfs_recv_netlink sk em s t w
    = Done (16, em, Some (to_int (le_value (take 4 (drop 8 d)))),
            Some (le_value (take 2 (drop 4 d)))) w'
    /\ heap w' !! p = None
    /\ (forall a, a <> p -> heap w' !! a = heap w !! a)
    /\ inbox w' = q /\ outbox w' = outbox w
    /\ trace w' = trace w ++
         [CRealloc NULL 16 p; CRecvfrom p 16 16 MSG_PEEK 16;
          CRealloc p 16 p; CRecvfrom p 16 16 0 16; CFree p].
Proof.
  intros Hq Ha Hpid Hd Elen p.
  destruct (recv_empty_run sk em s t w d src q Hq Ha Hpid Hd Elen)
    as (w' & H1 & H2 & H3 & H4 & H5 & _ & _ & _ & H9).
  exists w'. repeat (split; [assumption|]). assumption.
Qed.

Lemma recv_header_only_keeps_emsg_witness :
  exists w',
    ecryptfs_recv_netlink 3 4711 None None (quiet [Datagram example_helo kernel 12])
    = Done (16, 4711, Some 78, Some 100) w'
    /\ heap w' !! 1 = None.
Proof.
  destruct (recv_header_only_keeps_emsg 3 4711 None None
              (quiet [Datagram example_helo kernel 12]) example_helo kernel []
              eq_refl eq_refl eq_refl ltac:(vm_compute; lia) eq_refl)
    as (w' & H1 & H2 & _).
  exists w'. split; [exact H1 | exact H2].
Defined.

(** ** The sender *)

(** X8. The frame that [ecryptfs_send_netlink] sends for a message whose
    [data_len] is [dl]: a header that declares [24 + dl] bytes and carries
    the type, the flags and the sequence number given and the port id 0,
    followed by the first [8 + dl] bytes of the message.  The call returns
    the size of the frame, the frame buffer is freed, and no other block is
    touched. *)
Theorem send_frame_layout sk reply mtype mflags mseq w rb dl pl :
  heap w !! reply = Some rb -> reply <> NULL -> reply <> Z.pos (brk w) ->
  field off_data_len 4 rb = Some dl ->
  sizeof_emsg + dl <= Z.of_nat (length rb) -> dl + 27 <= INT_MAX ->
  range 0 (Z.to_nat (sizeof_emsg + dl)) rb = Some <$> pl ->
  alloc_script w = [] -> send_script w = [] ->
  let nlh := Z.pos (brk w) in
  exists w',
    ecryptfs_send_netlink sk reply mtype mflags mseq w = Done (24 + dl) w'
    /\ outbox w' = outbox w ++
         [Some <$> (le_bytes 4 (to_u32 (24 + dl)) ++ le_bytes 2 (to_u16 mtype)
                    ++ le_bytes 2 (to_u16 mflags) ++ le_bytes 4 (to_u32 mseq)
                    ++ le_bytes 4 0 ++ pl)]
    /\ Z.of_nat (length pl) = sizeof_emsg + dl
    /\ heap w' !! nlh = None
    /\ (forall a, a <> nlh -> heap w' !! a = heap w !! a)
    /\ inbox w' = inbox w
    /\ trace w' = trace w ++
         [CMalloc (NLMSG_ALIGN (24 + dl)) nlh; CSendto nlh (24 + dl) (24 + dl); CFree nlh].
Proof.
  intros Hb Hp Hfresh Hdl Hrb Hmax Hpl Ha Hs nlh.
  destruct (send_message_run sk reply mtype mflags mseq w rb dl pl
              Hb Hp Hfresh Hdl Hrb Hmax Hpl Ha Hs)
    as (w' & H1 & H2 & H3 & H4 & H5 & H6 & _ & _ & _ & H10).
  exists w'. repeat (split; [assumption|]). assumption.
Qed.

Lemma send_frame_layout_witness :
  exists w',
    ecryptfs_send_netlink 3 100 103 0 77
      (holding 100 (message 7 (byte_of <$> [75; 69; 89])) (quiet []))
    = Done 27 w'
    /\ outbox w' = [Some <$> frame 103 77 (message 7 (byte_of <$> [75; 69; 89]))]
    /\ heap w' !! 1 = None.
Proof.
  assert (Hb : heap (holding 100 (message 7 (byte_of <$> [75; 69; 89])) (quiet []))
               !! 100 = Some (Some <$> message 7 (byte_of <$> [75; 69; 89])))
    by (vm_compute; reflexivity).
  assert (Hp : 100 <> NULL) by (unfold NULL; lia).
  assert (Hfresh : 100 <> Z.pos (brk (holding 100 (message 7 (byte_of <$> [75; 69; 89]))
                                        (quiet [])))) by (cbn; lia).
  assert (Hdl : field off_data_len 4 (Some <$> message 7 (byte_of <$> [75; 69; 89]))
                = Some 3) by (vm_compute; reflexivity).
  assert (Hrb : sizeof_emsg + 3
                <= Z.of_nat (length (Some <$> message 7 (byte_of <$> [75; 69; 89]))))
    by (vm_compute; discriminate).
  assert (Hmax : 3 + 27 <= INT_MAX) by (unfold INT_MAX; lia).
  assert (Hpl : range 0 (Z.to_nat (sizeof_emsg + 3))
                  (Some <$> message 7 (byte_of <$> [75; 69; 89]))
                = Some <$> message 7 (byte_of <$> [75; 69; 89]))
    by (vm_compute; reflexivity).
  destruct (send_frame_layout 3 100 103 0 77 _ _ 3 _ Hb Hp Hfresh Hdl Hrb Hmax Hpl
              eq_refl eq_refl)
    as (w' & H1 & H2 & _ & H4 & _).
  exists w'. split; [exact H1|]. split; [exact H2 | exact H4].
Defined.

(** X10. When [sendto] fails, [ecryptfs_send_netlink] returns the negated
    [errno] that [sendto] left; nothing has left, the frame buffer is freed
    and no other block is touched. *)
Theorem send_reports_sendto_failure sk reply mtype mflags mseq w rb dl e sc :
  heap w !! reply = Some rb -> reply <> NULL -> reply <> Z.pos (brk w) ->
  field off_data_len 4 rb = Some dl ->
  sizeof_emsg + dl <= Z.of_nat (length rb) -> dl + 27 <= INT_MAX ->
  alloc_script w = [] -> send_script w = Some e :: sc ->
  let nlh := Z.pos (brk w) in
  exists w',
    ecryptfs_send_netlink sk reply mtype mflags mseq w = Done (- errno_val e) w'
    /\ outbox w' = outbox w
    /\ heap w' !! nlh = None
    /\ (forall a, a <> nlh -> heap w' !! a = heap w !! a)
    /\ inbox w' = inbox w /\ send_script w' = sc
    /\ trace w' = trace w ++
         [CMalloc (NLMSG_ALIGN (24 + dl)) nlh; CSendto nlh (24 + dl) (-1); CFree nlh].
Proof.
  intros Hb Hp Hfresh Hdl Hrb Hmax Ha Hs nlh.
  destruct (send_fails_run sk reply mtype mflags mseq w rb dl e sc
              Hb Hp Hfresh Hdl Hrb Hmax Ha Hs)
    as (w' & H1 & H2 & H3 & H4 & H5 & _ & H7 & _ & H9).
  exists w'. repeat (split; [assumption|]). assumption.
Qed.

Lemma send_reports_sendto_failure_witness :
  exists w',
    ecryptfs_send_netlink 3 100 103 0 77
      (with_send_script [Some E_CONNREFUSED]
         (holding 100 (message 7 (byte_of <$> [75; 69; 89])) (quiet [])))
    = Done (-111) w'
    /\ outbox w' = [] /\ heap w' !! 1 = None.
Proof.
  assert (Hb : heap (with_send_script [Some E_CONNREFUSED]
                       (holding 100 (message 7 (byte_of <$> [75; 69; 89])) (quiet [])))
               !! 100 = Some (Some <$> message 7 (byte_of <$> [75; 69; 89])))
    by (vm_compute; reflexivity).
  assert (Hp : 100 <> NULL) by (unfold NULL; lia).
  assert (Hfresh : 100 <> Z.pos (brk (with_send_script [Some E_CONNREFUSED]
                                        (holding 100 (message 7 (byte_of <$> [75; 69; 89]))
                                           (quiet []))))) by (cbn; lia).
  assert (Hdl : field off_data_len 4 (Some <$> message 7 (byte_of <$> [75; 69; 89]))
                = Some 3) by (vm_compute; reflexivity).
  assert (Hrb : sizeof_emsg + 3
                <= Z.of_nat (length (Some <$> message 7 (byte_of <$> [75; 69; 89]))))
    by (vm_compute; discriminate).
  assert (Hmax : 3 + 27 <= INT_MAX) by (unfold INT_MAX; lia).
  destruct (send_reports_sendto_failure 3 100 103 0 77 _ _ 3 E_CONNREFUSED []
              Hb Hp Hfresh Hdl Hrb Hmax eq_refl eq_refl)
    as (w' & H1 & H2 & H3 & _).
  exists w'. split; [exact H1|]. split; [exact H2 | exact H3].
Defined.

(** X13. Round trip.  The datagram that [ecryptfs_send_netlink] sends for
    a message, delivered from a sender with port id 0 to any socket on
    which [ecryptfs_recv_netlink] is called, comes back as that message:
    the receive returns the size of the frame, [*emsg] is a fresh block
    holding the [8 + dl] bytes that were sent, and [*msg_seq] and
    [*msg_type] are the sequence number and the type that were given to
    the sender (as 32-bit and 16-bit values). *)
Theorem send_recv_round_trip sk reply mtype mflags mseq w rb dl pl :
  heap w !! reply = Some rb -> reply <> NULL -> reply <> Z.pos (brk w) ->
  field off_data_len 4 rb = Some dl ->
  sizeof_emsg + dl <= Z.of_nat (length rb) -> dl + 27 <= INT_MAX ->
  range 0 (Z.to_nat (sizeof_emsg + dl)) rb = Some <$> pl ->
  alloc_script w = [] -> send_script w = [] ->
  exists d w1,
    ecryptfs_send_netlink sk reply mtype mflags mseq w = Done (24 + dl) w1
    /\ outbox w1 = outbox w ++ [Some <$> d]
    /\ forall sk' em s t w2 src q,
         inbox w2 = Datagram d src sizeof_sockaddr_nl :: q -> nl_pid src = 0 ->
         alloc_script w2 = [] ->
         exists w3,
           ecryptfs_recv_netlink sk' em s t w2
           = Done (24 + dl, Z.pos (brk w2 + 1),
                   Some (to_int (to_u32 mseq)), Some (to_u16 mtype)) w3
           /\ heap w3 !! Z.pos (brk w2 + 1) = Some (Some <$> pl)
           /\ inbox w3 = q.
Proof.
  intros Hb Hp Hfresh Hdl Hrb Hmax Hpl Ha Hs.
  destruct (send_message_run sk reply mtype mflags mseq w rb dl pl
              Hb Hp Hfresh Hdl Hrb Hmax Hpl Ha Hs)
    as (w1 & H1 & H2 & Lpl & _).
  pose proof (field_range_of _ _ _ _ Hdl) as Hdl0.
  unfold sizeof_emsg, INT_MAX in *.
  set (d := le_bytes 4 (to_u32 (24 + dl)) ++ le_bytes 2 (to_u16 mtype)
            ++ le_bytes 2 (to_u16 mflags) ++ le_bytes 4 (to_u32 mseq)
            ++ le_bytes 4 0 ++ pl) in *.
  exists d, w1. split; [exact H1|]. split; [exact H2|].
  intros sk' em s t w2 src q Hq Hpid Ha2.
  destruct (frame_parts (le_bytes 4 (to_u32 (24 + dl))) (le_bytes 2 (to_u16 mtype))
              (le_bytes 2 (to_u16 mflags)) (le_bytes 4 (to_u32 mseq)) (le_bytes 4 0) pl)
    as (P1 & P2 & P3 & P4 & P5); try apply length_le_bytes.
  fold d in P1, P2, P3, P4, P5.
  assert (Elen : le_value (take 4 d) = 24 + dl).
  { rewrite P1, le_value_bytes. change (256 ^ Z.of_nat 4) with (2 ^ 32).
    rewrite to_u32_small by lia. apply Z.mod_small. lia. }
  assert (Eseq : le_value (take 4 (drop 8 d)) = to_u32 mseq).
  { rewrite P3, le_value_bytes. change (256 ^ Z.of_nat 4) with (2 ^ 32).
    unfold to_u32, wrap_unsigned. apply Z.mod_mod. lia. }
  assert (Ety : le_value (take 2 (drop 4 d)) = to_u16 mtype).
  { rewrite P2, le_value_bytes. change (256 ^ Z.of_nat 2) with (2 ^ 16).
    unfold to_u16, wrap_unsigned. apply Z.mod_mod. lia. }
  destruct (recv_payload_run sk' em s t w2 d src q Hq Ha2 Hpid) as (w3 & R1 & R2 & _ & _ & R5 & _);
    [lia | rewrite Elen; unfold INT_MAX; lia |].
  rewrite Elen, Eseq, Ety in R1. rewrite Elen in R2.
  replace (Z.min (24 + dl) (Z.of_nat (length d))) with (24 + dl) in R1, R2 by lia.
  exists w3. split; [exact R1|]. split; [|exact R5].
  rewrite R2. f_equal. rewrite P4.
  replace (Z.to_nat (24 + dl - 16)) with (length pl) by lia.
  rewrite take_ge by lia.
  replace (Z.to_nat (24 + dl - (24 + dl))) with 0%nat by lia.
  apply app_nil_r.
Qed.

Lemma send_recv_round_trip_witness :
  exists w1,
    ecryptfs_send_netlink 3 100 103 0 77
      (holding 100 (message 7 (byte_of <$> [75; 69; 89])) (quiet []))
    = Done 27 w1
    /\ exists d w3,
         outbox w1 = [Some <$> d]
         /\ ecryptfs_recv_netlink 4 NULL None None (quiet [Datagram d kernel 12])
            = Done (27, 2, Some 77, Some 103) w3
         /\ heap w3 !! 2 = Some (Some <$> message 7 (byte_of <$> [75; 69; 89])).
Proof.
  assert (Hb : heap (holding 100 (message 7 (byte_of <$> [75; 69; 89])) (quiet []))
               !! 100 = Some (Some <$> message 7 (byte_of <$> [75; 69; 89])))
    by (vm_compute; reflexivity).
  assert (Hp : 100 <> NULL) by (unfold NULL; lia).
  assert (Hfresh : 100 <> Z.pos (brk (holding 100 (message 7 (byte_of <$> [75; 69; 89]))
                                        (quiet [])))) by (cbn; lia).
  assert (Hdl : field off_data_len 4 (Some <$> message 7 (byte_of <$> [75; 69; 89]))
                = Some 3) by (vm_compute; reflexivity).
  assert (Hrb : sizeof_emsg + 3
                <= Z.of_nat (length (Some <$> message 7 (byte_of <$> [75; 69; 89]))))
    by (vm_compute; discriminate).
  assert (Hmax : 3 + 27 <= INT_MAX) by (unfold INT_MAX; lia).
  assert (Hpl : range 0 (Z.to_nat (sizeof_emsg + 3))
                  (Some <$> message 7 (byte_of <$> [75; 69; 89]))
                = Some <$> message 7 (byte_of <$> [75; 69; 89]))
    by (vm_compute; reflexivity).
  destruct (send_recv_round_trip 3 100 103 0 77 _ _ 3 _ Hb Hp Hfresh Hdl Hrb Hmax Hpl
              eq_refl eq_refl)
    as (d & w1 & H1 & H2 & Hback).
  destruct (Hback 4 NULL None None (quiet [Datagram d kernel 12]) kernel []
              eq_refl eq_refl eq_refl) as (w3 & R1 & R2 & _).
  exists w1. split; [exact H1|]. exists d, w3.
  split; [exact H2|]. split; [exact R1 | exact R2].
Defined.

(** ** The dispatch loop *)

Section Unknown.
Context `{Hdr : EcryptfsHeader} `{KM : KeyModules}.

(** X17. A header-only frame from the kernel whose type is none of
    [ECRYPTFS_NLMSG_HELO], [ECRYPTFS_NLMSG_QUIT] and
    [ECRYPTFS_NLMSG_REQUEST] is dropped: the loop goes on, nothing is sent,
    the error count is neither raised nor cleared, and no block is left
    behind.  The precondition [emsg l = NULL] says that no message pointer
    is held from an earlier pass. *)
Theorem unknown_type_is_ignored sk l w d src q :
  inbox w = Datagram d src sizeof_sockaddr_nl :: q -> nl_pid src = 0 ->
  alloc_script w = [] -> (16 <= length d)%nat -> le_value (take 4 d) = 16 ->
  emsg l = NULL ->
  le_value (take 2 (drop 4 d)) <> ECRYPTFS_NLMSG_HELO ->
  le_value (take 2 (drop 4 d)) <> ECRYPTFS_NLMSG_QUIT ->
  le_value (take 2 (drop 4 d)) <> ECRYPTFS_NLMSG_REQUEST ->
  exists l' w',
    daemon_pass sk l w = Done (GotoReceive l') w'
    /\ error_count l' = error_count l
    /\ msg_type l' = Some (le_value (take 2 (drop 4 d)))
    /\ emsg l' = NULL
    /\ outbox w' = outbox w /\ inbox w' = q
    /\ heap w' !! Z.pos (brk w) = None
    /\ (forall a, a <> Z.pos (brk w) -> heap w' !! a = heap w !! a).
Proof.
  intros Hq Hpid Ha Hd Elen He Hn1 Hn2 Hn3.
  destruct (pass_header_only sk l w d src q Hq Hpid Ha Hd Elen He Hn3)
    as (w' & Hpass & Hq' & _ & Ho & _ & Hp & Hheap & _).
  cbv zeta in Hpass.
  rewrite (proj2 (Z.eqb_neq _ _) Hn1), (proj2 (Z.eqb_neq _ _) Hn2) in Hpass.
  do 2 eexists. split; [exact Hpass|]. cbn [error_count msg_type emsg].
  repeat (split; [first [reflexivity | assumption]|]). assumption.
Qed.

End Unknown.

Lemma unknown_type_is_ignored_witness :
  exists l' w',
    example_pass 3 (set_error_count 5 start) (quiet [Datagram example_unknown kernel 12])
    = Done (GotoReceive l') w'
    /\ error_count l' = 5 /\ msg_type l' = Some 999 /\ outbox w' = [].
Proof.
  assert (Hd : (16 <= length example_unknown)%nat) by (vm_compute; lia).
  assert (Hn1 : le_value (take 2 (drop 4 example_unknown))
                <> @ECRYPTFS_NLMSG_HELO example_header) by (vm_compute; discriminate).
  assert (Hn2 : le_value (take 2 (drop 4 example_unknown))
                <> @ECRYPTFS_NLMSG_QUIT example_header) by (vm_compute; discriminate).
  assert (Hn3 : le_value (take 2 (drop 4 example_unknown))
                <> @ECRYPTFS_NLMSG_REQUEST example_header) by (vm_compute; discriminate).
  destruct (@unknown_type_is_ignored example_header example_key_modules 3
              (set_error_count 5 start) (quiet [Datagram example_unknown kernel 12])
              example_unknown kernel [] eq_refl eq_refl eq_refl Hd eq_refl eq_refl
              Hn1 Hn2 Hn3)
    as (l' & w' & H1 & H2 & H3 & _ & H5 & _).
  exists l', w'. split; [exact H1|]. split; [exact H2|]. split; [exact H3 | exact H5].
Defined.

(** ** The receiver, whatever it is given *)

Lemma allocate_wire size entry w p w1 :
  allocate size entry w = Done p w1 ->
  outbox w1 = outbox w /\ inbox w1 = inbox w /\ send_script w1 = send_script w.
Proof. unfold allocate. intros H. crunch H; subst; repeat split; reflexivity. Qed.

Lemma realloc_wire ptr size w p w1 :
  realloc ptr size w = Done p w1 ->
  outbox w1 = outbox w /\ inbox w1 = inbox w /\ send_script w1 = send_script w.
Proof.
  unfold realloc. destruct (ptr =? NULL); [apply allocate_wire|].
  intros H. crunch H; subst; repeat split; reflexivity.
Qed.

Lemma free_wire ptr w u w1 :
  free ptr w = Done u w1 ->
  outbox w1 = outbox w /\ inbox w1 = inbox w /\ send_script w1 = send_script w.
Proof. unfold free. intros H. crunch H; subst; repeat split; reflexivity. Qed.

Lemma load_wire ptr off n w v w1 : load ptr off n w = Done v w1 -> w1 = w.
Proof. intros H. apply load_inv in H as [-> _]. reflexivity. Qed.

Lemma memcpy_wire dst doff src soff n w u w1 :
  memcpy dst doff src soff n w = Done u w1 ->
  outbox w1 = outbox w /\ inbox w1 = inbox w /\ send_script w1 = send_script w.
Proof.
  intros H. apply memcpy_inv in H as (? & ? & _ & _ & _ & _ & ->).
  repeat split; reflexivity.
Qed.

Lemma recvfrom_wire sk buf len flags w n from w1 :
  recvfrom sk buf len flags w = Done (n, from) w1 ->
  outbox w1 = outbox w /\ send_script w1 = send_script w
  /\ ((n = -1 /\ inbox w1 = tail (inbox w))
      \/ inbox w1 = if Z.land flags MSG_PEEK =? 0 then tail (inbox w) else inbox w).
Proof.
  unfold recvfrom. intros H.
  destruct (heap w !! buf) as [b|]; [|discriminate].
  destruct (inbox w) as [|[d src slen|e] q] eqn:Hq; [discriminate| |].
  - unfold blit in H. case_decide; [|discriminate]. injection H as <- _ <-.
    world_simpl. split; [reflexivity|]. split; [reflexivity|].
    right. reflexivity.
  - injection H as <- _ <-. world_simpl. split; [reflexivity|]. split; [reflexivity|].
    left. split; reflexivity.
Qed.

Lemma rvalue_wire {A} (x : option A) w a w1 : rvalue x w = Done a w1 -> w1 = w.
Proof. destruct x; cbn; intros H; [apply ret_inv in H as [_ ->]; reflexivity | discriminate H]. Qed.

(** X22. Every return of [ecryptfs_recv_netlink], whatever it was given:
    it has sent nothing, and the queue of the socket is either as it was or
    has lost its head, never more. *)
Theorem recv_takes_at_most_one sk em s t w r w' :
  ecryptfs_recv_netlink sk em s t w = Done r w' ->
  outbox w' = outbox w /\ send_script w' = send_script w
  /\ (inbox w' = inbox w \/ inbox w' = tail (inbox w)).
Proof.
  unfold ecryptfs_recv_netlink, receive. intros H.
  minv H.
  all: repeat match goal with
         | E : realloc _ _ _ = Done _ _ |- _ => apply realloc_wire in E as (? & ? & ?)
         | E : allocate _ _ _ = Done _ _ |- _ => apply allocate_wire in E as (? & ? & ?)
         | E : malloc _ _ = Done _ _ |- _ => apply allocate_wire in E as (? & ? & ?)
         | E : free _ _ = Done _ _ |- _ => apply free_wire in E as (? & ? & ?)
         | E : memcpy _ _ _ _ _ _ = Done _ _ |- _ => apply memcpy_wire in E as (? & ? & ?)
         | E : load _ _ _ _ = Done _ _ |- _ => apply load_wire in E
         | E : rvalue _ _ = Done _ _ |- _ => apply rvalue_wire in E
         | E : recvfrom _ _ _ _ _ = Done _ _ |- _ => apply recvfrom_wire in E as (? & ? & ?)
         end.
  all: subst.
  all: change (Z.land MSG_PEEK MSG_PEEK =? 0) with false in *.
  all: change (Z.land (Z.land MSG_PEEK (Z.lnot MSG_PEEK)) MSG_PEEK =? 0) with true in *.
  all: cbv iota in *.
  all: repeat match goal with
         | E : _ /\ _ |- _ => destruct E
         | E : _ \/ _ |- _ => destruct E
         end.
  all: subst.
  all: try match goal with
         | E : (to_int (-1) <? 0) = false |- _ => discriminate E
         end.
  all: (split; [congruence|]); (split; [congruence|]).
  all: first [left; congruence | right; congruence].
Qed.


Lemma recv_takes_at_most_one_witness :
  let w := quiet [Datagram example_request kernel 12; Datagram example_helo kernel 12] in
  exists r w',
    ecryptfs_recv_netlink 3 NULL None None w = Done r w'
    /\ outbox w' = outbox w /\ send_script w' = send_script w
    /\ (inbox w' = inbox w \/ inbox w' = tail (inbox w)).
Proof.
  intros w. do 2 eexists.
  assert (H : ecryptfs_recv_netlink 3 NULL None None w = Done _ _)
    by (vm_compute; reflexivity).
  split; [exact H|].
  exact (recv_takes_at_most_one 3 NULL None None w _ _ H).
Defined.

(** ** The sizes of the receive buffers *)

(** C8.  With a datagram at the head of the queue, every return of
    [ecryptfs_recv_netlink] has made its calls in one of three shapes: the
    first [realloc] failed; or the header was peeked into a 16-byte buffer
    and the [realloc] to the declared length failed; or the header was
    peeked, the buffer was resized to exactly the declared length [len]
    and, next, the destructive read asked for [len] bytes into that buffer
    of [len] bytes.  After that read nothing is read again, and a payload
    buffer, where one is obtained, has exactly [len - 16] bytes.  And the
    frame is received: for a frame from the kernel that carries its header,
    with no allocation failing, the call returns after exactly these
    calls, with a payload block of [len - 16] bytes when [len] exceeds the
    header length and with no payload block when [len] is the header
    length. *)
Theorem recv_buffer_sizes sk em s t w d src slen q :
  inbox w = Datagram d src slen :: q ->
  let len := le_value (take 4 d) in
  let p := Z.pos (brk w) in
  let m := Z.pos (brk w + 1) in
  (forall r w',
     ecryptfs_recv_netlink sk em s t w = Done r w' ->
     exists calls,
       trace w' = trace w ++ calls
       /\ (calls = [CRealloc NULL 16 NULL]
           \/ (exists n1,
                 calls = [CRealloc NULL 16 p; CRecvfrom p 16 16 MSG_PEEK n1;
                          CRealloc p (to_size_t (to_int len)) NULL])
           \/ (exists n1 n2 rest,
                 0 < len <= INT_MAX
                 /\ calls = [CRealloc NULL 16 p; CRecvfrom p 16 16 MSG_PEEK n1;
                             CRealloc p len p; CRecvfrom p (Z.to_nat len) len 0 n2]
                            ++ rest
                 /\ (rest = [] \/ rest = [CFree p]
                     \/ (exists size, rest = [CMalloc size NULL; CFree p])
                     \/ (sizeof_nlmsghdr < len
                         /\ rest = [CMalloc (len - sizeof_nlmsghdr) m; CFree p]
                         /\ exists b, heap w' !! m = Some b
                                      /\ Z.of_nat (length b) = len - sizeof_nlmsghdr))))
       /\ (forall buf cap n ret,
             In (CRecvfrom buf cap n 0 ret) calls -> n = len /\ Z.of_nat cap = len)
       /\ (forall size a,
             In (CMalloc size a) calls -> a <> NULL ->
             size = len - sizeof_nlmsghdr
             /\ exists b, heap w' !! a = Some b
                          /\ Z.of_nat (length b) = len - sizeof_nlmsghdr))
  /\ (alloc_script w = [] -> slen = sizeof_sockaddr_nl -> nl_pid src = 0 ->
      (16 <= length d)%nat -> sizeof_nlmsghdr < len <= INT_MAX ->
      exists r w' b,
        ecryptfs_recv_netlink sk em s t w = Done r w'
        /\ trace w' = trace w ++
             [CRealloc NULL 16 p; CRecvfrom p 16 16 MSG_PEEK 16;
              CRealloc p len p;
              CRecvfrom p (Z.to_nat len) len 0 (Z.min len (Z.of_nat (length d)));
              CMalloc (len - sizeof_nlmsghdr) m; CFree p]
        /\ heap w' !! m = Some b
        /\ Z.of_nat (length b) = len - sizeof_nlmsghdr)
  /\ (alloc_script w = [] -> slen = sizeof_sockaddr_nl -> nl_pid src = 0 ->
      (16 <= length d)%nat -> len = sizeof_nlmsghdr ->
      exists r w',
        ecryptfs_recv_netlink sk em s t w = Done r w'
        /\ trace w' = trace w ++
             [CRealloc NULL 16 p; CRecvfrom p 16 16 MSG_PEEK 16;
              CRealloc p 16 p; CRecvfrom p 16 16 0 16; CFree p]).
Proof.
  intros Hq len p m. unfold sizeof_nlmsghdr. split; [|split].
  - intros r w' H.
    destruct (recv_calls sk em s t w d src slen q r w' Hq H) as (calls & Ht & Hcases).
    fold len p m in Hcases. exists calls. split; [exact Ht|].
    assert (Hshape :
      calls = [CRealloc NULL 16 NULL]
      \/ (exists n1,
            calls = [CRealloc NULL 16 p; CRecvfrom p 16 16 MSG_PEEK n1;
                     CRealloc p (to_size_t (to_int len)) NULL])
      \/ (exists n1 n2 rest,
            0 < len <= INT_MAX
            /\ calls = [CRealloc NULL 16 p; CRecvfrom p 16 16 MSG_PEEK n1;
                        CRealloc p len p; CRecvfrom p (Z.to_nat len) len 0 n2]
                       ++ rest
            /\ (rest = [] \/ rest = [CFree p]
                \/ (exists size, rest = [CMalloc size NULL; CFree p])
                \/ (16 < len
                    /\ rest = [CMalloc (len - 16) m; CFree p]
                    /\ exists b, heap w' !! m = Some b
                                 /\ Z.of_nat (length b) = len - 16)))).
    { destruct Hcases as [E | [E | (n1 & n2 & rest & HL & E & Hrest)]];
        [left; exact E | right; left; exact E |].
      right; right. exists n1, n2, rest. split; [exact HL|]. split; [exact E|].
      destruct Hrest as [E1 | [E1 | [E1 | (H16 & E1 & b & Hb & Lb)]]];
        [left; exact E1 | right; left; exact E1 | right; right; left; exact E1 |].
      right; right; right. split; [exact H16|]. split; [exact E1|].
      exists b. split; [exact Hb | lia]. }
    split; [exact Hshape|]. clear Hshape.
    destruct Hcases as [-> | [(n1 & ->) | (n1 & n2 & rest & HL & -> & Hrest)]].
    + split; intros * Hin; cbn in Hin; intuition discriminate.
    + split; intros * Hin; cbn in Hin.
      * destruct Hin as [E|[E|[E|[]]]]; try discriminate E.
      * destruct Hin as [E|[E|[E|[]]]]; discriminate E.
    + assert (Hread : forall buf cap n ret,
                In (CRecvfrom buf cap n 0 ret) rest -> False).
      { intros * Hin.
        destruct Hrest as [-> | [-> | [(size & ->) | (_ & -> & _)]]];
          cbn in Hin; intuition discriminate. }
      split.
      * intros * Hin. cbn in Hin.
        destruct Hin as [E|[E|[E|[E|Hin]]]]; try discriminate E.
        -- injection E as _ <- <-. unfold INT_MAX in HL. split; [reflexivity | lia].
        -- exfalso. eapply Hread. exact Hin.
      * intros size a Hin Hm. cbn in Hin.
        destruct Hin as [E|[E|[E|[E|Hin]]]]; try discriminate E.
        destruct Hrest as [-> | [-> | [(size' & ->) | (H16 & -> & b & Hb & Lb)]]];
          cbn in Hin.
        -- destruct Hin.
        -- destruct Hin as [E|[]]. discriminate E.
        -- destruct Hin as [E|[E|[]]]; [|discriminate E].
           injection E as _ E. congruence.
        -- destruct Hin as [E|[E|[]]]; [|discriminate E].
           injection E as <- <-.
           split; [reflexivity|]. exists b. split; [exact Hb|]. lia.
  - intros Ha -> Hpid Hd HL.
    destruct (recv_payload_run sk em s t w d src q Hq Ha Hpid Hd HL)
      as (w' & Hrun & Hm & _ & _ & _ & _ & _ & _ & _ & Htr).
    fold len p m in Hrun, Hm, Htr.
    do 3 eexists. split; [exact Hrun|]. split; [exact Htr|]. split; [exact Hm|].
    rewrite length_app, length_fmap, length_take, length_drop, length_replicate.
    unfold INT_MAX in HL. lia.
  - intros Ha -> Hpid Hd Elen.
    destruct (recv_empty_run sk em s t w d src q Hq Ha Hpid Hd Elen)
      as (w' & Hrun & _ & _ & _ & _ & _ & _ & _ & Htr).
    fold p in Htr. do 2 eexists. split; [exact Hrun | exact Htr].
Qed.

Lemma recv_buffer_sizes_witness :
  let w := quiet [Datagram example_request kernel 12] in
  inbox w = Datagram example_request kernel 12 :: []
  /\ exists r w' b,
       ecryptfs_recv_netlink 3 NULL None None w = Done r w'
       /\ trace w' =
            [CRealloc NULL 16 1; CRecvfrom 1 16 16 MSG_PEEK 16;
             CRealloc 1 27 1; CRecvfrom 1 27 27 0 27; CMalloc 11 2; CFree 1]
       /\ heap w' !! 2 = Some b
       /\ Z.of_nat (length b) = 11.
Proof.
  intros w.
  assert (Hq : inbox w = Datagram example_request kernel 12 :: []) by reflexivity.
  assert (Hd : (16 <= length example_request)%nat) by (vm_compute; lia).
  assert (HL : sizeof_nlmsghdr < le_value (take 4 example_request) <= INT_MAX)
    by (vm_compute; split; [reflexivity | discriminate]).
  split; [exact Hq|].
  exact (proj1 (proj2 (recv_buffer_sizes 3 NULL None None w example_request kernel 12 []
                         Hq))
           eq_refl eq_refl eq_refl Hd HL).
Defined.
